(** * chromite/buildbot/lkgm_manager.py: LKGM candidates and their states

    A shallow embedding of [lkgm_manager.py] (Python 2) together with the
    fragment of the Python run time it relies on: values, exceptions,
    decimal conversion, [%]-formatting, [os.path.join], [re.search] for
    the one pattern the module uses, list ordering and [sorted]. *)

From Stdlib Require Import ZArith NArith Ascii String List Bool Lia.
From Stdlib Require Import DecimalString DecimalN DecimalFacts.
From stdpp Require Import base gmap strings.

Local Open Scope Z_scope.
Local Arguments String.append !_ _ / : simpl nomatch.

(** ** Python values, exceptions and results *)

Module Py.

(** The values that occur in the module.  [PyBoundMethod] stands for a
    method object such as [version_info.VersionString] (no call). *)
Inductive pyval :=
  | PyNone
  | PyInt (z : Z)
  | PyStr (s : string)
  | PyBoundMethod (qualname : string).

(** Exceptions.  [RunCommandError], [GitCommandException] and
    [GenerateBuildSpecException] are the classes imported from
    [cros_build_lib] and [manifest_version]; each carries [str(e)].
    [OtherException] is any other class a collaborator may raise.
    [NotModelled] is not a Python exception: it marks behaviour of a
    builtin outside the fragment described here. *)
Inductive exn :=
  | AssertionError (msg : string)
  | TypeError
  | ValueError
  | KeyError (key : string)
  | AttributeError (attr : string)
  | RunCommandError (msg : string)
  | GitCommandException (msg : string)
  | GenerateBuildSpecException (msg : string)
  | OtherException (cls msg : string)
  | NotModelled (what : string).

Inductive result (A : Type) :=
  | Ok (a : A)
  | Raise (e : exn).
Arguments Ok {A} a.
Arguments Raise {A} e.

Definition rbind {A B} (r : result A) (k : A -> result B) : result B :=
  match r with
  | Ok a => k a
  | Raise e => Raise e
  end.

Declare Scope py_scope.
Delimit Scope py_scope with py.
Notation "x <- r ;; k" := (rbind r (fun x => k))
  (at level 100, r at next level, right associativity) : py_scope.

(** Truth value testing: [None], [0] and [''] are false. *)
Definition truthy (v : pyval) : bool :=
  match v with
  | PyNone => false
  | PyInt z => negb (z =? 0)
  | PyStr s => negb (String.eqb s "")
  | PyBoundMethod _ => true
  end.

(** [\d] in a byte-string pattern: the ten ASCII digits. *)
Definition is_digit (c : ascii) : bool :=
  let n := nat_of_ascii c in (48 <=? n)%nat && (n <=? 57)%nat.

Fixpoint all_digits (s : string) : bool :=
  match s with
  | EmptyString => true
  | String c t => is_digit c && all_digits t
  end.

(** [str(n)] for an integer: decimal, no leading zeros, [-] when negative. *)
Definition str_N (n : N) : string := NilEmpty.string_of_uint (N.to_uint n).

Definition str_int (z : Z) : string :=
  if z <? 0 then String "-" (str_N (Z.abs_N z)) else str_N (Z.to_N z).

(** [%s] conversion of a value, i.e. [str(v)]. *)
Definition py_str (v : pyval) : result string :=
  match v with
  | PyNone => Ok "None"%string
  | PyInt z => Ok (str_int z)
  | PyStr s => Ok s
  | PyBoundMethod q => Raise (NotModelled "str of a method object")
  end.

(** [int(v)].  On a string of decimal digits it is the number they
    denote, leading zeros allowed; the empty string raises [ValueError].
    Signs and surrounding blanks, which [int] also accepts, lie outside
    the fragment: the strings converted by the module are [\d+] groups. *)
Definition int_of_digits (s : string) : result Z :=
  match s with
  | EmptyString => Raise ValueError
  | _ =>
    match NilEmpty.uint_of_string s with
    | Some d => Ok (Z.of_N (N.of_uint d))
    | None => Raise (NotModelled "int of a string with a non-digit")
    end
  end.

Definition py_int (v : pyval) : result Z :=
  match v with
  | PyInt z => Ok z
  | PyStr s => int_of_digits s
  | PyNone => Raise TypeError
  | PyBoundMethod _ => Raise TypeError
  end.

(** [a + b] on the values above. *)
Definition py_add (a b : pyval) : result pyval :=
  match a, b with
  | PyInt x, PyInt y => Ok (PyInt (x + y))
  | PyStr x, PyStr y => Ok (PyStr (x +:+ y))
  | _, _ => Raise TypeError
  end.

(** Comparison of two lists of integers: Python orders lists
    lexicographically, a proper prefix being smaller. *)
Fixpoint list_lt (a b : list Z) : bool :=
  match a, b with
  | [], [] => false
  | [], _ :: _ => true
  | _ :: _, [] => false
  | x :: a', y :: b' => (x <? y) || ((x =? y) && list_lt a' b')
  end.

(** Comparison of two byte strings, by character code. *)
Fixpoint str_lt (a b : string) : bool :=
  match a, b with
  | EmptyString, EmptyString => false
  | EmptyString, String _ _ => true
  | String _ _, EmptyString => false
  | String x a', String y b' =>
      (nat_of_ascii x <? nat_of_ascii y)%nat
      || ((nat_of_ascii x =? nat_of_ascii y)%nat && str_lt a' b')
  end.

End Py.
Export Py.
Local Open Scope py_scope.

(** An instance is its attribute dictionary. *)
Abbreviation pyobj := (gmap string pyval).

(** ** String formatting with [%] *)

Module Format.

(** The right operand of [%]: a tuple of values or a dictionary. *)
Inductive fmt_args :=
  | ArgsTuple (items : list pyval)
  | ArgsDict (d : gmap string pyval).

(** Where the next conversion takes its argument from: the remaining
    items of a tuple; the mapping itself, which the first conversion
    without a key receives; the value a [%(key)] selected; or nothing. *)
Inductive argsrc :=
  | SrcItems (l : list pyval)
  | SrcWhole
  | SrcOne (v : pyval)
  | SrcNone.

(** [None] stands for the mapping itself. *)
Definition next_arg (src : argsrc) : result (option pyval * argsrc) :=
  match src with
  | SrcItems (v :: l) => Ok (Some v, SrcItems l)
  | SrcItems [] => Raise TypeError
  | SrcWhole => Ok (None, SrcNone)
  | SrcOne v => Ok (Some v, SrcNone)
  | SrcNone => Raise TypeError
  end.

Inductive fstate :=
  | InText
  | AfterPercent
  | InKey (depth : nat) (key : string)
  | AfterKey.

(** Flags, width, precision and length modifiers. *)
Definition is_modifier (c : ascii) : bool :=
  is_digit c ||
  existsb (Ascii.eqb c) ["-"; "+"; " "; "#"; "*"; "."; "h"; "l"; "L"]%char.

(** Conversion types other than [s] and [%]. *)
Definition is_other_conversion (c : ascii) : bool :=
  existsb (Ascii.eqb c)
    ["d"; "i"; "o"; "u"; "x"; "X"; "e"; "E"; "f"; "F"; "g"; "G"; "c"; "r"]%char.

Definition rcons_char (c : ascii) (r : result string) : result string :=
  s <- r ;; Ok (String c s).

Definition rapp (p : string) (r : result string) : result string :=
  s <- r ;; Ok (p +:+ s).

(** One pass over the format string.  A conversion takes its argument
    before its type character is examined, so a missing argument is
    reported ([TypeError]) before an unsupported character
    ([ValueError]); [%%] takes none.  Flags, widths and the numeric
    conversions are outside the fragment. *)
Fixpoint format (st : fstate) (fmt : string) (d : option (gmap string pyval))
    (src : argsrc) {struct fmt} : result string :=
  match fmt with
  | EmptyString =>
    match st with
    | InText =>
      match d, src with
      | None, SrcItems (_ :: _) => Raise TypeError
      | _, _ => Ok EmptyString
      end
    | _ => Raise ValueError
    end
  | String c t =>
    let convert (src : argsrc) :=
      if Ascii.eqb c "%" then rcons_char "%" (format InText t d src)
      else if is_modifier c then Raise (NotModelled "format flags and widths")
      else
        a <- next_arg src ;;
        if Ascii.eqb c "s" then
          match fst a with
          | Some v => s <- py_str v ;; rapp s (format InText t d (snd a))
          | None => Raise (NotModelled "str of a dictionary")
          end
        else if is_other_conversion c then
          Raise (NotModelled "numeric and repr conversions")
        else Raise ValueError in
    match st with
    | InText =>
      if Ascii.eqb c "%" then format AfterPercent t d src
      else rcons_char c (format InText t d src)
    | AfterPercent =>
      if Ascii.eqb c "(" then
        match d with
        | None => Raise TypeError
        | Some _ => format (InKey 1 EmptyString) t d src
        end
      else convert src
    | InKey depth key =>
      if Ascii.eqb c ")" then
        match depth with
        | 1%nat =>
          match d with
          | Some m =>
            match m !! key with
            | Some v => format AfterKey t d (SrcOne v)
            | None => Raise (KeyError key)
            end
          | None => Raise TypeError
          end
        | _ => format (InKey (Nat.pred depth) (key +:+ String c EmptyString)) t d src
        end
      else if Ascii.eqb c "(" then
        format (InKey (S depth) (key +:+ String c EmptyString)) t d src
      else format (InKey depth (key +:+ String c EmptyString)) t d src
    | AfterKey => convert src
    end
  end.

(** [fmt % args]. *)
Definition percent (fmt : string) (args : fmt_args) : result string :=
  match args with
  | ArgsTuple items => format InText fmt None (SrcItems items)
  | ArgsDict m => format InText fmt (Some m) SrcWhole
  end.

End Format.

(** ** [os.path] *)

Module Posixpath.

Definition startswith_slash (s : string) : bool :=
  match s with
  | String "/" _ => true
  | _ => false
  end.

Fixpoint endswith_slash (s : string) : bool :=
  match s with
  | EmptyString => false
  | String c EmptyString => Ascii.eqb c "/"
  | String _ t => endswith_slash t
  end.

(** One step of the loop of [posixpath.join]. *)
Definition join_step (path b : string) : string :=
  if startswith_slash b then b
  else if String.eqb path "" || endswith_slash path then path +:+ b
  else path +:+ "/" +:+ b.

(** [os.path.join(a, *p)]. *)
Definition join (a : string) (p : list string) : string :=
  fold_left join_step p a.

End Posixpath.

(** ** [sorted(l, key=f)] *)

Module Sorted.

Section Sorted.
Context {A : Type}.

(** The keys are computed first, in order; the first exception of the
    key function is that of [sorted]. *)
Fixpoint decorate (key : A -> result (list Z)) (l : list A)
    : result (list (list Z * A)) :=
  match l with
  | [] => Ok []
  | x :: l' =>
    k <- key x ;;
    r <- decorate key l' ;;
    Ok ((k, x) :: r)
  end.

(** Stable insertion: [x] stood before every element of [l]. *)
Fixpoint insert (x : list Z * A) (l : list (list Z * A)) : list (list Z * A) :=
  match l with
  | [] => [x]
  | y :: l' => if list_lt (fst y) (fst x) then y :: insert x l' else x :: y :: l'
  end.

Definition sort_decorated (l : list (list Z * A)) : list (list Z * A) :=
  fold_right insert [] l.

Definition sorted (l : list A) (key : A -> result (list Z)) : result (list A) :=
  r <- decorate key l ;; Ok (map snd (sort_decorated r)).
End Sorted.

End Sorted.

(** ** [re.search] for [LKGM_RE] *)

Module Re.

(** Greedy [\d*]: the longest run of digits and what follows it. *)
Fixpoint span_digits (s : string) : string * string :=
  match s with
  | String c t =>
    if is_digit c then
      let r := span_digits t in (String c (fst r), snd r)
    else (EmptyString, s)
  | EmptyString => (EmptyString, EmptyString)
  end.

(** [\d+].  The pattern below follows every [\d+] by a character that is
    not a digit or lets it end the match, so a shorter run than the
    longest never leads to a match the longest run does not give, and the
    matcher has no need to backtrack into it. *)
Definition digits1 (s : string) : option (string * string) :=
  match span_digits s with
  | (EmptyString, _) => None
  | (d, r) => Some (d, r)
  end.

(** A literal character. *)
Definition lit (c : ascii) (s : string) : option string :=
  match s with
  | String c' t => if Ascii.eqb c' c then Some t else None
  | EmptyString => None
  end.

Definition obind {A B} (o : option A) (k : A -> option B) : option B :=
  match o with
  | Some a => k a
  | None => None
  end.

(** [\d+\.\d+\.\d+\.\d+] at the start of [s]: the four runs and the rest. *)
Definition match_version (s : string)
    : option (string * string * string * string * string) :=
  obind (digits1 s) (fun '(a, r) =>
  obind (lit "." r) (fun r =>
  obind (digits1 r) (fun '(b, r) =>
  obind (lit "." r) (fun r =>
  obind (digits1 r) (fun '(c, r) =>
  obind (lit "." r) (fun r =>
  obind (digits1 r) (fun '(d, r) =>
  Some (a, b, c, d, r)))))))).

(** [-rc(\d+)] at the start of [s]: group 2 and the rest. *)
Definition match_rc (s : string) : option (string * string) :=
  obind (lit "-" s) (fun r =>
  obind (lit "r" r) (fun r =>
  obind (lit "c" r) (fun r =>
  digits1 r))).

Definition dotted (a b c d : string) : string :=
  a +:+ "." +:+ b +:+ "." +:+ c +:+ "." +:+ d.

(** [(\d+\.\d+\.\d+\.\d+)(?:-rc(\d+))?] at the start of [s]: groups 1
    and 2; the optional part is greedy, and group 2 is [None] when it
    takes no part in the match. *)
Definition match_LKGM (s : string) : option (string * option string) :=
  obind (match_version s) (fun '(a, b, c, d, r) =>
  match match_rc r with
  | Some (n, _) => Some (dotted a b c d, Some n)
  | None => Some (dotted a b c d, None)
  end).

(** [re.search]: the match at the leftmost position that has one. *)
Fixpoint search {G : Type} (m : string -> option G) (s : string) : option G :=
  match m s with
  | Some g => Some g
  | None =>
    match s with
    | String _ t => search m t
    | EmptyString => None
    end
  end.

Definition search_LKGM (s : string) : option (string * option string) :=
  search match_LKGM s.

End Re.

(** ** [manifest_version.VersionInfo] *)

Module VersionInfo.

(** Modelled from the spec: [manifest_version.py] is not among the
    sources.  "Parse(text) -> Version: extracts four dot-separated
    non-negative integers from a pattern [\d+\.\d+\.\d+\.\d+]; fails
    with MalformedVersion if absent".  The constructor stores them in
    the attributes [ver_maj], [ver_min], [ver_sp] and [ver_patch] that
    the subclass reads. *)
Definition init_from_string (self : pyobj) (version_string : string) : result pyobj :=
  match Re.search Re.match_version version_string with
  | None => Raise (OtherException "MalformedVersion" version_string)
  | Some (a, b, c, d, _) =>
    maj <- int_of_digits a ;;
    min <- int_of_digits b ;;
    sp <- int_of_digits c ;;
    patch <- int_of_digits d ;;
    Ok (<["ver_patch" := PyInt patch]>
        (<["ver_sp" := PyInt sp]>
         (<["ver_min" := PyInt min]>
          (<["ver_maj" := PyInt maj]> self))))
  end.

(** Modelled from the spec: the "string form is
    [{major}.{minor}.{servicepack}.{patch}]" of a Version. *)
Definition VersionString (self : pyobj) : result string :=
  match self !! "ver_maj", self !! "ver_min", self !! "ver_sp", self !! "ver_patch" with
  | Some a, Some b, Some c, Some d =>
    Format.percent "%s.%s.%s.%s" (Format.ArgsTuple [a; b; c; d])
  | None, _, _, _ => Raise (AttributeError "ver_maj")
  | _, None, _, _ => Raise (AttributeError "ver_min")
  | _, _, None, _ => Raise (AttributeError "ver_sp")
  | _, _, _, None => Raise (AttributeError "ver_patch")
  end.

(** Modelled from the spec: the names a Version offers besides its four
    components; [DirPrefix] is the method the manager calls for the
    "store-defined bucketing of the major/minor version". *)
Definition class_attr (name : string) : option pyval :=
  if String.eqb name "VersionString" then Some (PyBoundMethod "VersionInfo.VersionString")
  else if String.eqb name "DirPrefix" then Some (PyBoundMethod "VersionInfo.DirPrefix")
  else None.

End VersionInfo.

(** ** [class _LKGMCandidateInfo(manifest_version.VersionInfo)] *)

Module _LKGMCandidateInfo.

Definition LKGM_RE : string := "(\d+\.\d+\.\d+\.\d+)(?:-rc(\d+))?".

(** Attribute lookup on an instance: the instance dictionary, then the
    class, then the base class. *)
Definition class_attr (name : string) : option pyval :=
  if String.eqb name "LKGM_RE" then Some (PyStr LKGM_RE)
  else if String.eqb name "VersionString" then
    Some (PyBoundMethod "_LKGMCandidateInfo.VersionString")
  else if String.eqb name "VersionCompare" then
    Some (PyBoundMethod "_LKGMCandidateInfo.VersionCompare")
  else if String.eqb name "IncrementVersion" then
    Some (PyBoundMethod "_LKGMCandidateInfo.IncrementVersion")
  else VersionInfo.class_attr name.

Definition getattr (self : pyobj) (name : string) : result pyval :=
  match self !! name with
  | Some v => Ok v
  | None =>
    match class_attr name with
    | Some v => Ok v
    | None => Raise (AttributeError name)
    end
  end.

Definition setattr (self : pyobj) (name : string) (v : pyval) : pyobj :=
  <[name := v]> self.

Section Class.
(** [VersionInfo.__init__(version_file=...)]: reads the version file of
    the build tree and sets the four components on [self]. *)
Variable load_version_file : pyval -> pyobj -> result pyobj.

(** [__init__(self, version_string=None, version_file=None)], lines
    47-59.  [match.group(2)] is a string, or [None] when the [-rc]
    part took no part in the match. *)
Definition __init__ (version_string version_file : pyval) : result pyobj :=
  let self := setattr ∅ "ver_revision" PyNone in
  self <-
    (if truthy version_string then
       match version_string with
       | PyStr s =>
         match Re.search_LKGM s with
         | None =>
           msg <- Format.percent "LKGM did not re %s"
                    (Format.ArgsTuple [PyStr LKGM_RE]) ;;
           Raise (AssertionError msg)
         | Some (g1, g2) =>
           self <- VersionInfo.init_from_string self g1 ;;
           Ok (setattr self "ver_revision"
                 match g2 with
                 | Some n => PyStr n
                 | None => PyNone
                 end)
         end
       | _ => Raise TypeError
       end
     else load_version_file version_file self) ;;
  rev <- getattr self "ver_revision" ;;
  if negb (truthy rev) then Ok (setattr self "ver_revision" (PyInt 1))
  else Ok self.

(** [VersionString], lines 61-64. *)
Definition VersionString (self : pyobj) : result string :=
  maj <- getattr self "ver_maj" ;;
  min <- getattr self "ver_min" ;;
  sp <- getattr self "ver_sp" ;;
  patch <- getattr self "ver_patch" ;;
  rev <- getattr self "ver_revision" ;;
  Format.percent "%s.%s.%s.%s-rc%s" (Format.ArgsTuple [maj; min; sp; patch; rev]).

(** [map(int, l)]. *)
Fixpoint map_int (l : list pyval) : result (list Z) :=
  match l with
  | [] => Ok []
  | v :: l' =>
    z <- py_int v ;;
    r <- map_int l' ;;
    Ok (z :: r)
  end.

(** The list [VersionCompare] builds from an instance. *)
Definition compare_key (lkgm : pyobj) : result (list Z) :=
  maj <- getattr lkgm "ver_maj" ;;
  min <- getattr lkgm "ver_min" ;;
  sp <- getattr lkgm "ver_sp" ;;
  patch <- getattr lkgm "ver_patch" ;;
  rev <- getattr lkgm "ver_revision" ;;
  map_int [maj; min; sp; patch; rev].

(** [VersionCompare(cls, version_string)], lines 66-71. *)
Definition VersionCompare (version_string : pyval) : result (list Z) :=
  lkgm <- __init__ version_string PyNone ;;
  compare_key lkgm.

(** [IncrementVersion(self, message, dry_run)], lines 73-76: the value
    returned or the exception raised, and [self] afterwards.
    [self.version_revision += 1] reads the attribute, adds, and stores. *)
Definition IncrementVersion (self : pyobj) (message : pyval) (dry_run : bool)
    : result string * pyobj :=
  match getattr self "version_revision" with
  | Raise e => (Raise e, self)
  | Ok v =>
    match py_add v (PyInt 1) with
    | Raise e => (Raise e, self)
    | Ok v' =>
      let self := setattr self "version_revision" v' in
      (VersionString self, self)
    end
  end.
End Class.

End _LKGMCandidateInfo.

(** ** [class LKGMManager(manifest_version.BuildSpecsManager)] *)

Module LKGMManager.

Definition MAX_TIMEOUT_SECONDS : Z := 300.
Definition SLEEP_TIMEOUT : Z := 30.

(** The fields of the manager the module reads or assigns.  [all],
    [latest_unprocessed] and the two directories are set by the base
    class; a missing or [None] [all] is the empty list here. *)
Record manager := mkManager {
  all : list string;
  latest_unprocessed : pyval;
  current_version : pyval;
  build_name : string;
  manifest_dir : string;
  manifests_dir : string
}.

Definition set_current_version (v : pyval) (m : manager) : manager :=
  mkManager (all m) (latest_unprocessed m) v (build_name m)
            (manifest_dir m) (manifests_dir m).

(** What a run does to its surroundings, in order: commands run, calls
    of methods of the base class, log records, sleeps. *)
Inductive event :=
  | EvRunCommand (cmd : list string) (cwd : string)
  | EvCall (method : string)
  | EvLog (level msg : string) (args : list pyval)
  | EvSleep (secs : Z).

(** What [_GetLatestLKGMCandidate] hands on: a list of spec names or an
    instance of [_LKGMCandidateInfo]. *)
Inductive lkgm_value :=
  | LkgmList (l : list string)
  | LkgmInfo (c : pyobj).

Section Manager.
(** The world outside the process: the local checkout, the remote
    store, the clock. *)
Variable World : Type.

(** [time.time()], in whole seconds here: the reading, and the world
    after it (time passes between two readings, and the wall clock may
    be set). *)
Variable time : World -> Z * World.
(** [time.sleep(secs)]. *)
Variable sleep : Z -> World -> World.
(** [os.path.lexists(path)]. *)
Variable lexists : World -> string -> bool.
(** [cros_lib.RunCommand(cmd, cwd=cwd)]. *)
Variable RunCommand : list string -> string -> World -> result unit * World.
(** [VersionInfo.__init__(version_file=...)]. *)
Variable load_version_file : pyval -> pyobj -> result pyobj.

(** The methods of [BuildSpecsManager] the module calls; each reads and
    assigns fields of the manager and acts on the world. *)
Variable _GetCurrentVersionInfo :
  pyval -> manager * World -> result pyobj * (manager * World).
Variable BuildSpecsManager_LoadSpecs :
  pyobj -> string -> manager * World -> result unit * (manager * World).
Variable _CreateNewBuildSpec :
  lkgm_value -> manager * World -> result pyval * (manager * World).
Variable _SetInFlight :
  string -> manager * World -> result unit * (manager * World).

Record state := mkState {
  self : manager;
  world : World;
  trace : list event
}.

(** Computations: a result or an exception, and the state afterwards. *)
Definition M (A : Type) : Type := state -> result A * state.

Definition ret {A} (a : A) : M A := fun st => (Ok a, st).

Definition bind {A B} (m : M A) (k : A -> M B) : M B :=
  fun st =>
    match m st with
    | (Ok a, st') => k a st'
    | (Raise e, st') => (Raise e, st')
    end.

Definition lift {A} (r : result A) : M A := fun st => (r, st).

Definition raise {A} (e : exn) : M A := fun st => (Raise e, st).

Definition emit (ev : event) : M unit :=
  fun st => (Ok tt, mkState (self st) (world st) (trace st ++ [ev])).

Definition get_self : M manager := fun st => (Ok (self st), st).

Definition assign_current_version (v : pyval) : M unit :=
  fun st => (Ok tt, mkState (set_current_version v (self st)) (world st) (trace st)).

(** A call of a method of the base class. *)
Definition call {A} (name : string)
    (f : manager * World -> result A * (manager * World)) : M A :=
  fun st =>
    let r := f (self st, world st) in
    (fst r, mkState (fst (snd r)) (snd (snd r)) (trace st ++ [EvCall name])).

Definition logging (level msg : string) (args : list pyval) : M unit :=
  emit (EvLog level msg args).

Definition run_command (cmd : list string) (cwd : string) : M unit :=
  fun st =>
    let r := RunCommand cmd cwd (world st) in
    (fst r, mkState (self st) (snd r) (trace st ++ [EvRunCommand cmd cwd])).

Definition time_sleep (secs : Z) : M unit :=
  fun st => (Ok tt, mkState (self st) (sleep secs (world st)) (trace st ++ [EvSleep secs])).

Definition time_time : M Z :=
  fun st =>
    let r := time (world st) in
    (Ok (fst r), mkState (self st) (snd r) (trace st)).

Definition os_path_lexists (path : string) : M bool :=
  fun st => (Ok (lexists (world st) path), st).

(** [try: body except (RunCommandError, GitCommandException) as e:
    handler(e)]. *)
Definition try_except {A} (body : M A) (handler : string -> M A) : M A :=
  fun st =>
    match body st with
    | (Raise (RunCommandError msg), st') => handler msg st'
    | (Raise (GitCommandException msg), st') => handler msg st'
    | r => r
    end.

Notation "x <- m ;;; k" := (bind m (fun x => k))
  (at level 100, m at next level, right associativity).
Notation "m ;;; k" := (bind m (fun _ => k))
  (at level 100, right associativity).

(** [_SyncGitRepo(local_dir)], lines 19-25. *)
Definition _SyncGitRepo (local_dir : string) : M unit :=
  run_command ["git"; "remote"; "update"]%string local_dir ;;;
  run_command ["git"; "rebase"; "origin/master"]%string local_dir.

(** [_LoadSpecs], lines 91-96. *)
Definition _LoadSpecs (version_info : pyobj) : M unit :=
  call "_LoadSpecs" (BuildSpecsManager_LoadSpecs version_info "LKGM-candidates").

Definition compare_versions_fn (s : string) : result (list Z) :=
  _LKGMCandidateInfo.VersionCompare load_version_file (PyStr s).

(** [_GetLatestLKGMCandidate], lines 98-109.  [version_info] is the
    [VersionInfo] of the version file; the last line passes its bound
    method [VersionString], not the string it returns. *)
Definition _GetLatestLKGMCandidate (all : list string) (version_info : pyobj)
    : result lkgm_value :=
  let fallback :=
    c <- _LKGMCandidateInfo.__init__ load_version_file
           (PyBoundMethod "VersionInfo.VersionString") PyNone ;;
    Ok (LkgmInfo c) in
  match all with
  | [] => fallback
  | _ =>
    v <- VersionInfo.VersionString version_info ;;
    let matched_lkgms := List.filter (fun ver => String.eqb ver v) all in
    match matched_lkgms with
    | [] => fallback
    | _ =>
      l <- Sorted.sorted matched_lkgms compare_versions_fn ;;
      Ok (LkgmList l)
    end
  end.

(** Lines 128-132 and 157-161, the same in both entry points: when
    [self.current_version] is true, log it and mark it in flight. *)
Definition claim_current_version : M unit :=
  m <- get_self ;;;
  if truthy (current_version m) then
    logging "debug" "Using build spec: %s" [current_version m] ;;;
    commit_message <- lift (Format.percent "Automatic: Start %s %s"
                              (Format.ArgsTuple [PyStr (build_name m);
                                                 current_version m])) ;;;
    call "_SetInFlight" (_SetInFlight commit_message)
  else ret tt.

(** The body of the [try] of [CreateNextLKGMCandidate], lines 123-134. *)
Definition CreateNextLKGMCandidate_body (version_file : pyval) : M pyval :=
  version_info <- call "_GetCurrentVersionInfo" (_GetCurrentVersionInfo version_file) ;;;
  _LoadSpecs version_info ;;;
  m <- get_self ;;;
  lkgm_info <- lift (_GetLatestLKGMCandidate (all m) version_info) ;;;
  v <- call "_CreateNewBuildSpec" (_CreateNewBuildSpec lkgm_info) ;;;
  assign_current_version v ;;;
  claim_current_version ;;;
  m <- get_self ;;;
  ret (current_version m).

(** The handler, lines 136-140. *)
Definition generation_failed (prefix : string) (e : string) : M pyval :=
  err_msg <- lift (Format.percent prefix (Format.ArgsTuple [PyStr e])) ;;;
  logging "error" err_msg [] ;;;
  raise (GenerateBuildSpecException err_msg).

(** [CreateNextLKGMCandidate(self, version_file, retries=0)]. *)
Definition CreateNextLKGMCandidate (version_file : pyval) (retries : Z) : M pyval :=
  try_except (CreateNextLKGMCandidate_body version_file)
    (generation_failed "Failed to generate LKGM Candidate. error: %s").

(** The body of the [try] of [GetNextLKGMCandidate], lines 154-163. *)
Definition GetNextLKGMCandidate_body (version_file : pyval) : M pyval :=
  version_info <- call "_GetCurrentVersionInfo" (_GetCurrentVersionInfo version_file) ;;;
  _LoadSpecs version_info ;;;
  m <- get_self ;;;
  assign_current_version (latest_unprocessed m) ;;;
  claim_current_version ;;;
  m <- get_self ;;;
  ret (current_version m).

(** [GetNextLKGMCandidate(self, version_file, retries=0)]. *)
Definition GetNextLKGMCandidate (version_file : pyval) (retries : Z) : M pyval :=
  try_except (GetNextLKGMCandidate_body version_file)
    (generation_failed "Failed to get next LKGM Candidate. error: %s").

(** *** [GetOthersStatuses], lines 171-213 *)

(** [self.current_version.DirPrefix()], line 176.  [current_version]
    is the spec [_CreateNewBuildSpec] returned or the
    [latest_unprocessed] one (lines 127 and 156): a string, or [None]
    (lines 117-118).  [DirPrefix] is a method of [VersionInfo]; [None],
    an integer, a string and a method object have no such attribute. *)
Definition call_DirPrefix (v : pyval) : result pyval :=
  match v with
  | PyNone | PyInt _ | PyStr _ | PyBoundMethod _ => Raise (AttributeError "DirPrefix")
  end.

(** Lines 177-181: the three path templates, from the [xml_name] and
    the [dir_pfx] of lines 173 and 176. *)
Definition specs_for_build (manifest_dir : string) : string :=
  Posixpath.join manifest_dir ["LKGM-candidates"; "build-name"; "%{build_name}s"]%string.

Definition status_file (manifest_dir status dir_pfx xml_name : string) : string :=
  Posixpath.join (specs_for_build manifest_dir) [status; dir_pfx; xml_name].

(** [v not in ['pass', 'fail']] *)
Definition not_complete (v : pyval) : bool :=
  match v with
  | PyStr s => negb (String.eqb s "pass" || String.eqb s "fail")
  | _ => true
  end.

(** The local variables of the loop. *)
Record locals := mkLocals {
  other_statuses : gmap string pyval;
  num_complete : Z
}.

(** The [if]/[elif] chain of lines 195-204. *)
Definition check_markers (other other_pass other_fail other_inflight : string)
    (l : locals) : M locals :=
  p <- os_path_lexists other_pass ;;;
  if p then ret (mkLocals (<[other := PyStr "pass"]> (other_statuses l)) (num_complete l + 1))
  else
    f <- os_path_lexists other_fail ;;;
    if f then ret (mkLocals (<[other := PyStr "fail"]> (other_statuses l)) (num_complete l + 1))
    else
      i <- os_path_lexists other_inflight ;;;
      if i then ret (mkLocals (<[other := PyStr "inflight"]> (other_statuses l)) (num_complete l))
      else ret (mkLocals (<[other := PyNone]> (other_statuses l)) (num_complete l)).

(** The body of [for other in others], lines 191-204. *)
Definition poll_other (pass_file fail_file inflight_file other : string)
    (l : locals) : M locals :=
  if not_complete (default PyNone (other_statuses l !! other)) then
    let args := Format.ArgsDict {[ "build-name" := PyStr other ]} in
    other_pass <- lift (Format.percent pass_file args) ;;;
    other_fail <- lift (Format.percent fail_file args) ;;;
    other_inflight <- lift (Format.percent inflight_file args) ;;;
    check_markers other other_pass other_fail other_inflight l
  else ret l.

Fixpoint for_others (pass_file fail_file inflight_file : string)
    (others : list string) (l : locals) : M locals :=
  match others with
  | [] => ret l
  | other :: rest =>
    l <- poll_other pass_file fail_file inflight_file other l ;;;
    for_others pass_file fail_file inflight_file rest l
  end.

(** One turn of the [while] loop, lines 189-208. *)
Definition poll_round (manifests_dir pass_file fail_file inflight_file : string)
    (others : list string) (l : locals) : M locals :=
  _SyncGitRepo manifests_dir ;;;
  l <- for_others pass_file fail_file inflight_file others l ;;;
  (if num_complete l <? Z.of_nat (length others) then
     logging "info" "Waiting for other builds to complete" [] ;;;
     time_sleep SLEEP_TIMEOUT
   else ret tt) ;;;
  ret l.

(** The [while] loop, line 188; [None] when [fuel] turns do not end it. *)
Fixpoint poll_loop (fuel : nat) (start_time : Z)
    (manifests_dir pass_file fail_file inflight_file : string)
    (others : list string) (l : locals) (st : state)
    : option (result locals * state) :=
  match fuel with
  | O => None
  | S fuel =>
    match time_time st with
    | (Ok t, st) =>
      if t - start_time <? MAX_TIMEOUT_SECONDS then
        match poll_round manifests_dir pass_file fail_file inflight_file others l st with
        | (Ok l, st) =>
          poll_loop fuel start_time manifests_dir pass_file fail_file inflight_file
                    others l st
        | (Raise e, st) => Some (Raise e, st)
        end
      else Some (Ok l, st)
    | (Raise e, st) => Some (Raise e, st)
    end
  end.

(** Lines 210-213. *)
Definition report (others : list string) (l : locals) : M (gmap string pyval) :=
  (if negb (num_complete l =? Z.of_nat (length others)) then
     logging "error" "Not all builds finished before MAX_TIMEOUT reached." []
   else ret tt) ;;;
  ret (other_statuses l).

(** Lines 177-213, for the [xml_name] and the [dir_pfx] that lines 173
    and 176 give. *)
Definition poll_builders (fuel : nat) (xml_name dir_pfx : string)
    (others : list string) (st : state)
    : option (result (gmap string pyval) * state) :=
  let pass_file := status_file (manifest_dir (self st)) "pass" dir_pfx xml_name in
  let fail_file := status_file (manifest_dir (self st)) "fail" dir_pfx xml_name in
  let inflight_file := status_file (manifest_dir (self st)) "inflight" dir_pfx xml_name in
  match time_time st with
  | (Ok start_time, st) =>
    match poll_loop fuel start_time (manifests_dir (self st))
            pass_file fail_file inflight_file others (mkLocals ∅ 0) st with
    | None => None
    | Some (Ok l, st) => Some (report others l st)
    | Some (Raise e, st) => Some (Raise e, st)
    end
  | (Raise e, st) => Some (Raise e, st)
  end.

(** [GetOthersStatuses(self, others)], lines 171-213.  Line 173 adds
    ['.xml'] to [self.current_version] and line 176 calls its
    [DirPrefix]: the first raises [TypeError] on [None], the second
    [AttributeError] on a string.  [os.path.join] in the lines that
    follow takes strings. *)
Definition GetOthersStatuses (fuel : nat) (others : list string) (st : state)
    : option (result (gmap string pyval) * state) :=
  match py_add (current_version (self st)) (PyStr ".xml") with
  | Raise e => Some (Raise e, st)
  | Ok xml_name =>
    match call_DirPrefix (current_version (self st)) with
    | Raise e => Some (Raise e, st)
    | Ok dir_pfx =>
      match xml_name, dir_pfx with
      | PyStr xml_name, PyStr dir_pfx => poll_builders fuel xml_name dir_pfx others st
      | _, _ => Some (Raise TypeError, st)
      end
    end
  end.

(** [PromoteLKGMCandidate], lines 215-218. *)
Definition PromoteLKGMCandidate : M unit := ret tt.

End Manager.

End LKGMManager.

(** * Definitions used in the statements *)

(** The text [MAJOR.MINOR.SP.PATCH-rcREV] of a candidate. *)
Definition candidate_text (maj min sp patch rev : N) : string :=
  Re.dotted (str_N maj) (str_N min) (str_N sp) (str_N patch) +:+ "-rc" +:+ str_N rev.

(** A string of one digit or more. *)
Definition digit_string (s : string) : Prop :=
  s <> EmptyString /\ all_digits s = true.

(** [s] does not begin with a digit. *)
Definition no_digit_ahead (s : string) : bool :=
  match s with
  | String c _ => negb (is_digit c)
  | EmptyString => true
  end.

(** [s] contains the version pattern [\d+\.\d+\.\d+\.\d+]. *)
Definition contains_version (s : string) : Prop :=
  exists pre a b c d post,
    s = pre +:+ Re.dotted a b c d +:+ post /\
    digit_string a /\ digit_string b /\ digit_string c /\ digit_string d.

Fixpoint no_percent (s : string) : bool :=
  match s with
  | EmptyString => true
  | String c t => negb (Ascii.eqb c "%") && no_percent t
  end.

(** The five attributes of a candidate. *)
Definition has_fields (c : pyobj) (maj min sp patch : Z) (rev : pyval) : Prop :=
  c !! "ver_maj" = Some (PyInt maj) /\ c !! "ver_min" = Some (PyInt min) /\
  c !! "ver_sp" = Some (PyInt sp) /\ c !! "ver_patch" = Some (PyInt patch) /\
  c !! "ver_revision" = Some rev.

(** The revisions a candidate can hold: the integer the constructor
    supplies, or the digits of an [-rc] suffix. *)
Definition revision_ok (rev : pyval) : Prop :=
  match rev with
  | PyInt z => 0 <= z
  | PyStr n => digit_string n
  | _ => False
  end.

(** A candidate as the constructor builds them. *)
Definition well_formed (c : pyobj) : Prop :=
  exists maj min sp patch rev,
    has_fields c (Z.of_N maj) (Z.of_N min) (Z.of_N sp) (Z.of_N patch) rev /\
    revision_ok rev.

(** The attribute value for group 2 of a match. *)
Definition revision_of_group (g2 : option string) : pyval :=
  match g2 with
  | Some n => PyStr n
  | None => PyInt 1
  end.

(** [int(c.ver_revision)], the revision as [VersionCompare] reads it. *)
Definition revision_number (c : pyobj) : result Z :=
  rev <- _LKGMCandidateInfo.getattr c "ver_revision" ;; py_int rev.

(** A build tree without a version file. *)
Definition no_version_file (version_file : pyval) (self : pyobj) : result pyobj :=
  Raise (OtherException "IOError" "No such file or directory").

(** The instance built from ['1.2.3.4'], and the one from ['1.2.3.4-rc1']. *)
Definition cand_1_2_3_4 : pyobj :=
  <["ver_revision" := PyInt 1]>
    (<["ver_patch" := PyInt 4]> (<["ver_sp" := PyInt 3]>
      (<["ver_min" := PyInt 2]> (<["ver_maj" := PyInt 1]> ∅)))).

Definition cand_1_2_3_4_rc1 : pyobj :=
  <["ver_revision" := PyStr "1"]>
    (<["ver_patch" := PyInt 4]> (<["ver_sp" := PyInt 3]>
      (<["ver_min" := PyInt 2]> (<["ver_maj" := PyInt 1]> ∅)))).

Definition cand_1_2_3_4_rc0 : pyobj :=
  <["ver_revision" := PyStr "0"]>
    (<["ver_patch" := PyInt 4]> (<["ver_sp" := PyInt 3]>
      (<["ver_min" := PyInt 2]> (<["ver_maj" := PyInt 1]> ∅)))).

(** ** A world for the examples *)

(** A clock, the time that passes between two readings of it, the time
    a command takes, and the paths that exist in the checkout. *)
Record world := mkWorld {
  clock : Z;
  drift : Z;
  cmd_secs : Z;
  files : list string
}.

Definition advance (secs : Z) (w : world) : world :=
  mkWorld (clock w + secs) (drift w) (cmd_secs w) (files w).

Definition w_time (w : world) : Z * world := (clock w, advance (Z.max 0 (drift w)) w).

Definition w_sleep (secs : Z) (w : world) : world := advance (Z.max 0 secs) w.

Definition w_lexists (w : world) (path : string) : bool :=
  existsb (String.eqb path) (files w).

(** Every command succeeds and takes a second or more. *)
Definition w_RunCommand (cmd : list string) (cwd : string) (w : world)
    : result unit * world :=
  (Ok tt, advance (Z.max 1 (cmd_secs w)) w).

(** The [VersionInfo] of version 1.2.3.4. *)
Definition version_1_2_3_4 : pyobj :=
  <["ver_patch" := PyInt 4]> (<["ver_sp" := PyInt 3]>
    (<["ver_min" := PyInt 2]> (<["ver_maj" := PyInt 1]> ∅))).

(** The manager of builder [x86-generic-pre-flight-queue] on candidate
    1.2.3.4-rc1, its manifests under [/m]. *)
Definition a_manager (published : list string) : LKGMManager.manager :=
  LKGMManager.mkManager published PyNone (PyStr "1.2.3.4-rc1")
    "x86-generic-pre-flight-queue" "/m" "/m".

Definition a_state (published : list string) (w : world) : LKGMManager.state world :=
  LKGMManager.mkState world (a_manager published) w [].

(** The marker of builder [A] for candidate 1.2.3.4-rc1, by the path
    scheme of the store. *)
Definition marker_of_A (status : string) : string :=
  "/m/LKGM-candidates/build-name/A/" +:+ status +:+ "/1.2/1.2.3.4-rc1.xml".

(** [GetOthersStatuses(others)] of that manager in the world [w]. *)
Definition GetOthersStatuses_in (w : world) (fuel : nat) (others : list string) :=
  LKGMManager.GetOthersStatuses world w_time w_sleep w_lexists w_RunCommand
    fuel others (a_state [] w).

(** The template of lines 177-181 for [status], with the file name
    [1.2.3.4-rc1.xml] that line 173 gives for that manager and the
    directory prefix [1.2]. *)
Definition template (status : string) : string :=
  LKGMManager.status_file "/m" status "1.2" "1.2.3.4-rc1.xml".

(** Lines 177-213 with these names. *)
Definition poll_builders_in (w : world) (fuel : nat) (others : list string) :=
  LKGMManager.poll_builders world w_time w_sleep w_lexists w_RunCommand
    fuel "1.2.3.4-rc1.xml" "1.2" others (a_state [] w).

(** One turn of the loop, and the loop with the clock first read at 0,
    with these templates and the local variables [l]. *)
Definition poll_round_in (w : world) (others : list string) (l : LKGMManager.locals) :=
  LKGMManager.poll_round world w_sleep w_lexists w_RunCommand "/m"
    (template "pass") (template "fail") (template "inflight") others l (a_state [] w).

Definition poll_loop_in (w : world) (fuel : nat) (others : list string)
    (l : LKGMManager.locals) :=
  LKGMManager.poll_loop world w_time w_sleep w_lexists w_RunCommand fuel 0 "/m"
    (template "pass") (template "fail") (template "inflight") others l (a_state [] w).

(** The result alone, and the trace alone, of a run that ends. *)
Definition outcome {A S : Type} (r : option (result A * S)) : option (result A) :=
  option_map fst r.

Definition events_of {A : Type} (r : option (result A * LKGMManager.state world))
    : option (list LKGMManager.event) :=
  option_map (fun x => LKGMManager.trace world (snd x)) r.

Definition sync_events : list LKGMManager.event :=
  [LKGMManager.EvRunCommand ["git"; "remote"; "update"]%string "/m";
   LKGMManager.EvRunCommand ["git"; "rebase"; "origin/master"]%string "/m"].

(** What [posixpath.join] puts between [path] and a relative component. *)
Definition sep_after (path : string) : string :=
  if String.eqb path "" || Posixpath.endswith_slash path then ""%string else "/"%string.

(** The record [logging.error] writes when the time is up. *)
Definition timeout_record : LKGMManager.event :=
  LKGMManager.EvLog "error" "Not all builds finished before MAX_TIMEOUT reached." [].

(** The names of the methods of the base class called, in order. *)
Fixpoint calls_of (evs : list LKGMManager.event) : list string :=
  match evs with
  | [] => []
  | LKGMManager.EvCall name :: evs => name :: calls_of evs
  | _ :: evs => calls_of evs
  end.

(** The record [logging.error] writes in the handler. *)
Definition error_record (msg : string) : LKGMManager.event :=
  LKGMManager.EvLog "error" msg [].

(** An exception that the [except] clause of the two entry points names. *)
Definition is_command_error (e : exn) : bool :=
  match e with
  | RunCommandError _ | GitCommandException _ => true
  | _ => false
  end.

(** ** Collaborators for the examples *)

Definition read_version (version_file : pyval) (mw : LKGMManager.manager * world)
    : result pyobj * (LKGMManager.manager * world) :=
  (Ok version_1_2_3_4, mw).

Definition unreadable_version (version_file : pyval) (mw : LKGMManager.manager * world)
    : result pyobj * (LKGMManager.manager * world) :=
  (Raise (OtherException "IOError" "No such file or directory"), mw).

(** The base class finds the specs [published] in the store. *)
Definition load_specs (published : list string) (version_info : pyobj) (dir : string)
    (mw : LKGMManager.manager * world)
    : result unit * (LKGMManager.manager * world) :=
  (Ok tt,
   (LKGMManager.mkManager published (LKGMManager.latest_unprocessed (fst mw))
      (LKGMManager.current_version (fst mw)) (LKGMManager.build_name (fst mw))
      (LKGMManager.manifest_dir (fst mw)) (LKGMManager.manifests_dir (fst mw)),
    snd mw)).

Definition new_build_spec (lkgm_info : LKGMManager.lkgm_value)
    (mw : LKGMManager.manager * world)
    : result pyval * (LKGMManager.manager * world) :=
  (Ok (PyStr "1.2.3.4-rc1"), mw).

Definition set_in_flight (message : string) (mw : LKGMManager.manager * world)
    : result unit * (LKGMManager.manager * world) :=
  (Ok tt, mw).

Definition push_rejected (message : string) (mw : LKGMManager.manager * world)
    : result unit * (LKGMManager.manager * world) :=
  (Raise (GitCommandException "push rejected"), mw).

Definition quiet_world : world := mkWorld 0 0 1 [].

(** The four components of a [VersionInfo]. *)
Definition version_fields (vi : pyobj) (maj min sp patch : N) : Prop :=
  vi !! "ver_maj" = Some (PyInt (Z.of_N maj)) /\
  vi !! "ver_min" = Some (PyInt (Z.of_N min)) /\
  vi !! "ver_sp" = Some (PyInt (Z.of_N sp)) /\
  vi !! "ver_patch" = Some (PyInt (Z.of_N patch)).

(** [str(e)] of an exception. *)
Definition exn_message (e : exn) : string :=
  match e with
  | AssertionError msg | RunCommandError msg | GitCommandException msg
  | GenerateBuildSpecException msg | OtherException _ msg => msg
  | KeyError k => k
  | AttributeError a => a
  | NotModelled w => w
  | TypeError | ValueError => ""
  end.

(** How an entry point treats the outcome of the body of its [try]: an
    exception of the two classes named by the [except] clause is logged
    and replaced by a [GenerateBuildSpecException] whose message is
    [prefix] followed by [str(e)]; any other outcome is that of the
    entry point; and the methods of the base class called are, in order,
    the first few of [names], each once. *)
Definition wraps_command_errors {World : Type} (prefix : string) (names : list string)
    (body entry : LKGMManager.M World pyval) : Prop :=
  forall st : LKGMManager.state World,
    (forall e st1,
       body st = (Raise e, st1) -> is_command_error e = true ->
       entry st =
         (Raise (GenerateBuildSpecException (prefix +:+ exn_message e)),
          LKGMManager.mkState World (LKGMManager.self World st1)
            (LKGMManager.world World st1)
            (LKGMManager.trace World st1 ++ [error_record (prefix +:+ exn_message e)]))) /\
    (forall e st1,
       body st = (Raise e, st1) -> is_command_error e = false ->
       entry st = (Raise e, st1)) /\
    (forall v st1, body st = (Ok v, st1) -> entry st = (Ok v, st1)) /\
    (exists evs,
       LKGMManager.trace World (snd (entry st)) = LKGMManager.trace World st ++ evs /\
       calls_of evs `prefix_of` names).

Definition git_failed (version_file : pyval) (mw : LKGMManager.manager * world)
    : result pyobj * (LKGMManager.manager * world) :=
  (Raise (RunCommandError "git remote update failed"), mw).

Definition CreateNext_in
    (get_version : pyval -> LKGMManager.manager * world
                   -> result pyobj * (LKGMManager.manager * world))
    (published : list string)
    (in_flight : string -> LKGMManager.manager * world
                 -> result unit * (LKGMManager.manager * world)) :=
  LKGMManager.CreateNextLKGMCandidate world no_version_file get_version
    (load_specs published) new_build_spec in_flight
    (PyStr "chromeos_version.sh") 0 (a_state [] quiet_world).

(** * chromite/buildbot/cbuildbot_config.py: the table of builders *)

Module CbuildbotConfig.

(** The values of the table: [None], a boolean or a string. *)
Inductive cfgval :=
  | CNone
  | CBool (b : bool)
  | CStr (s : string).

#[global] Instance cfgval_eq_dec : EqDecision cfgval.
Proof. solve_decision. Defined.

(** A dictionary literal; no literal of the file repeats a key. *)
Definition dict (items : list (string * cfgval)) : gmap string cfgval :=
  list_to_map items.

(** [default], lines 69-103. *)
Definition default : gmap string cfgval :=
  dict [("master", CBool false); ("important", CBool false);
        ("useflags", CNone); ("usepkg", CBool true); ("chroot_replace", CBool false);
        ("uprev", CBool false); ("rev_overlays", CStr "public");
        ("push_overlays", CNone); ("chrome_rev", CNone);
        ("chrome_tests", CBool false);
        ("unittests", CBool true); ("quick_unit", CBool true);
        ("vm_tests", CBool true); ("quick_vm", CBool true);
        ("gs_path", CStr "default");
        ("build_type", CBool false); ("archive_build_debug", CBool false);
        ("test_mod", CBool false); ("factory_install_mod", CBool false);
        ("factory_test_mod", CBool false);
        ("git_url", CStr "http://git.chromium.org/git/manifest");
        ("manifest_version", CNone)].

(** [arm], lines 105-114. *)
Definition arm : gmap string cfgval :=
  dict [("unittests", CBool false); ("vm_tests", CBool false);
        ("factory_install_mod", CBool false); ("factory_test_mod", CBool false);
        ("useflags", CNone)].

(** [full], lines 116-130. *)
Definition full : gmap string cfgval :=
  dict [("usepkg", CBool false); ("chroot_replace", CBool true);
        ("quick_unit", CBool false); ("quick_vm", CBool true);
        ("build_type", CStr "full"); ("archive_build_debug", CBool true);
        ("test_mod", CBool true); ("factory_install_mod", CBool true);
        ("factory_test_mod", CBool true)].

(** [d.update(u)]: the keys of [u] take the values of [u]. *)
Definition update (d u : gmap string cfgval) : gmap string cfgval := u ∪ d.

(** [add_config(name, updates)], lines 135-140, on the global [config]
    and a given [default]. *)
Definition add_config_from (default : gmap string cfgval) (name : string)
    (updates : list (gmap string cfgval))
    (config : gmap string (gmap string cfgval)) : gmap string (gmap string cfgval) :=
  let new_config := fold_left update updates default in
  <[name := new_config]> config.

Definition add_config : string -> list (gmap string cfgval)
    -> gmap string (gmap string cfgval) -> gmap string (gmap string cfgval) :=
  add_config_from default.

(** The calls of lines 143-261, in order. *)
Definition calls : list (string * list (gmap string cfgval)) :=
  [("x86-generic-pre-flight-queue",
    [dict [("board", CStr "x86-generic"); ("master", CBool true);
           ("hostname", CStr "chromeosbuild2"); ("uprev", CBool true);
           ("build_type", CStr "preflight"); ("rev_overlays", CStr "public");
           ("push_overlays", CStr "public")]]);
   ("x86-generic-chrome-pre-flight-queue",
    [dict [("board", CStr "x86-generic"); ("master", CBool true);
           ("build_type", CStr "chrome"); ("uprev", CBool false);
           ("chrome_tests", CBool true); ("rev_overlays", CStr "public");
           ("push_overlays", CStr "public")]]);
   ("x86-mario-pre-flight-queue",
    [dict [("board", CStr "x86-mario"); ("master", CBool true);
           ("uprev", CBool true); ("rev_overlays", CStr "both");
           ("push_overlays", CStr "private");
           ("gs_path", CStr "gs://chromeos-x86-mario/pre-flight-master")]]);
   ("x86-alex-pre-flight-branch",
    [dict [("board", CStr "x86-alex"); ("master", CBool false);
           ("uprev", CBool true); ("rev_overlays", CStr "both");
           ("push_overlays", CNone)]]);
   ("x86-mario-pre-flight-branch",
    [dict [("board", CStr "x86-mario"); ("master", CBool true);
           ("uprev", CBool true); ("rev_overlays", CStr "both");
           ("push_overlays", CStr "both")]]);
   ("x86-agz-bin",
    [dict [("board", CStr "x86-agz"); ("uprev", CBool true);
           ("rev_overlays", CStr "both"); ("push_overlays", CNone)]]);
   ("x86-dogfood-bin",
    [dict [("board", CStr "x86-dogfood"); ("uprev", CBool true);
           ("rev_overlays", CStr "both"); ("push_overlays", CNone)]]);
   ("x86-pineview-bin",
    [dict [("board", CStr "x86-pineview"); ("uprev", CBool true);
           ("rev_overlays", CStr "public"); ("push_overlays", CNone)]]);
   ("arm-tegra2-bin",
    [arm; dict [("board", CStr "tegra2_dev-board"); ("uprev", CBool true);
                ("rev_overlays", CStr "public"); ("push_overlays", CNone)]]);
   ("arm-generic-bin",
    [arm; dict [("board", CStr "arm-generic"); ("uprev", CBool true);
                ("rev_overlays", CStr "public"); ("push_overlays", CNone)]]);
   ("arm-generic-full", [arm; full; dict [("board", CStr "arm-generic")]]);
   ("arm-tegra2-full", [arm; full; dict [("board", CStr "tegra2_dev-board")]]);
   ("arm-tegra2-seaboard-full", [arm; full; dict [("board", CStr "tegra2_seaboard")]]);
   ("x86-generic-full", [full; dict [("board", CStr "x86-generic")]]);
   ("x86-pineview-full", [full; dict [("board", CStr "x86-pineview")]]);
   ("x86-generic-manifest",
    [dict [("board", CStr "x86-generic");
           ("git_url", CStr "ssh://git@gitrw.chromium.org:9222/manifest-internal");
           ("manifest_version",
            CStr "ssh://git@gitrw.chromium.org:9222/manifest-versions")]])]%string.

(** [config] once the module is loaded. *)
Definition config : gmap string (gmap string cfgval) :=
  fold_left (fun c call => add_config (fst call) (snd call) c) calls ∅.

End CbuildbotConfig.

(** [push] names overlays that [rev] names too: [push_overlays] "should
    be a subset of rev_overlays". *)
Definition overlays_within (push rev : option CbuildbotConfig.cfgval) : bool :=
  match push, rev with
  | Some CbuildbotConfig.CNone, _ => true
  | Some (CbuildbotConfig.CStr p), Some (CbuildbotConfig.CStr r) =>
      String.eqb p r || String.eqb r "both"
  | _, _ => false
  end.

(** The conditions the docstring of the table puts on an entry: it
    names a board, [push_overlays] is [None] if the builder is not a
    master, and [push_overlays] is within [rev_overlays]. *)
Definition builder_ok (c : gmap string CbuildbotConfig.cfgval) : bool :=
  match c !! "board" with
  | Some (CbuildbotConfig.CStr _) => true
  | _ => false
  end
  && (bool_decide (c !! "master" = Some (CbuildbotConfig.CBool true))
      || bool_decide (c !! "push_overlays" = Some CbuildbotConfig.CNone))
  && overlays_within (c !! "push_overlays") (c !! "rev_overlays").

(** The settings of [full] are those of the entry when it is a full build. *)
Definition full_settings_ok (c : gmap string CbuildbotConfig.cfgval) : bool :=
  negb (bool_decide (c !! "build_type" = Some (CbuildbotConfig.CStr "full")))
  || (bool_decide (c !! "usepkg" = Some (CbuildbotConfig.CBool false))
      && bool_decide (c !! "chroot_replace" = Some (CbuildbotConfig.CBool true))
      && bool_decide (c !! "test_mod" = Some (CbuildbotConfig.CBool true))
      && bool_decide (c !! "factory_install_mod" = Some (CbuildbotConfig.CBool true))
      && bool_decide (c !! "factory_test_mod" = Some (CbuildbotConfig.CBool true))).

(** Every key of [default] is a key of [c]. *)
Definition has_default_keys (c : gmap string CbuildbotConfig.cfgval) : bool :=
  forallb (fun q : string * CbuildbotConfig.cfgval => bool_decide (is_Some (c !! fst q)))
          (map_to_list CbuildbotConfig.default).

(** A version file at 1.2.3.4: the base constructor sets the four
    components and leaves the other attributes alone. *)
Definition version_file_1_2_3_4 (version_file : pyval) (self : pyobj) : result pyobj :=
  Ok (<["ver_patch" := PyInt 4]> (<["ver_sp" := PyInt 3]>
        (<["ver_min" := PyInt 2]> (<["ver_maj" := PyInt 1]> self)))).

(** The text of a candidate from the digits as written. *)
Definition lkgm_text (a b c d n post : string) : string :=
  Re.dotted a b c d +:+ "-rc" +:+ n +:+ post.


(** The values [GetOthersStatuses] stores. *)
Definition is_status (v : pyval) : bool :=
  match v with
  | PyNone => true
  | PyStr s => String.eqb s "pass" || String.eqb s "fail" || String.eqb s "inflight"
  | _ => false
  end.

(** The base class finds [latest] to be the latest unprocessed spec. *)
Definition load_latest (latest : pyval) (version_info : pyobj) (dir : string)
    (mw : LKGMManager.manager * world)
    : result unit * (LKGMManager.manager * world) :=
  (Ok tt,
   (LKGMManager.mkManager (LKGMManager.all (fst mw)) latest
      (LKGMManager.current_version (fst mw)) (LKGMManager.build_name (fst mw))
      (LKGMManager.manifest_dir (fst mw)) (LKGMManager.manifests_dir (fst mw)),
    snd mw)).

(** [num_complete] counts the builders whose status is ['pass'] or
    ['fail'], each once, and all of them are in [others]. *)
Definition counted (others : list string) (l : LKGMManager.locals) : Prop :=
  exists T : gset string,
    (forall k, k ∈ T <->
       exists v, LKGMManager.other_statuses l !! k = Some v /\
                 LKGMManager.not_complete v = false) /\
    LKGMManager.num_complete l = Z.of_nat (size T) /\
    T ⊆ list_to_set others.

(** ** More inputs for the examples *)


(** A checkout with the pass marker of [A]; a command takes 100 seconds. *)
Definition passed_world : world := mkWorld 0 0 100 [marker_of_A "pass"].

(** The entry that [add_config('arm-generic-full', [arm, full, {...}])] makes. *)
Definition arm_generic_full : gmap string CbuildbotConfig.cfgval :=
  fold_left CbuildbotConfig.update
    [CbuildbotConfig.arm; CbuildbotConfig.full;
     CbuildbotConfig.dict [("board", CbuildbotConfig.CStr "arm-generic")]]
    CbuildbotConfig.default.

(** A way to create a spec that takes a list of names only. *)
Definition spec_from_list (lkgm_info : LKGMManager.lkgm_value)
    (mw : LKGMManager.manager * world)
    : result pyval * (LKGMManager.manager * world) :=
  match lkgm_info with
  | LKGMManager.LkgmList _ => (Ok (PyStr "1.2.3.4-rc1"), mw)
  | LKGMManager.LkgmInfo _ => (Raise (AttributeError "VersionString"), mw)
  end.

(** The builder [other] has no final status in [l]: line 191. *)
Definition unfinished (l : LKGMManager.locals) (other : string) : bool :=
  LKGMManager.not_complete (default PyNone (LKGMManager.other_statuses l !! other)).

(** * The Python fragment *)

Lemma append_assoc (a b c : string) : (a +:+ b) +:+ c = a +:+ (b +:+ c).
Proof. induction a as [|x a IH]; simpl; [reflexivity | now rewrite IH]. Qed.

Lemma append_nil_r (a : string) : a +:+ EmptyString = a.
Proof. induction a as [|x a IH]; simpl; [reflexivity | now rewrite IH]. Qed.

Lemma is_digit_uint_of_char (c : ascii) (d : Decimal.uint) :
  is_digit c = true -> uint_of_char c (Some d) <> None.
Proof.
  destruct c as [[] [] [] [] [] [] [] []]; vm_compute; congruence.
Qed.

Lemma uint_of_char_is_digit (c : ascii) (o : option Decimal.uint) (d : Decimal.uint) :
  uint_of_char c o = Some d -> is_digit c = true.
Proof.
  destruct c as [[] [] [] [] [] [] [] []]; destruct o; vm_compute; congruence.
Qed.

Lemma all_digits_uint_of_string (s : string) :
  all_digits s = true <-> NilEmpty.uint_of_string s <> None.
Proof.
  induction s as [|c s IH]; simpl.
  - split; [congruence | reflexivity].
  - rewrite andb_true_iff, IH. split.
    + intros [Hc Hs]. destruct (NilEmpty.uint_of_string s) as [d|]; [|congruence].
      now apply is_digit_uint_of_char.
    + intros H. destruct (uint_of_char c (NilEmpty.uint_of_string s)) as [d|] eqn:E; [|congruence].
      split; [eapply uint_of_char_is_digit; eassumption|].
      destruct (NilEmpty.uint_of_string s); [congruence|].
      destruct c as [[] [] [] [] [] [] [] []]; vm_compute in E; congruence.
Qed.

Lemma all_digits_string_of_uint (d : Decimal.uint) :
  all_digits (NilEmpty.string_of_uint d) = true.
Proof. induction d; simpl; auto. Qed.

Lemma to_uint_not_Nil (n : N) : N.to_uint n <> Decimal.Nil.
Proof.
  intros H. pose proof (DecimalN.Unsigned.of_to n) as E. rewrite H in E.
  simpl in E. subst n. discriminate H.
Qed.

Lemma str_N_digit_string (n : N) : digit_string (str_N n).
Proof.
  split.
  - unfold str_N. pose proof (to_uint_not_Nil n) as H.
    destruct (N.to_uint n); simpl; congruence.
  - apply all_digits_string_of_uint.
Qed.

(** [int(str(n)) == n]. *)
Lemma int_of_digits_str_N (n : N) : int_of_digits (str_N n) = Ok (Z.of_N n).
Proof.
  unfold int_of_digits. destruct (str_N_digit_string n) as [Hne _].
  destruct (str_N n) eqn:E; [congruence|]. rewrite <- E. unfold str_N.
  now rewrite NilEmpty.usu, DecimalN.Unsigned.of_to.
Qed.

(** [int] of a string of digits is a number that is not negative. *)
Lemma int_of_digits_digit_string (s : string) :
  digit_string s -> exists n : N, int_of_digits s = Ok (Z.of_N n).
Proof.
  intros [Hne Hd]. unfold int_of_digits.
  apply all_digits_uint_of_string in Hd.
  destruct s; [congruence|].
  destruct (NilEmpty.uint_of_string (String a s)) as [d|]; [|congruence].
  eauto.
Qed.

Lemma str_int_of_N (n : N) : str_int (Z.of_N n) = str_N n.
Proof.
  unfold str_int. destruct (Z.ltb_spec (Z.of_N n) 0); [lia|].
  now rewrite N2Z.id.
Qed.

(** * The pattern [LKGM_RE] *)

Lemma span_digits_spec (s : string) :
  s = fst (Re.span_digits s) +:+ snd (Re.span_digits s) /\
  all_digits (fst (Re.span_digits s)) = true /\
  no_digit_ahead (snd (Re.span_digits s)) = true.
Proof.
  induction s as [|c s IH]; simpl; [auto|].
  destruct (is_digit c) eqn:E; simpl.
  - destruct IH as (H1 & H2 & H3). rewrite E, H2, <- H1. auto.
  - rewrite E. auto.
Qed.

Lemma span_digits_app (d r : string) :
  all_digits d = true -> no_digit_ahead r = true ->
  Re.span_digits (d +:+ r) = (d, r).
Proof.
  intros Hd Hr. induction d as [|c d IH]; simpl in *.
  - destruct r as [|c r]; simpl in *; [reflexivity|].
    apply negb_true_iff in Hr. now rewrite Hr.
  - apply andb_true_iff in Hd as [Hc Hd]. now rewrite Hc, IH.
Qed.

Lemma digits1_app (d r : string) :
  digit_string d -> no_digit_ahead r = true -> Re.digits1 (d +:+ r) = Some (d, r).
Proof.
  intros [Hne Hd] Hr. unfold Re.digits1. rewrite span_digits_app by assumption.
  destruct d; congruence.
Qed.

Lemma digits1_inv (s d r : string) :
  Re.digits1 s = Some (d, r) ->
  s = d +:+ r /\ digit_string d /\ no_digit_ahead r = true.
Proof.
  unfold Re.digits1. destruct (span_digits_spec s) as (H1 & H2 & H3).
  destruct (Re.span_digits s) as [d' r']; simpl in *.
  destruct d'; [discriminate|]. intros [= <- <-].
  repeat split; auto; discriminate.
Qed.

Lemma lit_inv (c : ascii) (s r : string) :
  Re.lit c s = Some r -> s = String c r.
Proof.
  destruct s as [|c' s]; simpl; [discriminate|].
  destruct (Ascii.eqb_spec c' c); [|discriminate]. now intros [= <-]; subst.
Qed.

Lemma lit_cons (c : ascii) (s : string) : Re.lit c (String c s) = Some s.
Proof. simpl. now rewrite Ascii.eqb_refl. Qed.

Lemma dotted_app (a b c d r : string) :
  Re.dotted a b c d +:+ r = a +:+ "." +:+ b +:+ "." +:+ c +:+ "." +:+ d +:+ r.
Proof. unfold Re.dotted. now rewrite !append_assoc. Qed.

(** A run of the version pattern at the start of [s]: the fourth
    component takes every digit available. *)
Lemma match_version_app (a b c d r : string) :
  digit_string a -> digit_string b -> digit_string c -> digit_string d ->
  no_digit_ahead r = true ->
  Re.match_version (Re.dotted a b c d +:+ r) = Some (a, b, c, d, r).
Proof.
  intros Ha Hb Hc Hd Hr. rewrite dotted_app. unfold Re.match_version.
  rewrite (digits1_app a) by (assumption || reflexivity). simpl.
  rewrite (digits1_app b) by (assumption || reflexivity). simpl.
  rewrite (digits1_app c) by (assumption || reflexivity). simpl.
  rewrite (digits1_app d) by assumption. reflexivity.
Qed.

Lemma match_version_inv (s a b c d r : string) :
  Re.match_version s = Some (a, b, c, d, r) ->
  s = Re.dotted a b c d +:+ r /\
  digit_string a /\ digit_string b /\ digit_string c /\ digit_string d /\
  no_digit_ahead r = true.
Proof.
  unfold Re.match_version, Re.obind.
  destruct (Re.digits1 s) as [[a' r1]|] eqn:E1; [|discriminate].
  destruct (Re.lit "." r1) as [r1'|] eqn:L1; [|discriminate].
  destruct (Re.digits1 r1') as [[b' r2]|] eqn:E2; [|discriminate].
  destruct (Re.lit "." r2) as [r2'|] eqn:L2; [|discriminate].
  destruct (Re.digits1 r2') as [[c' r3]|] eqn:E3; [|discriminate].
  destruct (Re.lit "." r3) as [r3'|] eqn:L3; [|discriminate].
  destruct (Re.digits1 r3') as [[d' r4]|] eqn:E4; [|discriminate].
  intros [= <- <- <- <- <-].
  apply digits1_inv in E1 as (-> & Ha & _), E2 as (-> & Hb & _),
    E3 as (-> & Hc & _), E4 as (-> & Hd & Hr).
  apply lit_inv in L1 as ->, L2 as ->, L3 as ->.
  rewrite dotted_app. auto 10.
Qed.

Lemma match_rc_app (n r : string) :
  digit_string n -> no_digit_ahead r = true ->
  Re.match_rc ("-rc" +:+ n +:+ r) = Some (n, r).
Proof. intros Hn Hr. unfold Re.match_rc. simpl. now apply digits1_app. Qed.

Lemma match_rc_inv (s n r : string) :
  Re.match_rc s = Some (n, r) ->
  s = "-rc" +:+ n +:+ r /\ digit_string n /\ no_digit_ahead r = true.
Proof.
  unfold Re.match_rc, Re.obind.
  destruct (Re.lit "-" s) as [r1|] eqn:L1; [|discriminate].
  destruct (Re.lit "r" r1) as [r2|] eqn:L2; [|discriminate].
  destruct (Re.lit "c" r2) as [r3|] eqn:L3; [|discriminate].
  intros E. apply digits1_inv in E as (-> & Hn & Hr).
  apply lit_inv in L1 as ->, L2 as ->, L3 as ->. auto.
Qed.

Lemma search_here {G : Type} (m : string -> option G) (s : string) (g : G) :
  m s = Some g -> Re.search m s = Some g.
Proof. intros H. destruct s; simpl; now rewrite H. Qed.

(** A successful search found its groups at some place of the string. *)
Lemma search_inv {G : Type} (m : string -> option G) (s : string) (g : G) :
  Re.search m s = Some g -> exists pre t, s = pre +:+ t /\ m t = Some g.
Proof.
  induction s as [|c s IH]; simpl.
  - destruct (m EmptyString) eqn:E; [|discriminate].
    intros [= <-]. now exists EmptyString, EmptyString.
  - destruct (m (String c s)) eqn:E.
    + intros [= <-]. now exists EmptyString, (String c s).
    + intros H. destruct (IH H) as (pre & t & -> & Ht).
      now exists (String c pre), t.
Qed.

(** The search succeeds as soon as some place of the string matches. *)
Lemma search_complete {G : Type} (m : string -> option G) (pre t : string) :
  m t <> None -> Re.search m (pre +:+ t) <> None.
Proof.
  intros H. induction pre as [|c pre IH]; simpl.
  - destruct t; simpl; destruct (m _); congruence.
  - destruct (m (String c (pre +:+ t))); [congruence | assumption].
Qed.

(** * [_LKGMCandidateInfo] *)

Section CandidateInfo.
Variable load_version_file : pyval -> pyobj -> result pyobj.

Local Abbreviation init := (_LKGMCandidateInfo.__init__ load_version_file).
Local Abbreviation VersionCompare := (_LKGMCandidateInfo.VersionCompare load_version_file).

Lemma search_version_dotted (a b c d : string) :
  digit_string a -> digit_string b -> digit_string c -> digit_string d ->
  Re.search Re.match_version (Re.dotted a b c d) = Some (a, b, c, d, EmptyString).
Proof.
  intros Ha Hb Hc Hd. apply search_here.
  rewrite <- (append_nil_r (Re.dotted a b c d)) at 1.
  now apply match_version_app.
Qed.

Lemma match_LKGM_inv (s g1 : string) (g2 : option string) :
  Re.match_LKGM s = Some (g1, g2) ->
  exists a b c d,
    g1 = Re.dotted a b c d /\
    digit_string a /\ digit_string b /\ digit_string c /\ digit_string d /\
    (forall n, g2 = Some n -> digit_string n).
Proof.
  unfold Re.match_LKGM, Re.obind.
  destruct (Re.match_version s) as [[[[[a b] c] d] r]|] eqn:E; [|discriminate].
  apply match_version_inv in E as (_ & Ha & Hb & Hc & Hd & _).
  destruct (Re.match_rc r) as [[n r']|] eqn:E2.
  - apply match_rc_inv in E2 as (_ & Hn & _).
    intros [= <- <-]. exists a, b, c, d.
    split; [reflexivity|]. do 4 (split; [assumption|]).
    intros m [= <-]. exact Hn.
  - intros [= <- <-]. exists a, b, c, d.
    split; [reflexivity|]. do 4 (split; [assumption|]). discriminate.
Qed.

Lemma digit_string_truthy (n : string) : digit_string n -> truthy (PyStr n) = true.
Proof. intros [Hne _]. simpl. destruct n; [congruence | reflexivity]. Qed.

(** What the constructor builds once the search has found its groups. *)
Lemma init_of_match (s a b c d : string) (g2 : option string)
    (maj min sp patch : Z) (version_file : pyval) :
  Re.search_LKGM s = Some (Re.dotted a b c d, g2) ->
  digit_string a -> digit_string b -> digit_string c -> digit_string d ->
  (forall n, g2 = Some n -> digit_string n) ->
  int_of_digits a = Ok maj -> int_of_digits b = Ok min ->
  int_of_digits c = Ok sp -> int_of_digits d = Ok patch ->
  exists cand,
    init (PyStr s) version_file = Ok cand /\
    has_fields cand maj min sp patch (revision_of_group g2) /\
    cand !! "version_revision" = None.
Proof.
  intros Hs Ha Hb Hc Hd Hn Ea Eb Ec Ed.
  assert (Hne : truthy (PyStr s) = true).
  { destruct s; [discriminate Hs | reflexivity]. }
  unfold _LKGMCandidateInfo.__init__. rewrite Hne.
  fold Re.search_LKGM in Hs. rewrite Hs.
  unfold VersionInfo.init_from_string.
  rewrite (search_version_dotted a b c d Ha Hb Hc Hd), Ea, Eb, Ec, Ed.
  cbn [rbind]. unfold _LKGMCandidateInfo.getattr, _LKGMCandidateInfo.setattr.
  rewrite lookup_insert_eq. cbn [rbind].
  destruct g2 as [n|].
  - rewrite (digit_string_truthy n (Hn n eq_refl)). cbn [negb].
    eexists. split; [reflexivity|]. split; [|now simplify_map_eq].
    unfold has_fields. now simplify_map_eq.
  - cbn [truthy negb].
    eexists. split; [reflexivity|]. split; [|now simplify_map_eq].
    unfold has_fields. now simplify_map_eq.
Qed.

Lemma init_of_groups (s g1 : string) (g2 : option string) (version_file : pyval) :
  Re.search_LKGM s = Some (g1, g2) ->
  exists cand (maj min sp patch : N),
    init (PyStr s) version_file = Ok cand /\
    has_fields cand (Z.of_N maj) (Z.of_N min) (Z.of_N sp) (Z.of_N patch)
               (revision_of_group g2) /\
    (forall n, g2 = Some n -> digit_string n) /\
    cand !! "version_revision" = None.
Proof.
  intros Hs.
  destruct (search_inv _ _ _ Hs) as (pre & t & _ & Ht).
  destruct (match_LKGM_inv _ _ _ Ht) as (a & b & c & d & -> & Ha & Hb & Hc & Hd & Hn).
  destruct (int_of_digits_digit_string a Ha) as [maj Ea].
  destruct (int_of_digits_digit_string b Hb) as [min Eb].
  destruct (int_of_digits_digit_string c Hc) as [sp Ec].
  destruct (int_of_digits_digit_string d Hd) as [patch Ed].
  destruct (init_of_match s a b c d g2 _ _ _ _ version_file Hs Ha Hb Hc Hd Hn Ea Eb Ec Ed)
    as (cand & E & F & V).
  exists cand, maj, min, sp, patch. auto.
Qed.

(** The search on a version text followed by [-rc] and digits. *)
Lemma search_LKGM_text (a b c d n : string) :
  digit_string a -> digit_string b -> digit_string c -> digit_string d ->
  digit_string n ->
  Re.search_LKGM (Re.dotted a b c d +:+ "-rc" +:+ n) = Some (Re.dotted a b c d, Some n).
Proof.
  intros Ha Hb Hc Hd Hn. apply search_here. unfold Re.match_LKGM.
  rewrite match_version_app by (assumption || reflexivity). cbn [Re.obind].
  rewrite <- (append_nil_r n) at 1.
  now rewrite (match_rc_app n EmptyString Hn eq_refl).
Qed.

(** The search on a bare version text. *)
Lemma search_LKGM_bare (a b c d : string) :
  digit_string a -> digit_string b -> digit_string c -> digit_string d ->
  Re.search_LKGM (Re.dotted a b c d) = Some (Re.dotted a b c d, None).
Proof.
  intros Ha Hb Hc Hd. apply search_here. unfold Re.match_LKGM.
  rewrite <- (append_nil_r (Re.dotted a b c d)) at 1.
  now rewrite match_version_app by (assumption || reflexivity).
Qed.


Lemma compare_key_fields (cand : pyobj) (maj min sp patch r : Z) (rev : pyval) :
  has_fields cand maj min sp patch rev -> py_int rev = Ok r ->
  _LKGMCandidateInfo.compare_key cand = Ok [maj; min; sp; patch; r].
Proof.
  intros (H1 & H2 & H3 & H4 & H5) Hr.
  unfold _LKGMCandidateInfo.compare_key, _LKGMCandidateInfo.getattr.
  rewrite H1, H2, H3, H4, H5. cbn [rbind _LKGMCandidateInfo.map_int py_int].
  now rewrite Hr.
Qed.

Lemma digits1_more (d post : string) :
  digit_string d -> Re.digits1 (d +:+ post) <> None.
Proof.
  intros [Hne Hd]. unfold Re.digits1.
  destruct d as [|x d]; [congruence|]. simpl in *.
  apply andb_true_iff in Hd as [Hx _]. rewrite Hx. simpl. discriminate.
Qed.

(** The pattern is found in every string that contains a version. *)
Lemma contains_version_search (s : string) :
  contains_version s -> Re.search_LKGM s <> None.
Proof.
  intros (pre & a & b & c & d & post & -> & Ha & Hb & Hc & Hd).
  apply search_complete. rewrite dotted_app. unfold Re.match_LKGM, Re.match_version.
  rewrite (digits1_app a) by (assumption || reflexivity). simpl.
  rewrite (digits1_app b) by (assumption || reflexivity). simpl.
  rewrite (digits1_app c) by (assumption || reflexivity). simpl.
  destruct (Re.digits1 (d +:+ post)) as [[d' r]|] eqn:E.
  - simpl. destruct (Re.match_rc r) as [[n r']|]; discriminate.
  - now apply digits1_more in E.
Qed.

Lemma init_well_formed (s : string) (version_file : pyval) :
  contains_version s ->
  exists cand, init (PyStr s) version_file = Ok cand /\ well_formed cand.
Proof.
  intros H. apply contains_version_search in H.
  destruct (Re.search_LKGM s) as [[g1 g2]|] eqn:E; [|congruence].
  destruct (init_of_groups s g1 g2 version_file E)
    as (cand & maj & min & sp & patch & Hi & Hf & Hn & _).
  exists cand. split; [assumption|].
  exists maj, min, sp, patch, (revision_of_group g2). split; [assumption|].
  destruct g2 as [n|]; simpl; [now apply Hn | lia].
Qed.

(** The text of a revision is a string of digits, and reads back as the
    same number. *)
Lemma revision_text (rev : pyval) :
  revision_ok rev ->
  exists sr r, py_str rev = Ok sr /\ digit_string sr /\
               py_int rev = Ok r /\ int_of_digits sr = Ok r /\ 0 <= r.
Proof.
  destruct rev as [|z|n|]; simpl; try contradiction.
  - intros Hz. exists (str_N (Z.to_N z)), z.
    rewrite <- (Z2N.id z) at 1 by assumption. rewrite str_int_of_N.
    repeat split; try apply str_N_digit_string; try assumption.
    rewrite int_of_digits_str_N. now rewrite Z2N.id.
  - intros Hn. destruct (int_of_digits_digit_string n Hn) as [r Hr].
    exists n, (Z.of_N r). repeat split; try apply Hn; try assumption. lia.
Qed.


(** The key of the text [MAJOR.MINOR.SP.PATCH-rcREV] is the list of its
    five numbers. *)
Lemma VersionCompare_text (maj min sp patch rev : N) :
  VersionCompare (PyStr (candidate_text maj min sp patch rev)) =
    Ok [Z.of_N maj; Z.of_N min; Z.of_N sp; Z.of_N patch; Z.of_N rev].
Proof.
  unfold _LKGMCandidateInfo.VersionCompare, candidate_text.
  pose proof (search_LKGM_text (str_N maj) (str_N min) (str_N sp) (str_N patch)
                (str_N rev)
                (str_N_digit_string _) (str_N_digit_string _)
                (str_N_digit_string _) (str_N_digit_string _)
                (str_N_digit_string _)) as Hsearch.
  destruct (init_of_match _ _ _ _ _ (Some (str_N rev)) _ _ _ _ PyNone Hsearch
              (str_N_digit_string _) (str_N_digit_string _)
              (str_N_digit_string _) (str_N_digit_string _)
              (fun n (E : Some (str_N rev) = Some n) =>
                 eq_ind (str_N rev) digit_string (str_N_digit_string rev) n
                        (f_equal (default (str_N rev)) E))
              (int_of_digits_str_N maj) (int_of_digits_str_N min)
              (int_of_digits_str_N sp) (int_of_digits_str_N patch))
    as (c & Hc & Hf & _).
  rewrite Hc. cbn [rbind].
  apply (compare_key_fields c _ _ _ _ _ (PyStr (str_N rev)) Hf).
  apply int_of_digits_str_N.
Qed.

Lemma list_lt_last (a b c d x y : Z) :
  x < y -> list_lt [a; b; c; d; x] [a; b; c; d; y] = true.
Proof.
  intros H. simpl. rewrite !Z.eqb_refl, !Z.ltb_irrefl. simpl.
  apply Z.ltb_lt in H. now rewrite H.
Qed.

Lemma list_lt_patch (a b c x y r : Z) :
  x < y -> list_lt [a; b; c; x; r] [a; b; c; y; r] = true.
Proof.
  intros H. simpl. rewrite !Z.eqb_refl, !Z.ltb_irrefl. simpl.
  apply Z.ltb_lt in H. now rewrite H.
Qed.

(** C5: comparison through [VersionCompare] is the lexicographic order
    of the list of integers [major, minor, sp, patch, rev], not that of
    the strings: the key of a candidate text is the list of its five
    numbers; of two versions that differ only in patch, with the same
    revision, the one with the smaller patch has the smaller key; and
    the key of revision [r] is smaller than that of revision [r + 1] of
    the same version. *)
Theorem VersionCompare_integer_order (maj min sp p1 p2 r : N) :
  (p1 < p2)%N ->
  exists k1 k2 k3,
    VersionCompare (PyStr (candidate_text maj min sp p1 r)) = Ok k1 /\
    VersionCompare (PyStr (candidate_text maj min sp p2 r)) = Ok k2 /\
    VersionCompare (PyStr (candidate_text maj min sp p1 (r + 1))) = Ok k3 /\
    k1 = [Z.of_N maj; Z.of_N min; Z.of_N sp; Z.of_N p1; Z.of_N r] /\
    list_lt k1 k2 = true /\ list_lt k2 k1 = false /\
    list_lt k1 k3 = true /\ list_lt k3 k1 = false.
Proof.
  intros H.
  exists [Z.of_N maj; Z.of_N min; Z.of_N sp; Z.of_N p1; Z.of_N r],
         [Z.of_N maj; Z.of_N min; Z.of_N sp; Z.of_N p2; Z.of_N r],
         [Z.of_N maj; Z.of_N min; Z.of_N sp; Z.of_N p1; Z.of_N (r + 1)].
  rewrite !VersionCompare_text.
  do 4 (split; [reflexivity|]).
  repeat split.
  - apply list_lt_patch. lia.
  - simpl. rewrite !Z.eqb_refl, !Z.ltb_irrefl. simpl.
    destruct (Z.ltb_spec (Z.of_N p2) (Z.of_N p1)); [lia|].
    destruct (Z.eqb_spec (Z.of_N p2) (Z.of_N p1)); [lia | reflexivity].
  - rewrite list_lt_last; [reflexivity | lia].
  - simpl. rewrite !Z.eqb_refl, !Z.ltb_irrefl. simpl.
    destruct (Z.ltb_spec (Z.of_N (r + 1)) (Z.of_N r)); [lia|].
    now rewrite andb_false_r.
Qed.

(** C9, as amended: for every string that contains the version
    pattern the constructor succeeds, and the revision of the
    candidate is the number written by the digits of the [-rc] suffix
    found by the search when there is one, which is 0 or more, and the
    integer 1 when there is none. *)
Theorem init_revision (s : string) (version_file : pyval) :
  contains_version s ->
  exists g1 g2 c r,
    Re.search_LKGM s = Some (g1, g2) /\
    init (PyStr s) version_file = Ok c /\
    c !! "ver_revision" = Some (revision_of_group g2) /\
    revision_number c = Ok r /\ 0 <= r /\
    (g2 = None -> r = 1) /\
    (forall n, g2 = Some n -> digit_string n /\ int_of_digits n = Ok r).
Proof.
  intros H. apply contains_version_search in H.
  destruct (Re.search_LKGM s) as [[g1 g2]|] eqn:E; [|congruence].
  destruct (init_of_groups s g1 g2 version_file E)
    as (c & maj & min & sp & patch & Hi & Hf & Hn & _).
  pose proof Hf as (_ & _ & _ & _ & F5).
  assert (Hrev : revision_ok (revision_of_group g2)).
  { destruct g2 as [n|]; simpl; [now apply Hn | lia]. }
  destruct (revision_text _ Hrev) as (sr & r & Hs & Hd & Hr & Hr' & Hpos).
  exists g1, g2, c, r. split; [reflexivity|]. split; [assumption|].
  split; [assumption|]. split.
  { unfold revision_number, _LKGMCandidateInfo.getattr. now rewrite F5. }
  split; [assumption|]. split.
  - intros ->. simpl in Hr. congruence.
  - intros n ->. split; [now apply Hn|]. exact Hr.
Qed.

(** The suffix found by the search is the one that follows the version
    text, up to the last of its digits. *)
Lemma init_revision_suffix (a b c d n post : string) :
  digit_string a -> digit_string b -> digit_string c -> digit_string d ->
  digit_string n -> no_digit_ahead post = true ->
  Re.search_LKGM (Re.dotted a b c d +:+ "-rc" +:+ n +:+ post)
    = Some (Re.dotted a b c d, Some n).
Proof.
  intros Ha Hb Hc Hd Hn Hp. apply search_here. unfold Re.match_LKGM.
  rewrite match_version_app by (assumption || reflexivity). cbn [Re.obind].
  now rewrite (match_rc_app n post Hn Hp).
Qed.

(** Without such a suffix after the version text the group is absent. *)
Lemma init_revision_default (a b c d post : string) :
  digit_string a -> digit_string b -> digit_string c -> digit_string d ->
  no_digit_ahead post = true -> Re.match_rc post = None ->
  Re.search_LKGM (Re.dotted a b c d +:+ post) = Some (Re.dotted a b c d, None).
Proof.
  intros Ha Hb Hc Hd Hp Hrc. apply search_here. unfold Re.match_LKGM.
  rewrite match_version_app by assumption. cbn [Re.obind]. now rewrite Hrc.
Qed.

(** [IncrementVersion] on an instance built from a string: the
    attribute it reads does not exist. *)
Lemma IncrementVersion_AttributeError (s : string) (version_file message : pyval)
    (dry_run : bool) (c : pyobj) :
  contains_version s -> init (PyStr s) version_file = Ok c ->
  _LKGMCandidateInfo.IncrementVersion c message dry_run
    = (Raise (AttributeError "version_revision"), c).
Proof.
  intros H Hc. apply contains_version_search in H.
  destruct (Re.search_LKGM s) as [[g1 g2]|] eqn:E; [|congruence].
  destruct (init_of_groups s g1 g2 version_file E)
    as (c' & maj & min & sp & patch & Hi & _ & _ & Hv).
  rewrite Hi in Hc. injection Hc as <-.
  unfold _LKGMCandidateInfo.IncrementVersion, _LKGMCandidateInfo.getattr.
  now rewrite Hv.
Qed.
End CandidateInfo.

(** ** The constructor on particular strings *)

Example init_bare :
  _LKGMCandidateInfo.__init__ no_version_file (PyStr "1.2.3.4") PyNone = Ok cand_1_2_3_4.
Proof. vm_compute. reflexivity. Qed.

Example init_rc1 :
  _LKGMCandidateInfo.__init__ no_version_file (PyStr "1.2.3.4-rc1") PyNone
    = Ok cand_1_2_3_4_rc1.
Proof. vm_compute. reflexivity. Qed.

Example init_rc0 :
  _LKGMCandidateInfo.__init__ no_version_file (PyStr "1.2.3.4-rc0") PyNone
    = Ok cand_1_2_3_4_rc0.
Proof. vm_compute. reflexivity. Qed.

(** The search is for the leftmost match: a fifth component hides the
    suffix that follows it. *)
Example init_five_components :
  Re.search_LKGM "1.2.3.4.5-rc2" = Some ("1.2.3.4"%string, None).
Proof. reflexivity. Qed.

(** After the round trip of a bare version the attribute is the string
    ['1'] where it was the integer [1]; the number is the same. *)
Example init_bare_reparsed :
  _LKGMCandidateInfo.VersionString cand_1_2_3_4 = Ok "1.2.3.4-rc1"%string /\
  cand_1_2_3_4 !! "ver_revision" = Some (PyInt 1) /\
  cand_1_2_3_4_rc1 !! "ver_revision" = Some (PyStr "1").
Proof. repeat split; vm_compute; reflexivity. Qed.


Lemma VersionCompare_integer_order_witness :
  (9 < 10)%N /\
  exists k1 k2,
    _LKGMCandidateInfo.VersionCompare no_version_file (PyStr "1.2.3.9-rc1") = Ok k1 /\
    _LKGMCandidateInfo.VersionCompare no_version_file (PyStr "1.2.3.10-rc1") = Ok k2 /\
    list_lt k1 k2 = true /\
    str_lt "1.2.3.9-rc1" "1.2.3.10-rc1" = false.
Proof.
  split; [lia|].
  destruct (VersionCompare_integer_order no_version_file 1 2 3 9 10 1 ltac:(lia))
    as (k1 & k2 & k3 & H1 & H2 & _ & _ & H3 & _).
  exists k1, k2. repeat split; [exact H1 | exact H2 | exact H3].
Defined.

(** C9, as stated, fails: the candidate built from ['1.2.3.4-rc0'] has
    revision 0. *)
Lemma init_rc0_revision_below_one :
  ~ (forall (s : string) (c : pyobj) (r : Z),
       contains_version s ->
       _LKGMCandidateInfo.__init__ no_version_file (PyStr s) PyNone = Ok c ->
       revision_number c = Ok r -> 1 <= r).
Proof.
  intros H.
  assert (C : contains_version "1.2.3.4-rc0").
  { exists ""%string, "1"%string, "2"%string, "3"%string, "4"%string, "-rc0"%string.
    repeat split; discriminate || reflexivity. }
  specialize (H "1.2.3.4-rc0"%string cand_1_2_3_4_rc0 0 C init_rc0 eq_refl). lia.
Qed.

Lemma init_revision_witness :
  contains_version "build 1.2.3.4-rc7.xml" /\
  exists c,
    _LKGMCandidateInfo.__init__ no_version_file (PyStr "build 1.2.3.4-rc7.xml") PyNone
      = Ok c /\
    revision_number c = Ok 7.
Proof.
  assert (C : contains_version "build 1.2.3.4-rc7.xml").
  { exists "build "%string, "1"%string, "2"%string, "3"%string, "4"%string,
      "-rc7.xml"%string.
    repeat split; discriminate || reflexivity. }
  split; [exact C|].
  destruct (init_revision no_version_file "build 1.2.3.4-rc7.xml" PyNone C)
    as (g1 & g2 & c & r & Hs & Hc & _ & Hr & _ & _ & Hn).
  exists c. split; [exact Hc|].
  vm_compute in Hs. injection Hs as <- <-.
  destruct (Hn "7"%string eq_refl) as [_ E]. vm_compute in E. congruence.
Defined.

(** C2: on the candidate built from ['1.2.3.4-rc1'], [IncrementVersion]
    raises [AttributeError] for [version_revision], the attribute it
    reads, which no instance has; it returns no candidate of revision 2,
    and the instance is left as it was. *)
Theorem IncrementVersion_raises_AttributeError :
  _LKGMCandidateInfo.__init__ no_version_file (PyStr "1.2.3.4-rc1") PyNone
    = Ok cand_1_2_3_4_rc1 /\
  _LKGMCandidateInfo.IncrementVersion cand_1_2_3_4_rc1 (PyStr "message") false
    = (Raise (AttributeError "version_revision"), cand_1_2_3_4_rc1).
Proof. split; [exact init_rc1 | vm_compute; reflexivity]. Qed.

(** * [LKGMManager.GetOthersStatuses] *)

Lemma no_percent_app (a b : string) :
  no_percent (a +:+ b) = no_percent a && no_percent b.
Proof. induction a as [|c a IH]; simpl; [reflexivity | now rewrite IH, andb_assoc]. Qed.

(** Text without [%] is copied. *)
Lemma format_text_prefix (p r : string) (d : option (gmap string pyval))
    (src : Format.argsrc) :
  no_percent p = true ->
  Format.format Format.InText (p +:+ r) d src
    = Format.rapp p (Format.format Format.InText r d src).
Proof.
  intros H. induction p as [|c p IH]; simpl in *.
  - unfold Format.rapp. destruct (Format.format _ r d src); reflexivity.
  - apply andb_true_iff in H as [Hc Hp]. apply negb_true_iff in Hc.
    rewrite Hc, (IH Hp). unfold Format.rcons_char, Format.rapp.
    destruct (Format.format _ r d src); reflexivity.
Qed.

(** [%{] with a dictionary on the right: unsupported format character. *)
Lemma format_percent_brace (p r : string) (m : gmap string pyval) :
  no_percent p = true ->
  Format.percent (p +:+ "%{" +:+ r) (Format.ArgsDict m) = Raise ValueError.
Proof.
  intros H. unfold Format.percent. rewrite format_text_prefix by assumption.
  reflexivity.
Qed.

Lemma join_step_relative (path b : string) :
  Posixpath.startswith_slash b = false ->
  Posixpath.join_step path b = path +:+ sep_after path +:+ b.
Proof.
  intros H. unfold Posixpath.join_step, sep_after. rewrite H.
  destruct (String.eqb path "" || Posixpath.endswith_slash path); reflexivity.
Qed.

Lemma no_percent_sep_after (path : string) : no_percent (sep_after path) = true.
Proof. unfold sep_after. destruct (_ || _); reflexivity. Qed.

(** Each template of lines 179-181 holds [%{build_name}s] after text
    without [%], when the manifest directory has no [%] in its name and
    the directory prefix and the file name are relative. *)
Lemma status_file_shape (manifest_dir status dir_pfx xml_name : string) :
  no_percent manifest_dir = true ->
  Posixpath.startswith_slash status = false ->
  Posixpath.startswith_slash dir_pfx = false ->
  Posixpath.startswith_slash xml_name = false ->
  exists p r,
    LKGMManager.status_file manifest_dir status dir_pfx xml_name
      = p +:+ "%{" +:+ r /\
    no_percent p = true.
Proof.
  intros Hm Hs Hd Hx.
  unfold LKGMManager.status_file, LKGMManager.specs_for_build, Posixpath.join.
  cbn [fold_left].
  rewrite (join_step_relative manifest_dir) by reflexivity.
  set (p1 := manifest_dir +:+ sep_after manifest_dir +:+ "LKGM-candidates").
  rewrite (join_step_relative p1) by reflexivity.
  set (p2 := p1 +:+ sep_after p1 +:+ "build-name").
  rewrite (join_step_relative p2) by reflexivity.
  set (p3 := p2 +:+ sep_after p2 +:+ "%{build_name}s").
  rewrite (join_step_relative p3) by assumption.
  set (p4 := p3 +:+ sep_after p3 +:+ status).
  rewrite (join_step_relative p4) by assumption.
  set (p5 := p4 +:+ sep_after p4 +:+ dir_pfx).
  rewrite (join_step_relative p5) by assumption.
  exists (p2 +:+ sep_after p2),
    ("build_name}s" +:+ sep_after p3 +:+ status +:+ sep_after p4 +:+ dir_pfx
       +:+ sep_after p5 +:+ xml_name).
  split.
  - subst p5 p4 p3. rewrite !append_assoc. reflexivity.
  - subst p2 p1. rewrite !no_percent_app, !no_percent_sep_after, Hm. reflexivity.
Qed.

Section Polling.
Variable World : Type.
Variable time : World -> Z * World.
Variable sleep : Z -> World -> World.
Variable lexists : World -> string -> bool.
Variable RunCommand : list string -> string -> World -> result unit * World.

Local Abbreviation state := (LKGMManager.state World).
Local Abbreviation mkState := (LKGMManager.mkState World).
Local Abbreviation poll_other := (LKGMManager.poll_other World lexists).
Local Abbreviation for_others := (LKGMManager.for_others World lexists).
Local Abbreviation check_markers := (LKGMManager.check_markers World lexists).
Local Abbreviation poll_round := (LKGMManager.poll_round World sleep lexists RunCommand).
Local Abbreviation poll_loop := (LKGMManager.poll_loop World time sleep lexists RunCommand).
Local Abbreviation sync := (LKGMManager._SyncGitRepo World RunCommand).

(** The chain of lines 195-204 looks for the pass marker first, then
    for the fail marker, then for the inflight marker. *)
Lemma check_markers_order (other p f i : string) (l : LKGMManager.locals) (st : state) :
  check_markers other p f i l st =
    (Ok (if lexists (LKGMManager.world World st) p then
           LKGMManager.mkLocals (<[other := PyStr "pass"]> (LKGMManager.other_statuses l))
                                (LKGMManager.num_complete l + 1)
         else if lexists (LKGMManager.world World st) f then
           LKGMManager.mkLocals (<[other := PyStr "fail"]> (LKGMManager.other_statuses l))
                                (LKGMManager.num_complete l + 1)
         else if lexists (LKGMManager.world World st) i then
           LKGMManager.mkLocals (<[other := PyStr "inflight"]> (LKGMManager.other_statuses l))
                                (LKGMManager.num_complete l)
         else
           LKGMManager.mkLocals (<[other := PyNone]> (LKGMManager.other_statuses l))
                                (LKGMManager.num_complete l)), st).
Proof.
  unfold LKGMManager.check_markers, LKGMManager.bind, LKGMManager.os_path_lexists,
    LKGMManager.ret. simpl.
  destruct (lexists _ p); [reflexivity|].
  destruct (lexists _ f); [reflexivity|].
  destruct (lexists _ i); reflexivity.
Qed.

(** Formatting the path of the pass marker of a builder that has not
    reported raises [ValueError]: no marker is looked for. *)
Lemma poll_other_ValueError (manifest_dir dir_pfx xml_name other : string)
    (l : LKGMManager.locals) (st : state) :
  no_percent manifest_dir = true ->
  Posixpath.startswith_slash dir_pfx = false ->
  Posixpath.startswith_slash xml_name = false ->
  LKGMManager.not_complete
    (default PyNone (LKGMManager.other_statuses l !! other)) = true ->
  poll_other (LKGMManager.status_file manifest_dir "pass" dir_pfx xml_name)
             (LKGMManager.status_file manifest_dir "fail" dir_pfx xml_name)
             (LKGMManager.status_file manifest_dir "inflight" dir_pfx xml_name)
             other l st
    = (Raise ValueError, st).
Proof.
  intros Hm Hd Hx Hn. unfold LKGMManager.poll_other. rewrite Hn.
  destruct (status_file_shape manifest_dir "pass" dir_pfx xml_name Hm eq_refl Hd Hx)
    as (p & r & -> & Hp).
  unfold LKGMManager.bind, LKGMManager.lift.
  now rewrite format_percent_brace.
Qed.

(** The paths looked at do not depend on the state, and looking changes
    nothing. *)
Lemma poll_other_state (pf ff inf other : string) (l : LKGMManager.locals) (st : state) :
  snd (poll_other pf ff inf other l st) = st.
Proof.
  unfold LKGMManager.poll_other.
  destruct (LKGMManager.not_complete _); [|reflexivity].
  unfold LKGMManager.bind, LKGMManager.lift.
  destruct (Format.percent pf _); [|reflexivity].
  destruct (Format.percent ff _); [|reflexivity].
  destruct (Format.percent inf _); [|reflexivity].
  now rewrite check_markers_order.
Qed.

Lemma for_others_state (pf ff inf : string) (others : list string)
    (l : LKGMManager.locals) (st : state) :
  snd (for_others pf ff inf others l st) = st.
Proof.
  revert l. induction others as [|o rest IH]; intros l; simpl; [reflexivity|].
  unfold LKGMManager.bind.
  pose proof (poll_other_state pf ff inf o l st) as H.
  destruct (poll_other pf ff inf o l st) as [[l'|e] st']; simpl in H; subst st'.
  - apply IH.
  - reflexivity.
Qed.

(** With the templates of lines 177-181 the [for] loop stores nothing:
    it raises [ValueError] at the first builder that has not finished,
    and passes over the others. *)
Lemma for_others_templates (manifest_dir dir_pfx xml_name : string)
    (others : list string) (l : LKGMManager.locals) (st : state) :
  no_percent manifest_dir = true ->
  Posixpath.startswith_slash dir_pfx = false ->
  Posixpath.startswith_slash xml_name = false ->
  for_others (LKGMManager.status_file manifest_dir "pass" dir_pfx xml_name)
             (LKGMManager.status_file manifest_dir "fail" dir_pfx xml_name)
             (LKGMManager.status_file manifest_dir "inflight" dir_pfx xml_name)
             others l st
    = (if existsb (unfinished l) others then Raise ValueError else Ok l, st).
Proof.
  intros Hm Hd Hx. induction others as [|o rest IH]; [reflexivity|].
  cbn [LKGMManager.for_others existsb]. unfold LKGMManager.bind.
  unfold unfinished at 1.
  destruct (LKGMManager.not_complete
              (default PyNone (LKGMManager.other_statuses l !! o))) eqn:N.
  - rewrite (poll_other_ValueError _ _ _ _ _ _ Hm Hd Hx N). reflexivity.
  - unfold LKGMManager.poll_other. rewrite N. unfold LKGMManager.ret.
    cbn [orb]. exact IH.
Qed.

(** Lines 210-213 raise nothing: they return the statuses gathered, and
    write the error record exactly when some builder has not finished. *)
Lemma report_returns (others : list string) (l : LKGMManager.locals) (st : state) :
  LKGMManager.report World others l st =
    (Ok (LKGMManager.other_statuses l),
     mkState (LKGMManager.self World st) (LKGMManager.world World st)
       (LKGMManager.trace World st ++
        if LKGMManager.num_complete l =? Z.of_nat (length others) then []
        else [timeout_record])).
Proof.
  unfold LKGMManager.report, LKGMManager.bind, LKGMManager.logging, LKGMManager.emit,
    LKGMManager.ret.
  destruct (LKGMManager.num_complete l =? Z.of_nat (length others)); simpl.
  - rewrite app_nil_r. now destruct st.
  - reflexivity.
Qed.

(** *** The end of the loop *)

(** The loop ends normally only on a reading of the clock that is
    [MAX_TIMEOUT_SECONDS] or more past the start. *)
Lemma poll_loop_ends_on_timeout (fuel : nat) (start : Z) (md pf ff inf : string)
    (others : list string) (l l' : LKGMManager.locals) (st st' : state) :
  poll_loop fuel start md pf ff inf others l st = Some (Ok l', st') ->
  exists w t,
    time w = (t, LKGMManager.world World st') /\
    LKGMManager.MAX_TIMEOUT_SECONDS <= t - start.
Proof.
  revert l st. induction fuel as [|fuel IH]; intros l st; simpl; [discriminate|].
  unfold LKGMManager.time_time. simpl.
  destruct (Z.ltb_spec (fst (time (LKGMManager.world World st)) - start)
              LKGMManager.MAX_TIMEOUT_SECONDS) as [Hlt|Hge].
  - destruct (poll_round md pf ff inf others l _) as [[l1|e] st1]; [|discriminate].
    apply IH.
  - intros [= <- <-]. simpl.
    exists (LKGMManager.world World st), (fst (time (LKGMManager.world World st))).
    split; [now destruct (time _) | assumption].
Qed.

Section Progress.
(** The time of a world; a reading of the clock is not before it and
    not after the time of the world it leaves, a command that
    succeeds takes a second or more, a sleep does not turn the clock
    back. *)
Variable clock_of : World -> Z.
Hypothesis time_reads : forall w,
  clock_of w <= fst (time w) /\ fst (time w) <= clock_of (snd (time w)).
Hypothesis RunCommand_takes_time : forall cmd cwd w,
  fst (RunCommand cmd cwd w) = Ok tt ->
  clock_of w + 1 <= clock_of (snd (RunCommand cmd cwd w)).
Hypothesis sleep_monotone : forall secs w, clock_of w <= clock_of (sleep secs w).

Lemma poll_round_takes_time (md pf ff inf : string) (others : list string)
    (l l' : LKGMManager.locals) (st st' : state) :
  poll_round md pf ff inf others l st = (Ok l', st') ->
  clock_of (LKGMManager.world World st) + 2
    <= clock_of (LKGMManager.world World st').
Proof.
  unfold LKGMManager.poll_round, LKGMManager._SyncGitRepo, LKGMManager.bind,
    LKGMManager.run_command. simpl.
  pose proof (RunCommand_takes_time ["git"; "remote"; "update"]%string md
                (LKGMManager.world World st)) as H1.
  destruct (RunCommand ["git"; "remote"; "update"]%string md _) as [[[]|e1] w1];
    simpl in *; [|discriminate].
  pose proof (RunCommand_takes_time ["git"; "rebase"; "origin/master"]%string md w1)
    as H2.
  destruct (RunCommand ["git"; "rebase"; "origin/master"]%string md w1)
    as [[[]|e2] w2]; simpl in *; [|discriminate].
  specialize (H1 eq_refl). specialize (H2 eq_refl).
  match goal with |- context [for_others pf ff inf others l ?s] =>
    pose proof (for_others_state pf ff inf others l s) as Hs;
    destruct (for_others pf ff inf others l s) as [[l1|e] s1]
  end; simpl in Hs; subst; [|discriminate].
  destruct (LKGMManager.num_complete l1 <? Z.of_nat (length others)); simpl.
  - intros [= <- <-]. simpl. pose proof (sleep_monotone LKGMManager.SLEEP_TIMEOUT w2). lia.
  - intros [= <- <-]. simpl. lia.
Qed.

(** The loop ends: each turn takes two seconds or more. *)
Lemma poll_loop_terminates (fuel : nat) (start : Z) (md pf ff inf : string)
    (others : list string) (l : LKGMManager.locals) (st : state) :
  Z.max 0 (LKGMManager.MAX_TIMEOUT_SECONDS
           - (clock_of (LKGMManager.world World st) - start)) < Z.of_nat fuel ->
  exists r st', poll_loop fuel start md pf ff inf others l st = Some (r, st').
Proof.
  revert l st. induction fuel as [|fuel IH]; intros l st Hf; [lia|].
  simpl. unfold LKGMManager.time_time. simpl.
  destruct (time_reads (LKGMManager.world World st)) as [T1 T2].
  destruct (Z.ltb_spec (fst (time (LKGMManager.world World st)) - start)
              LKGMManager.MAX_TIMEOUT_SECONDS) as [Hlt|Hge]; [|eauto].
  destruct (poll_round md pf ff inf others l _) as [[l1|e] st1] eqn:E; [|eauto].
  apply poll_round_takes_time in E. simpl in E.
  apply IH. lia.
Qed.

(** The loop comes to an end, and only when the time is over: when
    commands take time, 301 turns are enough for any start not after
    the clock; the loop ends normally only on a reading of the clock
    [MAX_TIMEOUT_SECONDS] or more past the start, whatever statuses
    have been gathered. *)
Theorem poll_loop_no_early_exit (start : Z) (md pf ff inf : string)
    (others : list string) (l : LKGMManager.locals) (st : state) :
  start <= clock_of (LKGMManager.world World st) ->
  exists r st',
    poll_loop 301 start md pf ff inf others l st = Some (r, st') /\
    forall l', r = Ok l' ->
      exists w t,
        time w = (t, LKGMManager.world World st') /\
        LKGMManager.MAX_TIMEOUT_SECONDS <= t - start.
Proof.
  intros Hs.
  destruct (poll_loop_terminates 301 start md pf ff inf others l st) as (r & st' & E).
  { unfold LKGMManager.MAX_TIMEOUT_SECONDS. lia. }
  exists r, st'. split; [exact E|].
  intros l' ->. exact (poll_loop_ends_on_timeout _ _ _ _ _ _ _ _ _ _ _ E).
Qed.
End Progress.
End Polling.

(** * [LKGMManager._GetLatestLKGMCandidate] *)

Lemma list_lt_irrefl (k : list Z) : list_lt k k = false.
Proof.
  induction k as [|x k IH]; simpl; [reflexivity|].
  now rewrite Z.ltb_irrefl, Z.eqb_refl, IH.
Qed.

(** Sorting copies of one element leaves the list as it is. *)
Lemma sorted_copies {A : Type} (v : A) (l : list A) (key : A -> result (list Z))
    (k : list Z) :
  Forall (eq v) l -> key v = Ok k -> Sorted.sorted l key = Ok l.
Proof.
  intros Hl Hk. apply Forall_eq_repeat in Hl. rewrite Hl.
  generalize (length l) as n. intros n. unfold Sorted.sorted.
  assert (D : forall m, Sorted.decorate key (repeat v m) = Ok (repeat (k, v) m)).
  { induction m as [|m IH]; simpl; [reflexivity|]. rewrite Hk, IH. reflexivity. }
  assert (E : forall m, Sorted.sort_decorated (repeat (k, v) m) = repeat (k, v) m).
  { induction m as [|m IH]; [reflexivity|].
    change (Sorted.insert (k, v) (Sorted.sort_decorated (repeat (k, v) m))
            = (k, v) :: repeat (k, v) m).
    rewrite IH. destruct m; simpl; [reflexivity|]. now rewrite list_lt_irrefl. }
  rewrite D. cbn [rbind]. rewrite E. f_equal.
  induction n as [|n IH]; simpl; [reflexivity | now rewrite IH].
Qed.

Section LatestCandidate.
Variable load_version_file : pyval -> pyobj -> result pyobj.

Lemma VersionInfo_VersionString_fields (vi : pyobj) (maj min sp patch : N) :
  version_fields vi maj min sp patch ->
  VersionInfo.VersionString vi
    = Ok (Re.dotted (str_N maj) (str_N min) (str_N sp) (str_N patch)).
Proof.
  intros (H1 & H2 & H3 & H4). unfold VersionInfo.VersionString.
  rewrite H1, H2, H3, H4. unfold Format.percent. cbn.
  rewrite !str_int_of_N. unfold Re.dotted.
  now rewrite ?append_assoc, ?append_nil_r.
Qed.

(** The key of a bare version text ends in revision 1. *)
Lemma compare_versions_fn_bare (maj min sp patch : N) :
  LKGMManager.compare_versions_fn load_version_file
    (Re.dotted (str_N maj) (str_N min) (str_N sp) (str_N patch))
    = Ok [Z.of_N maj; Z.of_N min; Z.of_N sp; Z.of_N patch; 1].
Proof.
  unfold LKGMManager.compare_versions_fn, _LKGMCandidateInfo.VersionCompare.
  pose proof (search_LKGM_bare (str_N maj) (str_N min) (str_N sp) (str_N patch)
                (str_N_digit_string _) (str_N_digit_string _)
                (str_N_digit_string _) (str_N_digit_string _)) as Hs.
  destruct (init_of_match load_version_file _ _ _ _ _ None _ _ _ _ PyNone Hs
              (str_N_digit_string _) (str_N_digit_string _)
              (str_N_digit_string _) (str_N_digit_string _)
              ltac:(intros n E; discriminate E)
              (int_of_digits_str_N maj) (int_of_digits_str_N min)
              (int_of_digits_str_N sp) (int_of_digits_str_N patch))
    as (c & Hc & Hf & _).
  rewrite Hc. cbn [rbind].
  now apply (compare_key_fields c _ _ _ _ _ (PyInt 1) Hf).
Qed.

(** What [_GetLatestLKGMCandidate] gives: the published names equal to
    the bare version text, all of them, when there are any, and a
    [TypeError] otherwise.  It never gives one candidate. *)
Lemma GetLatestLKGMCandidate_result (all : list string) (vi : pyobj)
    (maj min sp patch : N) :
  version_fields vi maj min sp patch ->
  LKGMManager._GetLatestLKGMCandidate load_version_file all vi =
    match List.filter
            (fun ver => String.eqb ver
               (Re.dotted (str_N maj) (str_N min) (str_N sp) (str_N patch))) all with
    | [] => Raise TypeError
    | l => Ok (LKGMManager.LkgmList l)
    end.
Proof.
  intros Hvi. unfold LKGMManager._GetLatestLKGMCandidate.
  destruct all as [|x all]; [reflexivity|].
  rewrite (VersionInfo_VersionString_fields vi _ _ _ _ Hvi). cbn [rbind].
  set (v := Re.dotted _ _ _ _).
  destruct (List.filter (fun ver => String.eqb ver v) (x :: all)) as [|y l] eqn:F;
    [reflexivity|].
  rewrite (sorted_copies v (y :: l) _
             [Z.of_N maj; Z.of_N min; Z.of_N sp; Z.of_N patch; 1]).
  - reflexivity.
  - rewrite <- F. apply Forall_forall. intros z Hz.
    apply list_elem_of_In, filter_In in Hz as [_ Hz]. now apply String.eqb_eq in Hz.
  - apply compare_versions_fn_bare.
Qed.
End LatestCandidate.

(** * [CreateNextLKGMCandidate] and [GetNextLKGMCandidate] *)

Lemma percent_text_s (p e : string) :
  no_percent p = true ->
  Format.percent (p +:+ "%s") (Format.ArgsTuple [PyStr e]) = Ok (p +:+ e).
Proof.
  intros H. unfold Format.percent. rewrite format_text_prefix by assumption.
  cbn. now rewrite append_nil_r.
Qed.

Lemma calls_of_app (a b : list LKGMManager.event) :
  calls_of (a ++ b) = calls_of a ++ calls_of b.
Proof.
  induction a as [|ev a IH]; simpl; [reflexivity|].
  destruct ev; simpl; now rewrite ?IH.
Qed.

Section Generation.
Variable World : Type.
Variable load_version_file : pyval -> pyobj -> result pyobj.
Variable _GetCurrentVersionInfo :
  pyval -> LKGMManager.manager * World -> result pyobj * (LKGMManager.manager * World).
Variable BuildSpecsManager_LoadSpecs :
  pyobj -> string -> LKGMManager.manager * World
  -> result unit * (LKGMManager.manager * World).
Variable _CreateNewBuildSpec :
  LKGMManager.lkgm_value -> LKGMManager.manager * World
  -> result pyval * (LKGMManager.manager * World).
Variable _SetInFlight :
  string -> LKGMManager.manager * World -> result unit * (LKGMManager.manager * World).

Local Abbreviation state := (LKGMManager.state World).
Local Abbreviation trace := (LKGMManager.trace World).
Local Abbreviation Create_body :=
  (LKGMManager.CreateNextLKGMCandidate_body World load_version_file
     _GetCurrentVersionInfo BuildSpecsManager_LoadSpecs _CreateNewBuildSpec _SetInFlight).
Local Abbreviation Create :=
  (LKGMManager.CreateNextLKGMCandidate World load_version_file
     _GetCurrentVersionInfo BuildSpecsManager_LoadSpecs _CreateNewBuildSpec _SetInFlight).
Local Abbreviation GetNext_body :=
  (LKGMManager.GetNextLKGMCandidate_body World
     _GetCurrentVersionInfo BuildSpecsManager_LoadSpecs _SetInFlight).
Local Abbreviation GetNext :=
  (LKGMManager.GetNextLKGMCandidate World
     _GetCurrentVersionInfo BuildSpecsManager_LoadSpecs _SetInFlight).

(** The handler logs and raises; it calls nothing. *)
Lemma generation_failed_raises (p msg : string) (st : state) :
  no_percent p = true ->
  LKGMManager.generation_failed World (p +:+ "%s") msg st =
    (Raise (GenerateBuildSpecException (p +:+ msg)),
     LKGMManager.mkState World (LKGMManager.self World st) (LKGMManager.world World st)
       (trace st ++ [error_record (p +:+ msg)])).
Proof.
  intros H. unfold LKGMManager.generation_failed, LKGMManager.bind, LKGMManager.lift.
  now rewrite percent_text_s.
Qed.

(** Lines 128-132 call [_SetInFlight] once or not at all. *)
Lemma claim_current_version_trace (st : state) :
  exists evs,
    trace (snd (LKGMManager.claim_current_version World _SetInFlight st))
      = trace st ++ evs /\
    calls_of evs `prefix_of` ["_SetInFlight"%string].
Proof.
  unfold LKGMManager.claim_current_version, LKGMManager.bind, LKGMManager.get_self,
    LKGMManager.logging, LKGMManager.emit, LKGMManager.lift, LKGMManager.call,
    LKGMManager.ret.
  destruct (truthy _).
  - generalize (Format.percent "Automatic: Start %s %s"
                  (Format.ArgsTuple
                     [PyStr (LKGMManager.build_name (LKGMManager.self World st));
                      LKGMManager.current_version (LKGMManager.self World st)])).
    intros [msg|e]; cbn [fst snd LKGMManager.trace LKGMManager.self LKGMManager.world].
    + rewrite <- app_assoc. eexists. split; [reflexivity|]. reflexivity.
    + eexists. split; [reflexivity|]. apply prefix_nil.
  - exists []. split; [cbn [snd]; now rewrite app_nil_r | apply prefix_nil].
Qed.

(** The [try] statement of both entry points. *)
Lemma try_except_wraps (p : string) (names : list string)
    (body : LKGMManager.M World pyval) :
  no_percent p = true ->
  (forall st, exists evs,
     trace (snd (body st)) = trace st ++ evs /\ calls_of evs `prefix_of` names) ->
  wraps_command_errors p names body
    (LKGMManager.try_except World body
       (LKGMManager.generation_failed World (p +:+ "%s"))).
Proof.
  intros Hp Hbody st. unfold LKGMManager.try_except.
  destruct (Hbody st) as (evs & Ht & Hn).
  destruct (body st) as [[v|e] st1] eqn:E; cbn [snd] in Ht.
  - split; [discriminate|]. split; [discriminate|]. split; [now intros ? ? [= <- <-]|].
    exists evs. auto.
  - split; [|split; [|split]].
    + intros e' st' [= <- <-] He.
      destruct e; try discriminate He; now rewrite generation_failed_raises.
    + intros e' st' [= <- <-] He. destruct e; try discriminate He; reflexivity.
    + discriminate.
    + destruct e; try (exists evs; split; [exact Ht | exact Hn]);
        rewrite generation_failed_raises by assumption; cbn [snd LKGMManager.trace];
        exists (evs ++ [error_record (p +:+ msg)]);
        (split; [now rewrite Ht, app_assoc |]);
        rewrite calls_of_app; simpl; now rewrite app_nil_r.
Qed.

Lemma CreateNextLKGMCandidate_body_trace (version_file : pyval) (st : state) :
  exists evs,
    trace (snd (Create_body version_file st)) = trace st ++ evs /\
    calls_of evs `prefix_of`
      ["_GetCurrentVersionInfo"; "_LoadSpecs"; "_CreateNewBuildSpec"; "_SetInFlight"]%string.
Proof.
  unfold LKGMManager.CreateNextLKGMCandidate_body, LKGMManager._LoadSpecs.
  unfold LKGMManager.bind at 1. unfold LKGMManager.call at 1.
  destruct (_GetCurrentVersionInfo version_file _) as [[vi|e] [m1 w1]];
    cbn [fst snd]; [|eexists; split; [reflexivity|]; simpl; now eexists].
  unfold LKGMManager.bind at 1. unfold LKGMManager.call at 1.
  cbn [LKGMManager.self LKGMManager.world LKGMManager.trace].
  destruct (BuildSpecsManager_LoadSpecs vi _ _) as [[[]|e] [m2 w2]];
    cbn [fst snd];
    [|rewrite <- app_assoc; eexists; split; [reflexivity|]; simpl; now eexists].
  unfold LKGMManager.bind at 1. unfold LKGMManager.get_self at 1.
  cbn [LKGMManager.self LKGMManager.world LKGMManager.trace].
  unfold LKGMManager.bind at 1. unfold LKGMManager.lift at 1.
  destruct (LKGMManager._GetLatestLKGMCandidate _ _ _) as [lkgm|e];
    [|rewrite <- app_assoc; eexists; split; [reflexivity|]; simpl; now eexists].
  unfold LKGMManager.bind at 1. unfold LKGMManager.call at 1.
  cbn [LKGMManager.self LKGMManager.world LKGMManager.trace].
  destruct (_CreateNewBuildSpec lkgm _) as [[v|e] [m3 w3]];
    cbn [fst snd];
    [|rewrite <- !app_assoc; eexists; split; [reflexivity|]; simpl; now eexists].
  unfold LKGMManager.bind at 1. unfold LKGMManager.assign_current_version at 1.
  cbn [LKGMManager.self LKGMManager.world LKGMManager.trace].
  unfold LKGMManager.bind at 1.
  match goal with |- context [LKGMManager.claim_current_version World _SetInFlight ?s] =>
    destruct (claim_current_version_trace s) as (evs & Ht & Hn);
    destruct (LKGMManager.claim_current_version World _SetInFlight s) as [[[]|e] st4]
  end; cbn [snd LKGMManager.trace] in Ht.
  - unfold LKGMManager.bind, LKGMManager.get_self, LKGMManager.ret. cbn [snd].
    rewrite Ht, <- !app_assoc. eexists. split; [reflexivity|].
    rewrite calls_of_app.
    apply (prefix_app ["_GetCurrentVersionInfo"; "_LoadSpecs"; "_CreateNewBuildSpec"]%string), Hn.
  - cbn [snd]. rewrite Ht, <- !app_assoc. eexists. split; [reflexivity|].
    rewrite calls_of_app.
    apply (prefix_app ["_GetCurrentVersionInfo"; "_LoadSpecs"; "_CreateNewBuildSpec"]%string), Hn.
Qed.

Lemma GetNextLKGMCandidate_body_trace (version_file : pyval) (st : state) :
  exists evs,
    trace (snd (GetNext_body version_file st)) = trace st ++ evs /\
    calls_of evs `prefix_of`
      ["_GetCurrentVersionInfo"; "_LoadSpecs"; "_SetInFlight"]%string.
Proof.
  unfold LKGMManager.GetNextLKGMCandidate_body, LKGMManager._LoadSpecs.
  unfold LKGMManager.bind at 1. unfold LKGMManager.call at 1.
  destruct (_GetCurrentVersionInfo version_file _) as [[vi|e] [m1 w1]];
    cbn [fst snd]; [|eexists; split; [reflexivity|]; simpl; now eexists].
  unfold LKGMManager.bind at 1. unfold LKGMManager.call at 1.
  cbn [LKGMManager.self LKGMManager.world LKGMManager.trace].
  destruct (BuildSpecsManager_LoadSpecs vi _ _) as [[[]|e] [m2 w2]];
    cbn [fst snd];
    [|rewrite <- app_assoc; eexists; split; [reflexivity|]; simpl; now eexists].
  unfold LKGMManager.bind at 1. unfold LKGMManager.get_self at 1.
  cbn [LKGMManager.self LKGMManager.world LKGMManager.trace].
  unfold LKGMManager.bind at 1. unfold LKGMManager.assign_current_version at 1.
  cbn [LKGMManager.self LKGMManager.world LKGMManager.trace].
  unfold LKGMManager.bind at 1.
  match goal with |- context [LKGMManager.claim_current_version World _SetInFlight ?s] =>
    destruct (claim_current_version_trace s) as (evs & Ht & Hn);
    destruct (LKGMManager.claim_current_version World _SetInFlight s) as [[[]|e] st4]
  end; cbn [snd LKGMManager.trace] in Ht.
  - unfold LKGMManager.bind, LKGMManager.get_self, LKGMManager.ret. cbn [snd].
    rewrite Ht, <- !app_assoc. eexists. split; [reflexivity|].
    rewrite calls_of_app.
    apply (prefix_app ["_GetCurrentVersionInfo"; "_LoadSpecs"]%string), Hn.
  - cbn [snd]. rewrite Ht, <- !app_assoc. eexists. split; [reflexivity|].
    rewrite calls_of_app.
    apply (prefix_app ["_GetCurrentVersionInfo"; "_LoadSpecs"]%string), Hn.
Qed.

(** C8, as amended: [CreateNextLKGMCandidate] and
    [GetNextLKGMCandidate] raise [GenerateBuildSpecException], its
    message the text of the underlying error, when a step of the
    generation raises [RunCommandError] or [GitCommandException], the
    two classes their [except] clause names; an exception of any
    other class leaves them as it was raised; and nothing is retried:
    each method of the base class is called once at most, in order. *)
Theorem generation_wraps_command_errors (version_file : pyval) (retries : Z) :
  wraps_command_errors "Failed to generate LKGM Candidate. error: "
    ["_GetCurrentVersionInfo"; "_LoadSpecs"; "_CreateNewBuildSpec"; "_SetInFlight"]%string
    (Create_body version_file) (Create version_file retries) /\
  wraps_command_errors "Failed to get next LKGM Candidate. error: "
    ["_GetCurrentVersionInfo"; "_LoadSpecs"; "_SetInFlight"]%string
    (GetNext_body version_file) (GetNext version_file retries).
Proof.
  split.
  - apply (try_except_wraps "Failed to generate LKGM Candidate. error: " _
             (Create_body version_file) eq_refl).
    apply CreateNextLKGMCandidate_body_trace.
  - apply (try_except_wraps "Failed to get next LKGM Candidate. error: " _
             (GetNext_body version_file) eq_refl).
    apply GetNextLKGMCandidate_body_trace.
Qed.
End Generation.

(** * The operations on particular inputs *)

(** C1: with candidates 1.2.3.4-rc1 and 1.2.3.4-rc2 published for the
    baseline 1.2.3.4, [_GetLatestLKGMCandidate] selects neither: no
    published name equals the bare version text the filter compares
    with, and the last line hands the constructor a method where it
    takes a string, so [CreateNextLKGMCandidate] ends in a [TypeError];
    with nothing published it ends the same way, where a candidate of
    revision 1 was to be made; and when names do equal the version text
    the whole sorted list is handed on, not its greatest element. *)
Theorem GetLatestLKGMCandidate_selects_no_candidate :
  LKGMManager._GetLatestLKGMCandidate no_version_file
    ["1.2.3.4-rc1"; "1.2.3.4-rc2"]%string version_1_2_3_4 = Raise TypeError /\
  fst (CreateNext_in read_version ["1.2.3.4-rc1"; "1.2.3.4-rc2"]%string set_in_flight)
    = Raise TypeError /\
  LKGMManager._GetLatestLKGMCandidate no_version_file [] version_1_2_3_4
    = Raise TypeError /\
  fst (CreateNext_in read_version [] set_in_flight) = Raise TypeError /\
  LKGMManager._GetLatestLKGMCandidate no_version_file
    ["1.2.3.4"; "1.2.3.4-rc3"; "1.2.3.4"]%string version_1_2_3_4
    = Ok (LKGMManager.LkgmList ["1.2.3.4"; "1.2.3.4"]%string).
Proof. repeat split; vm_compute; reflexivity. Qed.

(** C3: with the pass marker of the one builder [A] in the store,
    [GetOthersStatuses] does not return [{A: pass}] after the first
    turn.  On the manager whose [current_version] is the string
    ['1.2.3.4-rc1'] it raises [AttributeError] at line 176, a string
    having no [DirPrefix], before the clock is read or anything is
    synced.  Past that line, a turn of the loop with the templates of
    lines 177-181 raises [ValueError] while formatting the path of the
    marker, after the sync.  And the loop has no exit on completion:
    with [A] recorded as passed and commands of 100 seconds it syncs a
    second time and ends when the 300 seconds are over. *)
Theorem GetOthersStatuses_all_passed :
  GetOthersStatuses_in (mkWorld 0 0 1 [marker_of_A "pass"]) 301 ["A"%string]
    = Some (Raise (AttributeError "DirPrefix"),
            a_state [] (mkWorld 0 0 1 [marker_of_A "pass"])) /\
  fst (poll_round_in (mkWorld 0 0 1 [marker_of_A "pass"]) ["A"%string]
         (LKGMManager.mkLocals ∅ 0))
    = Raise ValueError /\
  LKGMManager.trace world
    (snd (poll_round_in (mkWorld 0 0 1 [marker_of_A "pass"]) ["A"%string]
            (LKGMManager.mkLocals ∅ 0)))
    = sync_events /\
  outcome (poll_loop_in passed_world 301 ["A"%string]
             (LKGMManager.mkLocals {[ "A"%string := PyStr "pass" ]} 1))
    = Some (Ok (LKGMManager.mkLocals {[ "A"%string := PyStr "pass" ]} 1)) /\
  events_of (poll_loop_in passed_world 301 ["A"%string]
               (LKGMManager.mkLocals {[ "A"%string := PyStr "pass" ]} 1))
    = Some (sync_events ++ sync_events).
Proof. repeat split; vm_compute; reflexivity. Qed.

(** C6: line 173 gives the file name [1.2.3.4-rc1.xml], and line 176
    raises [AttributeError], the candidate being a string, so that
    [GetOthersStatuses] looks at no path.  Past that line the three
    templates hold [%{build_name}s] where the name of the builder is to
    go, and [%] with the dictionary [{'build-name': 'A'}] raises
    [ValueError] on each of them; so with the inflight marker of [A] at
    the path of the scheme, lines 191-194 raise [ValueError] for [A]
    and look at no path either. *)
Theorem marker_path_not_formatted :
  py_add (PyStr "1.2.3.4-rc1") (PyStr ".xml") = Ok (PyStr "1.2.3.4-rc1.xml") /\
  LKGMManager.call_DirPrefix (PyStr "1.2.3.4-rc1") = Raise (AttributeError "DirPrefix") /\
  GetOthersStatuses_in (mkWorld 0 0 1 [marker_of_A "inflight"]) 301 ["A"%string]
    = Some (Raise (AttributeError "DirPrefix"),
            a_state [] (mkWorld 0 0 1 [marker_of_A "inflight"])) /\
  template "pass"
    = "/m/LKGM-candidates/build-name/%{build_name}s/pass/1.2/1.2.3.4-rc1.xml"%string /\
  Format.percent (template "pass")
    (Format.ArgsDict {[ "build-name"%string := PyStr "A" ]}) = Raise ValueError /\
  Format.percent (template "fail")
    (Format.ArgsDict {[ "build-name"%string := PyStr "A" ]}) = Raise ValueError /\
  Format.percent (template "inflight")
    (Format.ArgsDict {[ "build-name"%string := PyStr "A" ]}) = Raise ValueError /\
  marker_of_A "inflight"
    = "/m/LKGM-candidates/build-name/A/inflight/1.2/1.2.3.4-rc1.xml"%string /\
  LKGMManager.poll_other world w_lexists
    (template "pass") (template "fail") (template "inflight") "A"
    (LKGMManager.mkLocals ∅ 0) (a_state [] (mkWorld 0 0 1 [marker_of_A "inflight"]))
    = (Raise ValueError, a_state [] (mkWorld 0 0 1 [marker_of_A "inflight"])).
Proof. repeat split; vm_compute; reflexivity. Qed.

(** With the key spelt as in the dictionary and parentheses for braces
    the same formatting gives the path of the scheme. *)
Example marker_path_intended :
  Format.percent "/m/LKGM-candidates/build-name/%(build-name)s/pass/1.2/1.2.3.4-rc1.xml"
    (Format.ArgsDict {[ "build-name"%string := PyStr "A" ]})
    = Ok (marker_of_A "pass").
Proof. vm_compute. reflexivity. Qed.

(** C10: with both the pass and the fail marker of [A] in the store, and
    with the fail and the inflight marker, [GetOthersStatuses] returns
    no status for [A]: it raises [AttributeError] at line 176; past that
    line a polling round raises [ValueError] at line 192, before any
    marker is looked for.  The chain of lines 195-204 itself, given the
    paths of the scheme, finds pass in the first store and fail in the
    second. *)
Theorem GetOthersStatuses_marker_order :
  GetOthersStatuses_in (mkWorld 0 0 1 [marker_of_A "pass"; marker_of_A "fail"])
      301 ["A"%string]
    = Some (Raise (AttributeError "DirPrefix"),
            a_state [] (mkWorld 0 0 1 [marker_of_A "pass"; marker_of_A "fail"])) /\
  GetOthersStatuses_in (mkWorld 0 0 1 [marker_of_A "fail"; marker_of_A "inflight"])
      301 ["A"%string]
    = Some (Raise (AttributeError "DirPrefix"),
            a_state [] (mkWorld 0 0 1 [marker_of_A "fail"; marker_of_A "inflight"])) /\
  fst (poll_round_in (mkWorld 0 0 1 [marker_of_A "pass"; marker_of_A "fail"])
         ["A"%string] (LKGMManager.mkLocals ∅ 0))
    = Raise ValueError /\
  fst (poll_round_in (mkWorld 0 0 1 [marker_of_A "fail"; marker_of_A "inflight"])
         ["A"%string] (LKGMManager.mkLocals ∅ 0))
    = Raise ValueError /\
  fst (LKGMManager.check_markers world w_lexists "A"
         (marker_of_A "pass") (marker_of_A "fail") (marker_of_A "inflight")
         (LKGMManager.mkLocals ∅ 0)
         (a_state [] (mkWorld 0 0 1 [marker_of_A "pass"; marker_of_A "fail"])))
    = Ok (LKGMManager.mkLocals {[ "A"%string := PyStr "pass" ]} 1) /\
  fst (LKGMManager.check_markers world w_lexists "A"
         (marker_of_A "pass") (marker_of_A "fail") (marker_of_A "inflight")
         (LKGMManager.mkLocals ∅ 0)
         (a_state [] (mkWorld 0 0 1 [marker_of_A "fail"; marker_of_A "inflight"])))
    = Ok (LKGMManager.mkLocals {[ "A"%string := PyStr "fail" ]} 1).
Proof. repeat split; vm_compute; reflexivity. Qed.

(** C7: [GetOthersStatuses] returns no snapshot when the time runs out
    with builders that have not finished, because it does not get that
    far: in every state it raises at line 173 or 176, [TypeError] when
    [current_version] is [None] and [AttributeError] when it is a
    string, and leaves the state as it was.  So for the builder [A] that
    never reports, with commands of 100 seconds.  Past those lines the
    first turn raises [ValueError].  Lines 210-213 themselves raise
    nothing: with [A] in flight they return the mapping and log the
    error record. *)
Theorem GetOthersStatuses_raises_before_polling :
  (forall (World : Type) (time : World -> Z * World) (sleep : Z -> World -> World)
          (lexists : World -> string -> bool)
          (RunCommand : list string -> string -> World -> result unit * World)
          (fuel : nat) (others : list string) (st : LKGMManager.state World),
     LKGMManager.GetOthersStatuses World time sleep lexists RunCommand fuel others st
       = Some (Raise (match LKGMManager.current_version (LKGMManager.self World st) with
                      | PyStr _ => AttributeError "DirPrefix"
                      | _ => TypeError
                      end), st)) /\
  GetOthersStatuses_in (mkWorld 0 0 100 []) 301 ["A"%string]
    = Some (Raise (AttributeError "DirPrefix"), a_state [] (mkWorld 0 0 100 [])) /\
  outcome (poll_builders_in (mkWorld 0 0 100 []) 301 ["A"%string])
    = Some (Raise ValueError) /\
  LKGMManager.report world ["A"%string]
    (LKGMManager.mkLocals {[ "A"%string := PyStr "inflight" ]} 0)
    (a_state [] (mkWorld 400 0 100 []))
    = (Ok {[ "A"%string := PyStr "inflight" ]},
       LKGMManager.mkState world (a_manager []) (mkWorld 400 0 100 []) [timeout_record]).
Proof.
  split.
  - intros World time sleep lexists RunCommand fuel others st.
    unfold LKGMManager.GetOthersStatuses.
    destruct (LKGMManager.current_version (LKGMManager.self World st)); reflexivity.
  - repeat split; vm_compute; reflexivity.
Qed.

(** C8, as stated, fails: when the version file cannot be read and
    [_GetCurrentVersionInfo] raises [IOError], [CreateNextLKGMCandidate]
    raises that [IOError], not a [GenerateBuildSpecException]. *)
Lemma CreateNextLKGMCandidate_IOError_not_wrapped :
  fst (CreateNext_in unreadable_version [] set_in_flight)
    = Raise (OtherException "IOError" "No such file or directory") /\
  forall msg,
    fst (CreateNext_in unreadable_version [] set_in_flight)
      <> Raise (GenerateBuildSpecException msg).
Proof. split; [vm_compute; reflexivity | intros msg; vm_compute; discriminate]. Qed.

Lemma generation_wraps_command_errors_witness :
  fst (CreateNext_in git_failed [] set_in_flight)
    = Raise (GenerateBuildSpecException
               "Failed to generate LKGM Candidate. error: git remote update failed") /\
  fst (CreateNext_in read_version ["1.2.3.4"%string] push_rejected)
    = Raise (GenerateBuildSpecException
               "Failed to generate LKGM Candidate. error: push rejected").
Proof.
  split.
  - destruct (generation_wraps_command_errors world no_version_file git_failed
                (load_specs []) new_build_spec set_in_flight
                (PyStr "chromeos_version.sh") 0) as [H _].
    destruct (H (a_state [] quiet_world)) as (W & _).
    unfold CreateNext_in.
    rewrite (W (RunCommandError "git remote update failed")
               (snd (LKGMManager.CreateNextLKGMCandidate_body world no_version_file
                       git_failed (load_specs []) new_build_spec set_in_flight
                       (PyStr "chromeos_version.sh") (a_state [] quiet_world))));
      [reflexivity | vm_compute; reflexivity | reflexivity].
  - destruct (generation_wraps_command_errors world no_version_file read_version
                (load_specs ["1.2.3.4"%string]) new_build_spec push_rejected
                (PyStr "chromeos_version.sh") 0) as [H _].
    destruct (H (a_state [] quiet_world)) as (W & _).
    unfold CreateNext_in.
    rewrite (W (GitCommandException "push rejected")
               (snd (LKGMManager.CreateNextLKGMCandidate_body world no_version_file
                       read_version (load_specs ["1.2.3.4"%string]) new_build_spec
                       push_rejected (PyStr "chromeos_version.sh")
                       (a_state [] quiet_world))));
      [reflexivity | vm_compute; reflexivity | reflexivity].
Defined.

(** * [cbuildbot_config.add_config] and the table *)

Section AddConfig.
Variable default : gmap string CbuildbotConfig.cfgval.

Lemma fold_update_lookup_none (updates : list (gmap string CbuildbotConfig.cfgval))
    (d : gmap string CbuildbotConfig.cfgval) (key : string) :
  Forall (fun u : gmap string CbuildbotConfig.cfgval => u !! key = None) updates ->
  fold_left CbuildbotConfig.update updates d !! key = d !! key.
Proof.
  intros H. revert d. induction H as [|u us Hu _ IH]; intros d; simpl; [reflexivity|].
  rewrite IH. unfold CbuildbotConfig.update.
  rewrite lookup_union_r by assumption. reflexivity.
Qed.

(** A key takes its value from the last dictionary of [updates] that
    has it. *)
Theorem add_config_last_update_wins (name key : string) (v : CbuildbotConfig.cfgval)
    (before after : list (gmap string CbuildbotConfig.cfgval))
    (u : gmap string CbuildbotConfig.cfgval)
    (config : gmap string (gmap string CbuildbotConfig.cfgval)) :
  u !! key = Some v ->
  Forall (fun u' : gmap string CbuildbotConfig.cfgval => u' !! key = None) after ->
  exists new_config,
    CbuildbotConfig.add_config_from default name (before ++ u :: after) config !! name
      = Some new_config /\
    new_config !! key = Some v.
Proof.
  intros Hu Hafter. unfold CbuildbotConfig.add_config_from.
  eexists. split; [apply lookup_insert_eq|].
  rewrite fold_left_app. simpl. rewrite fold_update_lookup_none by assumption.
  unfold CbuildbotConfig.update at 1. now apply lookup_union_Some_l.
Qed.

(** A key that no dictionary of [updates] has keeps the value of
    [default], or stays absent when [default] has none. *)
Theorem add_config_keeps_default (name key : string)
    (updates : list (gmap string CbuildbotConfig.cfgval))
    (config : gmap string (gmap string CbuildbotConfig.cfgval)) :
  Forall (fun u : gmap string CbuildbotConfig.cfgval => u !! key = None) updates ->
  exists new_config,
    CbuildbotConfig.add_config_from default name updates config !! name
      = Some new_config /\
    new_config !! key = default !! key.
Proof.
  intros H. unfold CbuildbotConfig.add_config_from.
  eexists. split; [apply lookup_insert_eq|].
  now apply fold_update_lookup_none.
Qed.

Lemma fold_update_dom (updates : list (gmap string CbuildbotConfig.cfgval))
    (d : gmap string CbuildbotConfig.cfgval) (key : string) :
  is_Some (d !! key) -> is_Some (fold_left CbuildbotConfig.update updates d !! key).
Proof.
  revert d. induction updates as [|u us IH]; intros d H; simpl; [assumption|].
  apply IH. unfold CbuildbotConfig.update.
  destruct (u !! key) as [v|] eqn:E.
  - exists v. now apply lookup_union_Some_l.
  - now rewrite lookup_union_r.
Qed.

(** Every key of [default] is a key of the new entry, whatever the
    updates, and the entries of other builders are as they were. *)
Theorem add_config_has_default_keys (name : string)
    (updates : list (gmap string CbuildbotConfig.cfgval))
    (config : gmap string (gmap string CbuildbotConfig.cfgval)) :
  (exists new_config,
     CbuildbotConfig.add_config_from default name updates config !! name
       = Some new_config /\
     forall key, is_Some (default !! key) -> is_Some (new_config !! key)) /\
  (forall other, other <> name ->
     CbuildbotConfig.add_config_from default name updates config !! other
       = config !! other).
Proof.
  unfold CbuildbotConfig.add_config_from. split.
  - eexists. split; [apply lookup_insert_eq|].
    intros key. apply fold_update_dom.
  - intros other H. now apply lookup_insert_ne.
Qed.
End AddConfig.

Lemma table_forall (table : gmap string (gmap string CbuildbotConfig.cfgval))
    (check : gmap string CbuildbotConfig.cfgval -> bool) :
  forallb (fun p => check (snd p)) (map_to_list table) = true ->
  forall name c, table !! name = Some c -> check c = true.
Proof.
  intros H name c Hc. rewrite forallb_forall in H.
  apply (H (name, c)). apply list_elem_of_In. apply elem_of_map_to_list. exact Hc.
Qed.

Lemma keys_within (d c : gmap string CbuildbotConfig.cfgval) :
  forallb (fun q : string * CbuildbotConfig.cfgval => bool_decide (is_Some (c !! fst q)))
          (map_to_list d) = true ->
  forall key, is_Some (d !! key) -> is_Some (c !! key).
Proof.
  intros K key [v Hv]. rewrite forallb_forall in K.
  assert (Hin : In (key, v) (map_to_list d)).
  { apply list_elem_of_In. apply elem_of_map_to_list. exact Hv. }
  apply K in Hin. now apply bool_decide_eq_true in Hin.
Qed.

Lemma config_builder_ok :
  forallb (fun p => builder_ok (snd p)) (map_to_list CbuildbotConfig.config) = true.
Proof. vm_compute. reflexivity. Qed.

Lemma config_has_default_keys :
  forallb (fun p => has_default_keys (snd p)) (map_to_list CbuildbotConfig.config) = true.
Proof. vm_compute. reflexivity. Qed.

Lemma config_full_settings_ok :
  forallb (fun p => full_settings_ok (snd p)) (map_to_list CbuildbotConfig.config) = true.
Proof. vm_compute. reflexivity. Qed.

(** Every builder of the table names its board, though [default] has
    none; only a master pushes ([push_overlays] is [None] otherwise);
    what it pushes is within what it revs; and it has every key of
    [default]. *)
Theorem config_builders_keep_the_rules (name : string)
    (c : gmap string CbuildbotConfig.cfgval) :
  CbuildbotConfig.config !! name = Some c ->
  (exists board, c !! "board" = Some (CbuildbotConfig.CStr board)) /\
  (c !! "master" = Some (CbuildbotConfig.CBool true) \/
   c !! "push_overlays" = Some CbuildbotConfig.CNone) /\
  overlays_within (c !! "push_overlays") (c !! "rev_overlays") = true /\
  (forall key, is_Some (CbuildbotConfig.default !! key) -> is_Some (c !! key)).
Proof.
  intros Hc.
  pose proof (table_forall _ builder_ok config_builder_ok name c Hc) as H.
  pose proof (table_forall _ has_default_keys config_has_default_keys name c Hc) as K.
  unfold builder_ok in H. apply andb_true_iff in H as [H H3].
  apply andb_true_iff in H as [H1 H2].
  split; [|split; [|split]].
  - destruct (c !! "board") as [[| |b]|]; try discriminate H1. now exists b.
  - apply orb_true_iff in H2 as [H2|H2]; apply bool_decide_eq_true in H2; auto.
  - exact H3.
  - intros key Hk. exact (keys_within _ c K key Hk).
Qed.

(** In the table the settings of [full] win over those of [arm] listed
    before it: every full build, the arm ones too, builds from scratch
    and makes the test and factory images. *)
Theorem config_full_builds (name : string) (c : gmap string CbuildbotConfig.cfgval) :
  CbuildbotConfig.config !! name = Some c ->
  c !! "build_type" = Some (CbuildbotConfig.CStr "full") ->
  c !! "usepkg" = Some (CbuildbotConfig.CBool false) /\
  c !! "chroot_replace" = Some (CbuildbotConfig.CBool true) /\
  c !! "test_mod" = Some (CbuildbotConfig.CBool true) /\
  c !! "factory_install_mod" = Some (CbuildbotConfig.CBool true) /\
  c !! "factory_test_mod" = Some (CbuildbotConfig.CBool true).
Proof.
  intros Hc Hf.
  pose proof (table_forall _ full_settings_ok config_full_settings_ok name c Hc) as H.
  unfold full_settings_ok in H. apply orb_true_iff in H as [H|H].
  - apply negb_true_iff, bool_decide_eq_false in H. contradiction.
  - repeat (apply andb_true_iff in H as [H ?]).
    repeat match goal with X : bool_decide _ = true |- _ =>
      apply bool_decide_eq_true in X end.
    auto.
Qed.

(** * More on [_LKGMCandidateInfo] *)

Section CandidateMore.
Variable load_version_file : pyval -> pyobj -> result pyobj.

Local Abbreviation init := (_LKGMCandidateInfo.__init__ load_version_file).
Local Abbreviation VersionCompare := (_LKGMCandidateInfo.VersionCompare load_version_file).

Lemma search_LKGM_contains (s : string) (g : string * option string) :
  Re.search_LKGM s = Some g -> contains_version s.
Proof.
  intros H. destruct (search_inv _ _ _ H) as (pre & t & -> & Ht).
  unfold Re.match_LKGM, Re.obind in Ht.
  destruct (Re.match_version t) as [[[[[a b] c] d] r]|] eqn:E; [|discriminate].
  apply match_version_inv in E as (-> & Ha & Hb & Hc & Hd & _).
  exists pre, a, b, c, d, r. auto.
Qed.

(** A string that is not empty and holds no version is refused by the
    assertion of the constructor, and so by [VersionCompare]. *)
Theorem init_without_version_asserts (s : string) (version_file : pyval) :
  s <> EmptyString -> ~ contains_version s ->
  init (PyStr s) version_file
    = Raise (AssertionError ("LKGM did not re " +:+ _LKGMCandidateInfo.LKGM_RE)) /\
  VersionCompare (PyStr s)
    = Raise (AssertionError ("LKGM did not re " +:+ _LKGMCandidateInfo.LKGM_RE)).
Proof.
  intros Hne Hno.
  assert (Hs : Re.search_LKGM s = None).
  { destruct (Re.search_LKGM s) as [g|] eqn:E; [|reflexivity].
    exfalso. apply Hno. eapply search_LKGM_contains. exact E. }
  assert (Hi : forall vf, init (PyStr s) vf
             = Raise (AssertionError ("LKGM did not re " +:+ _LKGMCandidateInfo.LKGM_RE))).
  { intros vf. unfold _LKGMCandidateInfo.__init__.
    assert (truthy (PyStr s) = true) as -> by (destruct s; [congruence | reflexivity]).
    fold Re.search_LKGM. rewrite Hs. reflexivity. }
  split; [apply Hi|]. unfold _LKGMCandidateInfo.VersionCompare. now rewrite Hi.
Qed.

(** [None] and the empty string are no version string: the constructor
    turns to the version file, and [VersionCompare] of them is the key
    of the version of the file with revision 1, or the error of reading
    the file. *)
Theorem VersionCompare_without_string (version_string : pyval) :
  truthy version_string = false ->
  (forall e,
     load_version_file PyNone (_LKGMCandidateInfo.setattr ∅ "ver_revision" PyNone)
       = Raise e ->
     VersionCompare version_string = Raise e) /\
  (forall o maj min sp patch,
     load_version_file PyNone (_LKGMCandidateInfo.setattr ∅ "ver_revision" PyNone)
       = Ok o ->
     version_fields o maj min sp patch -> o !! "ver_revision" = Some PyNone ->
     VersionCompare version_string
       = Ok [Z.of_N maj; Z.of_N min; Z.of_N sp; Z.of_N patch; 1]).
Proof.
  intros Hf. unfold _LKGMCandidateInfo.VersionCompare, _LKGMCandidateInfo.__init__.
  rewrite Hf. split.
  - intros e ->. reflexivity.
  - intros o maj min sp patch -> (H1 & H2 & H3 & H4) H5. cbn [rbind].
    unfold _LKGMCandidateInfo.getattr at 1. rewrite H5. cbn [rbind truthy negb].
    apply (compare_key_fields _ _ _ _ _ 1 (PyInt 1)); [|reflexivity].
    unfold has_fields, _LKGMCandidateInfo.setattr.
    rewrite !lookup_insert_ne by discriminate. rewrite lookup_insert_eq. auto.
Qed.

(** The key of a string that the pattern is found in is a list of five
    numbers, none negative. *)
Theorem VersionCompare_five_numbers (s : string) :
  contains_version s ->
  exists maj min sp patch rev : Z,
    VersionCompare (PyStr s) = Ok [maj; min; sp; patch; rev] /\
    0 <= maj /\ 0 <= min /\ 0 <= sp /\ 0 <= patch /\ 0 <= rev.
Proof.
  intros H. apply contains_version_search in H.
  destruct (Re.search_LKGM s) as [[g1 g2]|] eqn:E; [|congruence].
  destruct (init_of_groups load_version_file s g1 g2 PyNone E)
    as (c & maj & min & sp & patch & Hi & Hf & Hn & _).
  assert (Hrev : revision_ok (revision_of_group g2)).
  { destruct g2 as [n|]; simpl; [now apply Hn | lia]. }
  destruct (revision_text _ Hrev) as (sr & r & _ & _ & Hr & _ & Hpos).
  exists (Z.of_N maj), (Z.of_N min), (Z.of_N sp), (Z.of_N patch), r.
  split; [|lia].
  unfold _LKGMCandidateInfo.VersionCompare. rewrite Hi. cbn [rbind].
  now apply (compare_key_fields c _ _ _ _ r (revision_of_group g2)).
Qed.

Lemma VersionCompare_of_search (s a b c d : string) (g2 : option string)
    (maj min sp patch r : Z) :
  Re.search_LKGM s = Some (Re.dotted a b c d, g2) ->
  digit_string a -> digit_string b -> digit_string c -> digit_string d ->
  (forall n, g2 = Some n -> digit_string n) ->
  int_of_digits a = Ok maj -> int_of_digits b = Ok min ->
  int_of_digits c = Ok sp -> int_of_digits d = Ok patch ->
  py_int (revision_of_group g2) = Ok r ->
  VersionCompare (PyStr s) = Ok [maj; min; sp; patch; r].
Proof.
  intros Hs Ha Hb Hc Hd Hn Ea Eb Ec Ed Er.
  destruct (init_of_match load_version_file s a b c d g2 _ _ _ _ PyNone
              Hs Ha Hb Hc Hd Hn Ea Eb Ec Ed) as (cand & Hi & Hf & _).
  unfold _LKGMCandidateInfo.VersionCompare. rewrite Hi. cbn [rbind].
  now apply (compare_key_fields cand _ _ _ _ r (revision_of_group g2)).
Qed.

(** The key is that of the numbers written: two texts whose five runs of
    digits denote the same numbers have the same key, whatever the
    leading zeros and whatever follows the revision. *)
Theorem VersionCompare_by_value (a b c d n post a' b' c' d' n' post' : string) :
  digit_string a -> digit_string b -> digit_string c -> digit_string d ->
  digit_string n -> no_digit_ahead post = true ->
  digit_string a' -> digit_string b' -> digit_string c' -> digit_string d' ->
  digit_string n' -> no_digit_ahead post' = true ->
  int_of_digits a = int_of_digits a' -> int_of_digits b = int_of_digits b' ->
  int_of_digits c = int_of_digits c' -> int_of_digits d = int_of_digits d' ->
  int_of_digits n = int_of_digits n' ->
  VersionCompare (PyStr (lkgm_text a b c d n post))
    = VersionCompare (PyStr (lkgm_text a' b' c' d' n' post')) /\
  exists key, VersionCompare (PyStr (lkgm_text a b c d n post)) = Ok key.
Proof.
  intros Ha Hb Hc Hd Hn Hp Ha' Hb' Hc' Hd' Hn' Hp' Ea Eb Ec Ed En.
  destruct (int_of_digits_digit_string a Ha) as [A HA].
  destruct (int_of_digits_digit_string b Hb) as [B HB].
  destruct (int_of_digits_digit_string c Hc) as [C HC].
  destruct (int_of_digits_digit_string d Hd) as [D HD].
  destruct (int_of_digits_digit_string n Hn) as [N HN].
  assert (K : VersionCompare (PyStr (lkgm_text a b c d n post))
              = Ok [Z.of_N A; Z.of_N B; Z.of_N C; Z.of_N D; Z.of_N N]).
  { assert (G : forall m, Some n = Some m -> digit_string m) by now intros m [= <-].
    exact (VersionCompare_of_search _ a b c d (Some n) _ _ _ _ _
             (init_revision_suffix a b c d n post Ha Hb Hc Hd Hn Hp)
             Ha Hb Hc Hd G HA HB HC HD HN). }
  assert (K' : VersionCompare (PyStr (lkgm_text a' b' c' d' n' post'))
               = Ok [Z.of_N A; Z.of_N B; Z.of_N C; Z.of_N D; Z.of_N N]).
  { assert (G : forall m, Some n' = Some m -> digit_string m) by now intros m [= <-].
    rewrite Ea in HA. rewrite Eb in HB. rewrite Ec in HC. rewrite Ed in HD.
    rewrite En in HN.
    exact (VersionCompare_of_search _ a' b' c' d' (Some n') _ _ _ _ _
             (init_revision_suffix a' b' c' d' n' post' Ha' Hb' Hc' Hd' Hn' Hp')
             Ha' Hb' Hc' Hd' G HA HB HC HD HN). }
  rewrite K, K'. split; [reflexivity | eauto].
Qed.

(** A bare version has the key of its first candidate: without a suffix
    the revision counts as 1. *)
Theorem VersionCompare_bare_is_rc1 (a b c d post post' : string) :
  digit_string a -> digit_string b -> digit_string c -> digit_string d ->
  no_digit_ahead post = true -> Re.match_rc post = None ->
  no_digit_ahead post' = true ->
  VersionCompare (PyStr (Re.dotted a b c d +:+ post))
    = VersionCompare (PyStr (lkgm_text a b c d "1" post')) /\
  exists maj min sp patch,
    VersionCompare (PyStr (Re.dotted a b c d +:+ post)) = Ok [maj; min; sp; patch; 1].
Proof.
  intros Ha Hb Hc Hd Hp Hrc Hp'.
  destruct (int_of_digits_digit_string a Ha) as [A HA].
  destruct (int_of_digits_digit_string b Hb) as [B HB].
  destruct (int_of_digits_digit_string c Hc) as [C HC].
  destruct (int_of_digits_digit_string d Hd) as [D HD].
  assert (K : VersionCompare (PyStr (Re.dotted a b c d +:+ post))
              = Ok [Z.of_N A; Z.of_N B; Z.of_N C; Z.of_N D; 1]).
  { assert (G : forall m, @None string = Some m -> digit_string m) by discriminate.
    exact (VersionCompare_of_search _ a b c d None _ _ _ _ _
             (init_revision_default a b c d post Ha Hb Hc Hd Hp Hrc)
             Ha Hb Hc Hd G HA HB HC HD eq_refl). }
  assert (K' : VersionCompare (PyStr (lkgm_text a b c d "1" post'))
               = Ok [Z.of_N A; Z.of_N B; Z.of_N C; Z.of_N D; 1]).
  { assert (H1 : digit_string "1") by (split; [discriminate | reflexivity]).
    assert (G : forall m, Some "1"%string = Some m -> digit_string m)
      by now intros m [= <-].
    exact (VersionCompare_of_search _ a b c d (Some "1"%string) _ _ _ _ _
             (init_revision_suffix a b c d "1" post' Ha Hb Hc Hd H1 Hp')
             Ha Hb Hc Hd G HA HB HC HD eq_refl). }
  rewrite K, K'. split; [reflexivity | eauto].
Qed.
End CandidateMore.

Lemma getattr_setattr_other (self : pyobj) (name other : string) (v : pyval) :
  other <> name ->
  _LKGMCandidateInfo.getattr (_LKGMCandidateInfo.setattr self name v) other
    = _LKGMCandidateInfo.getattr self other.
Proof.
  intros H. unfold _LKGMCandidateInfo.getattr, _LKGMCandidateInfo.setattr.
  now rewrite lookup_insert_ne by congruence.
Qed.

(** Whatever the instance, [IncrementVersion] leaves [ver_revision] and
    the four components as they were, and the string it returns, when it
    returns one, is the version string the instance had before: the
    revision of a candidate is never incremented. *)
Theorem IncrementVersion_keeps_revision (self : pyobj) (message : pyval)
    (dry_run : bool) :
  (forall name, name <> "version_revision"%string ->
     snd (_LKGMCandidateInfo.IncrementVersion self message dry_run) !! name
       = self !! name) /\
  (forall s,
     fst (_LKGMCandidateInfo.IncrementVersion self message dry_run) = Ok s ->
     _LKGMCandidateInfo.VersionString self = Ok s).
Proof.
  unfold _LKGMCandidateInfo.IncrementVersion.
  destruct (_LKGMCandidateInfo.getattr self "version_revision") as [v|e];
    [|split; [reflexivity | discriminate]].
  destruct (py_add v (PyInt 1)) as [v'|e]; [|split; [reflexivity | discriminate]].
  cbn [fst snd]. split.
  - intros name H. unfold _LKGMCandidateInfo.setattr.
    now rewrite lookup_insert_ne by congruence.
  - intros s. unfold _LKGMCandidateInfo.VersionString.
    now rewrite !getattr_setattr_other by discriminate.
Qed.

(** * More on [_GetLatestLKGMCandidate] and the two entry points *)

(** [_GetLatestLKGMCandidate] never gives a candidate.  It raises
    [TypeError] exactly when no published name is the bare text of the
    version; otherwise it gives the list of the published names that are
    that text, which is not empty. *)
Theorem GetLatestLKGMCandidate_never_a_candidate
    (load_version_file : pyval -> pyobj -> result pyobj)
    (all : list string) (vi : pyobj) (maj min sp patch : N) :
  version_fields vi maj min sp patch ->
  let v := Re.dotted (str_N maj) (str_N min) (str_N sp) (str_N patch) in
  let r := LKGMManager._GetLatestLKGMCandidate load_version_file all vi in
  (forall c, r <> Ok (LKGMManager.LkgmInfo c)) /\
  (r = Raise TypeError <-> ~ In v all) /\
  (forall l, r = Ok (LKGMManager.LkgmList l) ->
     l <> [] /\ Forall (eq v) l /\ l = List.filter (fun ver => String.eqb ver v) all).
Proof.
  intros Hvi v r. subst r.
  rewrite (GetLatestLKGMCandidate_result load_version_file all vi _ _ _ _ Hvi).
  fold v.
  assert (F : forall z, In z (List.filter (fun ver => String.eqb ver v) all)
                        <-> In z all /\ z = v).
  { intros z. rewrite filter_In, String.eqb_eq. reflexivity. }
  destruct (List.filter (fun ver => String.eqb ver v) all) as [|y l] eqn:E.
  - split; [discriminate|]. split; [|discriminate].
    split; [|reflexivity]. intros _ Hin.
    apply (proj2 (F v)). auto.
  - split; [discriminate|]. split.
    + split; [discriminate|]. intros Hno. exfalso. apply Hno.
      destruct (proj1 (F y) (or_introl eq_refl)) as [Hin ->]. exact Hin.
    + intros l' [= <-]. split; [discriminate|]. split; [|reflexivity].
      apply Forall_forall. intros z Hz. apply list_elem_of_In in Hz.
      now destruct (proj1 (F z) Hz).
Qed.

Lemma percent_start (name v : string) :
  Format.percent "Automatic: Start %s %s" (Format.ArgsTuple [PyStr name; PyStr v])
    = Ok ("Automatic: Start " +:+ name +:+ " " +:+ v).
Proof.
  unfold Format.percent. cbn. now rewrite append_nil_r.
Qed.

Section GenerationMore.
Variable World : Type.
Variable _GetCurrentVersionInfo :
  pyval -> LKGMManager.manager * World -> result pyobj * (LKGMManager.manager * World).
Variable BuildSpecsManager_LoadSpecs :
  pyobj -> string -> LKGMManager.manager * World
  -> result unit * (LKGMManager.manager * World).
Variable _SetInFlight :
  string -> LKGMManager.manager * World -> result unit * (LKGMManager.manager * World).

Local Abbreviation state := (LKGMManager.state World).
Local Abbreviation mkState := (LKGMManager.mkState World).
Local Abbreviation self := (LKGMManager.self World).
Local Abbreviation world := (LKGMManager.world World).
Local Abbreviation trace := (LKGMManager.trace World).
Local Abbreviation claim := (LKGMManager.claim_current_version World _SetInFlight).
Local Abbreviation GetNext :=
  (LKGMManager.GetNextLKGMCandidate World
     _GetCurrentVersionInfo BuildSpecsManager_LoadSpecs _SetInFlight).

(** Lines 128-132: a spec that is a string with something in it is
    logged and marked in flight, once, with the message
    [Automatic: Start <build_name> <spec>], whatever characters the two
    names hold; [None] and the empty string are not marked, and nothing
    happens. *)
Theorem claim_current_version_message (st : state) :
  (truthy (LKGMManager.current_version (self st)) = false ->
   claim st = (Ok tt, st)) /\
  (forall v,
     LKGMManager.current_version (self st) = PyStr v -> v <> EmptyString ->
     let r := _SetInFlight
                ("Automatic: Start " +:+ LKGMManager.build_name (self st) +:+ " " +:+ v)
                (self st, world st) in
     claim st =
       (fst r,
        mkState (fst (snd r)) (snd (snd r))
          (trace st ++ [LKGMManager.EvLog "debug" "Using build spec: %s" [PyStr v];
                        LKGMManager.EvCall "_SetInFlight"]))).
Proof.
  unfold LKGMManager.claim_current_version, LKGMManager.bind, LKGMManager.get_self,
    LKGMManager.logging, LKGMManager.emit, LKGMManager.lift, LKGMManager.call,
    LKGMManager.ret.
  split.
  - intros ->. reflexivity.
  - intros v Hv Hne. rewrite Hv.
    assert (truthy (PyStr v) = true) as -> by (destruct v; [congruence | reflexivity]).
    rewrite percent_start.
    cbn [fst snd LKGMManager.self LKGMManager.world LKGMManager.trace].
    now rewrite <- app_assoc.
Qed.

(** [GetNextLKGMCandidate] adopts the latest unprocessed spec that
    [_LoadSpecs] finds under [LKGM-candidates]: it becomes
    [current_version]; when there is none, [None] is returned and nothing
    is marked in flight; when there is one, it is marked in flight and
    the [current_version] that is left is returned. *)
Theorem GetNextLKGMCandidate_adopts_latest (version_file : pyval) (retries : Z)
    (st : state) (vi : pyobj) (m1 m2 : LKGMManager.manager) (w1 w2 : World) :
  _GetCurrentVersionInfo version_file (self st, world st) = (Ok vi, (m1, w1)) ->
  BuildSpecsManager_LoadSpecs vi "LKGM-candidates" (m1, w1) = (Ok tt, (m2, w2)) ->
  let latest := LKGMManager.latest_unprocessed m2 in
  let st2 := mkState (LKGMManager.set_current_version latest m2) w2
               (trace st ++ [LKGMManager.EvCall "_GetCurrentVersionInfo";
                             LKGMManager.EvCall "_LoadSpecs"]) in
  (truthy latest = false -> GetNext version_file retries st = (Ok latest, st2)) /\
  (forall v m3 w3,
     latest = PyStr v -> v <> EmptyString ->
     _SetInFlight ("Automatic: Start " +:+ LKGMManager.build_name m2 +:+ " " +:+ v)
       (LKGMManager.set_current_version latest m2, w2) = (Ok tt, (m3, w3)) ->
     GetNext version_file retries st =
       (Ok (LKGMManager.current_version m3),
        mkState m3 w3
          (trace st2 ++ [LKGMManager.EvLog "debug" "Using build spec: %s" [PyStr v];
                         LKGMManager.EvCall "_SetInFlight"]))).
Proof.
  intros Hg Hl latest st2.
  assert (E : LKGMManager.GetNextLKGMCandidate_body World _GetCurrentVersionInfo
                BuildSpecsManager_LoadSpecs _SetInFlight version_file st
              = match claim st2 with
                | (Ok _, st3) => (Ok (LKGMManager.current_version (self st3)), st3)
                | (Raise e, st3) => (Raise e, st3)
                end).
  { unfold LKGMManager.GetNextLKGMCandidate_body.
    unfold LKGMManager.bind at 1. unfold LKGMManager.call at 1.
    rewrite Hg. cbn [fst snd].
    unfold LKGMManager.bind at 1. unfold LKGMManager._LoadSpecs, LKGMManager.call at 1.
    cbn [LKGMManager.self LKGMManager.world LKGMManager.trace].
    rewrite Hl. cbn [fst snd].
    unfold LKGMManager.bind at 1. unfold LKGMManager.get_self at 1.
    unfold LKGMManager.bind at 1. unfold LKGMManager.assign_current_version at 1.
    cbn [LKGMManager.self LKGMManager.world LKGMManager.trace].
    rewrite <- app_assoc. cbn [app]. fold latest. fold st2.
    unfold LKGMManager.bind, LKGMManager.get_self, LKGMManager.ret.
    destruct (claim st2) as [[[]|e] st3]; reflexivity. }
  unfold LKGMManager.GetNextLKGMCandidate, LKGMManager.try_except.
  rewrite E. split.
  - intros Hf.
    destruct (claim_current_version_message st2) as [C _].
    rewrite C by exact Hf. reflexivity.
  - intros v m3 w3 Hv Hne Hs.
    destruct (claim_current_version_message st2) as [_ C].
    specialize (C v Hv Hne). cbv zeta in C. rewrite C.
    replace (self st2) with (LKGMManager.set_current_version latest m2) by reflexivity.
    replace (world st2) with w2 by reflexivity.
    replace (LKGMManager.build_name (LKGMManager.set_current_version latest m2))
      with (LKGMManager.build_name m2) by reflexivity.
    rewrite Hs. reflexivity.
Qed.
End GenerationMore.

(** * More on [GetOthersStatuses] *)

Section PollingMore.
Variable World : Type.
Variable time : World -> Z * World.
Variable sleep : Z -> World -> World.
Variable lexists : World -> string -> bool.
Variable RunCommand : list string -> string -> World -> result unit * World.

Local Abbreviation state := (LKGMManager.state World).
Local Abbreviation mkState := (LKGMManager.mkState World).
Local Abbreviation self := (LKGMManager.self World).
Local Abbreviation world := (LKGMManager.world World).
Local Abbreviation trace := (LKGMManager.trace World).
Local Abbreviation sync := (LKGMManager._SyncGitRepo World RunCommand).
Local Abbreviation poll_other := (LKGMManager.poll_other World lexists).
Local Abbreviation for_others := (LKGMManager.for_others World lexists).
Local Abbreviation poll_round := (LKGMManager.poll_round World sleep lexists RunCommand).
Local Abbreviation poll_loop := (LKGMManager.poll_loop World time sleep lexists RunCommand).

(** The state after the first reading of the clock. *)
Local Abbreviation started st :=
  (mkState (self st) (snd (time (world st))) (trace st)).






(** *** What the loop keeps *)

Lemma not_complete_false (v : pyval) :
  LKGMManager.not_complete v = false -> v = PyStr "pass" \/ v = PyStr "fail".
Proof.
  destruct v as [| |s|]; simpl; try discriminate.
  intros H. apply negb_false_iff, orb_true_iff in H as [H|H];
    apply String.eqb_eq in H; subst; auto.
Qed.

(** What one builder's turn does to the local variables. *)
Lemma poll_other_cases (pf ff inf other : string) (l l' : LKGMManager.locals)
    (st st' : state) :
  poll_other pf ff inf other l st = (Ok l', st') ->
  (LKGMManager.not_complete
     (default PyNone (LKGMManager.other_statuses l !! other)) = false /\ l' = l) \/
  (LKGMManager.not_complete
     (default PyNone (LKGMManager.other_statuses l !! other)) = true /\
   exists v,
     is_status v = true /\
     l' = LKGMManager.mkLocals (<[other := v]> (LKGMManager.other_statuses l))
            (if LKGMManager.not_complete v then LKGMManager.num_complete l
             else LKGMManager.num_complete l + 1)).
Proof.
  unfold LKGMManager.poll_other.
  destruct (LKGMManager.not_complete _) eqn:N.
  - unfold LKGMManager.bind, LKGMManager.lift.
    destruct (Format.percent pf _) as [p|]; [|discriminate].
    destruct (Format.percent ff _) as [f|]; [|discriminate].
    destruct (Format.percent inf _) as [i|]; [|discriminate].
    rewrite (check_markers_order World lexists). intros [= <- <-]. right.
    split; [reflexivity|].
    destruct (lexists _ p); [exists (PyStr "pass"); split; reflexivity|].
    destruct (lexists _ f); [exists (PyStr "fail"); split; reflexivity|].
    destruct (lexists _ i); [exists (PyStr "inflight"); split; reflexivity|].
    exists PyNone. split; reflexivity.
  - intros [= <- <-]. left. auto.
Qed.

Lemma for_others_invariant (I : LKGMManager.locals -> Prop) (scope : list string)
    (pf ff inf : string) :
  (forall o l l' st st',
     In o scope -> I l -> poll_other pf ff inf o l st = (Ok l', st') -> I l') ->
  forall others l l' st st',
    incl others scope -> I l ->
    for_others pf ff inf others l st = (Ok l', st') -> I l'.
Proof.
  intros Hstep others. induction others as [|o rest IH]; intros l l' st st' Hin Hl.
  - cbn [LKGMManager.for_others]. unfold LKGMManager.ret. now intros [= <- <-].
  - cbn [LKGMManager.for_others]. unfold LKGMManager.bind.
    destruct (poll_other pf ff inf o l st) as [[l1|e] st1] eqn:E; [|discriminate].
    apply IH.
    + intros x Hx. apply Hin. now right.
    + eapply Hstep; [apply Hin; now left | exact Hl | exact E].
Qed.

Lemma poll_round_locals (md pf ff inf : string) (others : list string)
    (l l' : LKGMManager.locals) (st st' : state) :
  poll_round md pf ff inf others l st = (Ok l', st') ->
  exists s1 s2, for_others pf ff inf others l s1 = (Ok l', s2).
Proof.
  unfold LKGMManager.poll_round. unfold LKGMManager.bind at 1.
  destruct (sync md st) as [[[]|e] s1]; [|discriminate].
  unfold LKGMManager.bind at 1.
  destruct (for_others pf ff inf others l s1) as [[l1|e] s2] eqn:E; [|discriminate].
  unfold LKGMManager.bind, LKGMManager.ret.
  destruct (_ <? _).
  - unfold LKGMManager.logging, LKGMManager.emit, LKGMManager.time_sleep.
    intros [= <- _]. eauto.
  - intros [= <- _]. eauto.
Qed.

Lemma poll_loop_invariant (I : LKGMManager.locals -> Prop)
    (start : Z) (md pf ff inf : string) (others : list string) :
  (forall l l' s1 s2, I l -> for_others pf ff inf others l s1 = (Ok l', s2) -> I l') ->
  forall fuel l l' st st',
    I l -> poll_loop fuel start md pf ff inf others l st = Some (Ok l', st') -> I l'.
Proof.
  intros Hstep fuel. induction fuel as [|fuel IH]; intros l l' st st' Hl; [discriminate|].
  cbn [LKGMManager.poll_loop]. unfold LKGMManager.time_time. cbn [fst snd].
  destruct (_ <? _).
  - destruct (poll_round md pf ff inf others l _) as [[l1|e] st1] eqn:E; [|discriminate].
    apply IH. destruct (poll_round_locals _ _ _ _ _ _ _ _ _ E) as (s1 & s2 & F).
    eapply Hstep; eassumption.
  - now intros [= <- <-].
Qed.

(** A status of [pass] or [fail] is final: once the loop holds one for a
    builder, no later turn changes it. *)
Theorem poll_loop_keeps_terminal (fuel : nat) (start : Z) (md pf ff inf : string)
    (others : list string) (l l' : LKGMManager.locals) (st st' : state)
    (builder : string) (v : pyval) :
  poll_loop fuel start md pf ff inf others l st = Some (Ok l', st') ->
  LKGMManager.other_statuses l !! builder = Some v ->
  LKGMManager.not_complete v = false ->
  LKGMManager.other_statuses l' !! builder = Some v.
Proof.
  intros Hloop Hv Hc.
  apply (poll_loop_invariant
           (fun l => LKGMManager.other_statuses l !! builder = Some v)
           start md pf ff inf others) with fuel l st st'; [|exact Hv|exact Hloop].
  intros l0 l1 s1 s2 H0.
  apply (for_others_invariant
           (fun l => LKGMManager.other_statuses l !! builder = Some v) others
           pf ff inf); [|apply incl_refl|exact H0].
  clear - Hc. intros o l l' st st' _ Hl Hp.
  apply poll_other_cases in Hp as [[_ ->]|[N (w & _ & ->)]]; [exact Hl|].
  cbn [LKGMManager.other_statuses].
  destruct (String.eqb_spec o builder) as [->|Hne].
  - rewrite Hl in N. simpl in N. congruence.
  - now rewrite lookup_insert_ne.
Qed.

(** The loop stores statuses for the builders of [others] only, and
    each is one of ['pass'], ['fail'], ['inflight'] and [None]: a
    mapping that is so when the loop begins is so when it ends. *)
Theorem poll_loop_statuses (fuel : nat) (start : Z) (md pf ff inf : string)
    (others : list string) (l l' : LKGMManager.locals) (st st' : state)
    (builder : string) (v : pyval) :
  (forall k w, LKGMManager.other_statuses l !! k = Some w ->
               In k others /\ is_status w = true) ->
  poll_loop fuel start md pf ff inf others l st = Some (Ok l', st') ->
  LKGMManager.other_statuses l' !! builder = Some v ->
  In builder others /\ is_status v = true.
Proof.
  intros Hl E.
  pose (I := fun l : LKGMManager.locals =>
               forall k w, LKGMManager.other_statuses l !! k = Some w ->
                           In k others /\ is_status w = true).
  assert (H : I l'); [|apply H].
  eapply (poll_loop_invariant I); [|exact Hl|exact E].
  intros l0 l1 s1 s2 H0.
  apply (for_others_invariant I others); [|apply incl_refl|exact H0].
  intros o l2 l3 s3 s4 Ho Hl2 Hp.
  apply poll_other_cases in Hp as [[_ ->]|[_ (w & Hw & ->)]]; [exact Hl2|].
  intros k x. cbn [LKGMManager.other_statuses].
  destruct (String.eqb_spec o k) as [->|Hne].
  - rewrite lookup_insert_eq. intros [= <-]. auto.
  - rewrite lookup_insert_ne by exact Hne. apply Hl2.
Qed.

(** With the templates of lines 177-181, for every manifest directory
    without [%] in its name and every relative directory prefix and
    file name, the loop records nothing.  A turn that has a builder
    without a final status raises [ValueError] as soon as the sync is
    done; and the local variables with which the loop ends are those
    with which it began. *)
Theorem poll_loop_records_nothing (manifest_dir dir_pfx xml_name : string) :
  no_percent manifest_dir = true ->
  Posixpath.startswith_slash dir_pfx = false ->
  Posixpath.startswith_slash xml_name = false ->
  (forall md others l st st1 other,
     In other others -> unfinished l other = true ->
     sync md st = (Ok tt, st1) ->
     poll_round md
       (LKGMManager.status_file manifest_dir "pass" dir_pfx xml_name)
       (LKGMManager.status_file manifest_dir "fail" dir_pfx xml_name)
       (LKGMManager.status_file manifest_dir "inflight" dir_pfx xml_name)
       others l st
     = (Raise ValueError, st1)) /\
  (forall fuel start md others l l' st st',
     poll_loop fuel start md
       (LKGMManager.status_file manifest_dir "pass" dir_pfx xml_name)
       (LKGMManager.status_file manifest_dir "fail" dir_pfx xml_name)
       (LKGMManager.status_file manifest_dir "inflight" dir_pfx xml_name)
       others l st
     = Some (Ok l', st') ->
     l' = l).
Proof.
  intros Hm Hd Hx. split.
  - intros md others l st st1 other Hin Hu Hs.
    unfold LKGMManager.poll_round. unfold LKGMManager.bind at 1. rewrite Hs.
    unfold LKGMManager.bind at 1.
    rewrite (for_others_templates World lexists _ _ _ _ _ _ Hm Hd Hx).
    assert (E : existsb (unfinished l) others = true)
      by (apply existsb_exists; eauto).
    rewrite E. reflexivity.
  - intros fuel start md others. induction fuel as [|fuel IH]; intros l l' st st';
      [discriminate|].
    cbn [LKGMManager.poll_loop]. unfold LKGMManager.time_time. cbn [fst snd].
    destruct (_ <? _); [|now intros [= <- _]].
    destruct (poll_round md _ _ _ others l _) as [[l1|e] st1] eqn:E; [|discriminate].
    destruct (poll_round_locals _ _ _ _ _ _ _ _ _ E) as (s1 & s2 & F).
    rewrite (for_others_templates World lexists _ _ _ _ _ _ Hm Hd Hx) in F.
    destruct (existsb _ others); [discriminate|].
    injection F as <- _. apply IH.
Qed.

(** *** Counting the builders that have finished *)

Lemma size_list_to_set_le (l : list string) :
  (size (list_to_set l : gset string) <= length l)%nat.
Proof.
  induction l as [|x l IH]; [rewrite list_to_set_nil, size_empty; simpl; lia|].
  rewrite list_to_set_cons. cbn [length].
  destruct (decide (x ∈ (list_to_set l : gset string))) as [Hx|Hx].
  - rewrite (subseteq_union_1_L {[x]} (list_to_set l)) by set_solver. lia.
  - rewrite size_union by set_solver. rewrite size_singleton. lia.
Qed.

Lemma size_list_to_set_lt (l : list string) :
  ~ NoDup l -> (size (list_to_set l : gset string) < length l)%nat.
Proof.
  induction l as [|x l IH]; intros H; [destruct H; constructor|].
  rewrite list_to_set_cons. cbn [length].
  destruct (decide (x ∈ l)) as [Hx|Hx].
  - rewrite (subseteq_union_1_L {[x]} (list_to_set l)) by set_solver.
    pose proof (size_list_to_set_le l). lia.
  - assert (Hl : ~ NoDup l) by (intros Hl; apply H; now constructor).
    specialize (IH Hl).
    rewrite size_union by set_solver. rewrite size_singleton. lia.
Qed.

Lemma poll_other_counted (others : list string) (pf ff inf o : string)
    (l l' : LKGMManager.locals) (st st' : state) :
  In o others -> counted others l ->
  poll_other pf ff inf o l st = (Ok l', st') -> counted others l'.
Proof.
  intros Ho (T & HT & Hn & Hsub) Hp.
  apply poll_other_cases in Hp as [[_ ->]|[N (w & _ & ->)]]; [now exists T|].
  assert (HoT : o ∉ T).
  { intros Hin. apply HT in Hin as (v & Hv & Hc). rewrite Hv in N. simpl in N.
    congruence. }
  destruct (LKGMManager.not_complete w) eqn:W.
  - exists T. split; [|split; [exact Hn|exact Hsub]].
    intros k. cbn [LKGMManager.other_statuses]. rewrite HT.
    destruct (String.eqb_spec o k) as [->|Hne].
    + rewrite lookup_insert_eq. split.
      * intros Hk. exfalso. apply HoT, HT, Hk.
      * intros (v & [= <-] & Hc). congruence.
    + rewrite lookup_insert_ne by exact Hne. tauto.
  - exists ({[o]} ∪ T). split; [|split].
    + intros k. cbn [LKGMManager.other_statuses]. rewrite elem_of_union, elem_of_singleton, HT.
      destruct (String.eqb_spec o k) as [->|Hne].
      * rewrite lookup_insert_eq. split; [|auto]. intros _. eauto.
      * rewrite lookup_insert_ne by exact Hne. split; [|auto].
        intros [Hk|Hk]; [congruence|exact Hk].
    + cbn [LKGMManager.num_complete].
      rewrite size_union by (apply disjoint_singleton_l; exact HoT).
      rewrite size_singleton. lia.
    + apply union_least; [|exact Hsub].
      apply singleton_subseteq_l, elem_of_list_to_set, list_elem_of_In, Ho.
Qed.

Lemma poll_loop_counted (fuel : nat) (start : Z) (md pf ff inf : string)
    (others : list string) (l l' : LKGMManager.locals) (st st' : state) :
  counted others l ->
  poll_loop fuel start md pf ff inf others l st = Some (Ok l', st') ->
  counted others l'.
Proof.
  intros Hl E. eapply (poll_loop_invariant (counted others)); [|exact Hl|exact E].
  intros l0 l1 s1 s2 H0.
  apply (for_others_invariant (counted others) others); [|apply incl_refl|exact H0].
  intros o l2 l3 s3 s4. apply poll_other_counted.
Qed.

(** [num_complete] counts the builders that have passed or failed, each
    once.  So when the loop ends, [num_complete] is [len(others)], and
    line 210 is silent, exactly when no name occurs twice in [others]
    and the mapping gives every builder of [others] the status ['pass']
    or ['fail']. *)
Theorem poll_loop_count (fuel : nat) (start : Z) (md pf ff inf : string)
    (others : list string) (l l' : LKGMManager.locals) (st st' : state) :
  counted others l ->
  poll_loop fuel start md pf ff inf others l st = Some (Ok l', st') ->
  LKGMManager.num_complete l' = Z.of_nat (length others) <->
  NoDup others /\
  forall builder, In builder others ->
    LKGMManager.other_statuses l' !! builder = Some (PyStr "pass") \/
    LKGMManager.other_statuses l' !! builder = Some (PyStr "fail").
Proof.
  intros Hl E.
  destruct (poll_loop_counted _ _ _ _ _ _ _ _ _ _ _ Hl E) as (T & HT & Hc & Hsub).
  pose proof (subseteq_size _ _ Hsub) as Hle.
  pose proof (size_list_to_set_le others) as Hle'.
  split.
  - intros Hn.
    assert (Hnd : NoDup others).
    { destruct (decide (NoDup others)) as [H|H]; [exact H|].
      apply size_list_to_set_lt in H. lia. }
    split; [exact Hnd|].
    intros b Hb.
    assert (HbT : b ∈ T).
    { destruct (decide (b ∈ T)) as [H|H]; [exact H|exfalso].
      assert (Hs : {[b]} ∪ T ⊆ list_to_set others).
      { apply union_least; [|exact Hsub].
        apply singleton_subseteq_l, elem_of_list_to_set, list_elem_of_In, Hb. }
      apply subseteq_size in Hs.
      rewrite size_union in Hs by (apply disjoint_singleton_l; exact H).
      rewrite size_singleton in Hs. lia. }
    apply HT in HbT as (v & Hv & Hcv).
    apply not_complete_false in Hcv as [->| ->]; auto.
  - intros [Hnd Hall].
    assert (Hsup : list_to_set others ⊆ T).
    { intros b Hb. apply elem_of_list_to_set, list_elem_of_In in Hb.
      apply HT. destruct (Hall b Hb) as [H|H]; eexists; (split; [exact H|reflexivity]). }
    apply subseteq_size in Hsup.
    rewrite (size_list_to_set others Hnd) in Hsup, Hle. lia.
Qed.

(** A name that occurs twice in [others] is counted once, so
    [num_complete] never reaches [len(others)]: whenever the loop ends,
    lines 210-213 write the error record, also when every builder has
    passed. *)
Theorem poll_loop_repeated_name (fuel : nat) (start : Z) (md pf ff inf : string)
    (others : list string) (l l' : LKGMManager.locals) (st st' : state) :
  counted others l ->
  ~ NoDup others ->
  poll_loop fuel start md pf ff inf others l st = Some (Ok l', st') ->
  LKGMManager.num_complete l' < Z.of_nat (length others) /\
  LKGMManager.report World others l' st'
    = (Ok (LKGMManager.other_statuses l'),
       mkState (self st') (world st') (trace st' ++ [timeout_record])).
Proof.
  intros Hl Hd E.
  destruct (poll_loop_counted _ _ _ _ _ _ _ _ _ _ _ Hl E) as (T & _ & Hc & Hsub).
  apply subseteq_size in Hsub. apply size_list_to_set_lt in Hd.
  assert (Hlt : LKGMManager.num_complete l' < Z.of_nat (length others)) by lia.
  split; [exact Hlt|].
  rewrite (report_returns World).
  destruct (Z.eqb_spec (LKGMManager.num_complete l') (Z.of_nat (length others)));
    [lia|reflexivity].
Qed.
End PollingMore.

(** * [CreateNextLKGMCandidate] after [_GetLatestLKGMCandidate] *)

Section CreateMore.
Variable World : Type.
Variable load_version_file : pyval -> pyobj -> result pyobj.
Variable _GetCurrentVersionInfo :
  pyval -> LKGMManager.manager * World -> result pyobj * (LKGMManager.manager * World).
Variable BuildSpecsManager_LoadSpecs :
  pyobj -> string -> LKGMManager.manager * World
  -> result unit * (LKGMManager.manager * World).
Variable _SetInFlight :
  string -> LKGMManager.manager * World -> result unit * (LKGMManager.manager * World).

Local Abbreviation state := (LKGMManager.state World).
Local Abbreviation mkState := (LKGMManager.mkState World).
Local Abbreviation self := (LKGMManager.self World).
Local Abbreviation world := (LKGMManager.world World).
Local Abbreviation trace := (LKGMManager.trace World).
Local Abbreviation Create_body create :=
  (LKGMManager.CreateNextLKGMCandidate_body World load_version_file
     _GetCurrentVersionInfo BuildSpecsManager_LoadSpecs create _SetInFlight).
Local Abbreviation Create create :=
  (LKGMManager.CreateNextLKGMCandidate World load_version_file
     _GetCurrentVersionInfo BuildSpecsManager_LoadSpecs create _SetInFlight).

Lemma CreateNextLKGMCandidate_body_latest
    (create : LKGMManager.lkgm_value -> LKGMManager.manager * World
              -> result pyval * (LKGMManager.manager * World))
    (version_file : pyval) (st : state) (vi : pyobj)
    (m1 m2 : LKGMManager.manager) (w1 w2 : World) (maj min sp patch : N) :
  _GetCurrentVersionInfo version_file (self st, world st) = (Ok vi, (m1, w1)) ->
  BuildSpecsManager_LoadSpecs vi "LKGM-candidates" (m1, w1) = (Ok tt, (m2, w2)) ->
  version_fields vi maj min sp patch ->
  let v := Re.dotted (str_N maj) (str_N min) (str_N sp) (str_N patch) in
  let st2 := mkState m2 w2
               (trace st ++ [LKGMManager.EvCall "_GetCurrentVersionInfo";
                             LKGMManager.EvCall "_LoadSpecs"]) in
  Create_body create version_file st =
    match List.filter (fun ver => String.eqb ver v) (LKGMManager.all m2) with
    | [] => (Raise TypeError, st2)
    | l =>
      LKGMManager.bind World
        (LKGMManager.call World "_CreateNewBuildSpec" (create (LKGMManager.LkgmList l)))
        (fun spec =>
           LKGMManager.bind World (LKGMManager.assign_current_version World spec)
             (fun _ =>
                LKGMManager.bind World
                  (LKGMManager.claim_current_version World _SetInFlight)
                  (fun _ =>
                     LKGMManager.bind World (LKGMManager.get_self World)
                       (fun m => LKGMManager.ret World (LKGMManager.current_version m)))))
        st2
    end.
Proof.
  intros Hg Hl Hvi v st2.
  unfold LKGMManager.CreateNextLKGMCandidate_body.
  unfold LKGMManager.bind at 1. unfold LKGMManager.call at 1.
  rewrite Hg. cbn [fst snd].
  unfold LKGMManager.bind at 1. unfold LKGMManager._LoadSpecs, LKGMManager.call at 1.
  cbn [LKGMManager.self LKGMManager.world LKGMManager.trace].
  rewrite Hl. cbn [fst snd].
  unfold LKGMManager.bind at 1. unfold LKGMManager.get_self at 1.
  cbn [LKGMManager.self].
  rewrite <- app_assoc. cbn [app]. fold st2.
  unfold LKGMManager.bind at 1. unfold LKGMManager.lift at 1.
  rewrite (GetLatestLKGMCandidate_result load_version_file _ vi _ _ _ _ Hvi).
  fold v.
  destruct (List.filter (fun ver => String.eqb ver v) (LKGMManager.all m2)); reflexivity.
Qed.

(** For a version that has no published spec of its bare text,
    [CreateNextLKGMCandidate] creates nothing: once the version is read
    and the specs are loaded it ends in [TypeError], which the handler
    does not catch, and neither [_CreateNewBuildSpec] nor [_SetInFlight]
    is called. *)
Theorem CreateNextLKGMCandidate_unpublished_version
    (create : LKGMManager.lkgm_value -> LKGMManager.manager * World
              -> result pyval * (LKGMManager.manager * World))
    (version_file : pyval) (retries : Z) (st : state) (vi : pyobj)
    (m1 m2 : LKGMManager.manager) (w1 w2 : World) (maj min sp patch : N) :
  _GetCurrentVersionInfo version_file (self st, world st) = (Ok vi, (m1, w1)) ->
  BuildSpecsManager_LoadSpecs vi "LKGM-candidates" (m1, w1) = (Ok tt, (m2, w2)) ->
  version_fields vi maj min sp patch ->
  ~ In (Re.dotted (str_N maj) (str_N min) (str_N sp) (str_N patch)) (LKGMManager.all m2) ->
  Create create version_file retries st =
    (Raise TypeError,
     mkState m2 w2
       (trace st ++ [LKGMManager.EvCall "_GetCurrentVersionInfo";
                     LKGMManager.EvCall "_LoadSpecs"])).
Proof.
  intros Hg Hl Hvi Hno.
  unfold LKGMManager.CreateNextLKGMCandidate, LKGMManager.try_except.
  rewrite (CreateNextLKGMCandidate_body_latest create _ _ _ _ _ _ _ _ _ _ _ Hg Hl Hvi).
  cbv zeta.
  destruct (List.filter _ (LKGMManager.all m2)) as [|y l] eqn:E; [reflexivity|].
  exfalso. apply Hno.
  assert (Hy : In y (List.filter
                       (fun ver => String.eqb ver
                          (Re.dotted (str_N maj) (str_N min) (str_N sp) (str_N patch)))
                       (LKGMManager.all m2))) by (rewrite E; now left).
  apply filter_In in Hy as [Hin Heq]. apply String.eqb_eq in Heq. now subst y.
Qed.

(** When the bare text of the version is published,
    [_CreateNewBuildSpec] is handed the list of the published names
    equal to it, not a candidate: two ways to create a spec that agree
    on that list give the same run. *)
Theorem CreateNextLKGMCandidate_passes_a_list
    (create create' : LKGMManager.lkgm_value -> LKGMManager.manager * World
                      -> result pyval * (LKGMManager.manager * World))
    (version_file : pyval) (retries : Z) (st : state) (vi : pyobj)
    (m1 m2 : LKGMManager.manager) (w1 w2 : World) (maj min sp patch : N) :
  _GetCurrentVersionInfo version_file (self st, world st) = (Ok vi, (m1, w1)) ->
  BuildSpecsManager_LoadSpecs vi "LKGM-candidates" (m1, w1) = (Ok tt, (m2, w2)) ->
  version_fields vi maj min sp patch ->
  create
    (LKGMManager.LkgmList
       (List.filter
          (fun ver => String.eqb ver
             (Re.dotted (str_N maj) (str_N min) (str_N sp) (str_N patch)))
          (LKGMManager.all m2)))
    = create'
        (LKGMManager.LkgmList
           (List.filter
              (fun ver => String.eqb ver
                 (Re.dotted (str_N maj) (str_N min) (str_N sp) (str_N patch)))
              (LKGMManager.all m2))) ->
  Create create version_file retries st = Create create' version_file retries st.
Proof.
  intros Hg Hl Hvi Hc.
  unfold LKGMManager.CreateNextLKGMCandidate, LKGMManager.try_except.
  rewrite (CreateNextLKGMCandidate_body_latest create _ _ _ _ _ _ _ _ _ _ _ Hg Hl Hvi).
  rewrite (CreateNextLKGMCandidate_body_latest create' _ _ _ _ _ _ _ _ _ _ _ Hg Hl Hvi).
  cbv zeta. revert Hc.
  destruct (List.filter _ (LKGMManager.all m2)) as [|y l]; [reflexivity|].
  intros Hc. rewrite Hc. reflexivity.
Qed.
End CreateMore.

(** * The further properties on particular inputs *)

Lemma add_config_last_update_wins_witness :
  exists new_config,
    CbuildbotConfig.add_config "arm-generic-full"
      [CbuildbotConfig.arm; CbuildbotConfig.full;
       CbuildbotConfig.dict [("board", CbuildbotConfig.CStr "arm-generic")]] ∅
      !! "arm-generic-full" = Some new_config /\
    new_config !! "usepkg" = Some (CbuildbotConfig.CBool false).
Proof.
  apply (add_config_last_update_wins CbuildbotConfig.default "arm-generic-full" "usepkg"
           (CbuildbotConfig.CBool false) [CbuildbotConfig.arm]
           [CbuildbotConfig.dict [("board", CbuildbotConfig.CStr "arm-generic")]]
           CbuildbotConfig.full ∅).
  - vm_compute. reflexivity.
  - repeat constructor.
Defined.

Lemma add_config_keeps_default_witness :
  exists new_config,
    CbuildbotConfig.add_config "arm-generic-full"
      [CbuildbotConfig.arm; CbuildbotConfig.full;
       CbuildbotConfig.dict [("board", CbuildbotConfig.CStr "arm-generic")]] ∅
      !! "arm-generic-full" = Some new_config /\
    new_config !! "master" = CbuildbotConfig.default !! "master".
Proof.
  apply (add_config_keeps_default CbuildbotConfig.default "arm-generic-full" "master").
  repeat constructor.
Defined.

Lemma config_builders_keep_the_rules_witness :
  CbuildbotConfig.config !! "arm-generic-full" = Some arm_generic_full /\
  (exists board, arm_generic_full !! "board" = Some (CbuildbotConfig.CStr board)) /\
  (arm_generic_full !! "master" = Some (CbuildbotConfig.CBool true) \/
   arm_generic_full !! "push_overlays" = Some CbuildbotConfig.CNone).
Proof.
  assert (E : CbuildbotConfig.config !! "arm-generic-full" = Some arm_generic_full).
  { apply (bool_decide_eq_true_1
             (CbuildbotConfig.config !! "arm-generic-full" = Some arm_generic_full)).
    vm_compute. reflexivity. }
  split; [exact E|].
  pose proof (config_builders_keep_the_rules "arm-generic-full" arm_generic_full E)
    as (Hb & Hm & _).
  split; [exact Hb | exact Hm].
Defined.

Lemma config_full_builds_witness :
  CbuildbotConfig.config !! "arm-generic-full" = Some arm_generic_full /\
  arm_generic_full !! "build_type" = Some (CbuildbotConfig.CStr "full") /\
  arm_generic_full !! "factory_install_mod" = Some (CbuildbotConfig.CBool true).
Proof.
  assert (E : CbuildbotConfig.config !! "arm-generic-full" = Some arm_generic_full).
  { apply (bool_decide_eq_true_1
             (CbuildbotConfig.config !! "arm-generic-full" = Some arm_generic_full)).
    vm_compute. reflexivity. }
  assert (B : arm_generic_full !! "build_type" = Some (CbuildbotConfig.CStr "full")).
  { vm_compute. reflexivity. }
  split; [exact E|]. split; [exact B|].
  pose proof (config_full_builds "arm-generic-full" arm_generic_full E B)
    as (_ & _ & _ & H & _).
  exact H.
Defined.

Lemma init_without_version_asserts_witness :
  _LKGMCandidateInfo.VersionCompare no_version_file (PyStr "1.2.3-rc4")
    = Raise (AssertionError "LKGM did not re (\d+\.\d+\.\d+\.\d+)(?:-rc(\d+))?").
Proof.
  apply (init_without_version_asserts no_version_file "1.2.3-rc4" PyNone).
  - discriminate.
  - intros H. apply contains_version_search in H. apply H. vm_compute. reflexivity.
Defined.

Lemma VersionCompare_without_string_witness :
  _LKGMCandidateInfo.VersionCompare version_file_1_2_3_4 (PyStr "") = Ok [1; 2; 3; 4; 1] /\
  _LKGMCandidateInfo.VersionCompare no_version_file PyNone
    = Raise (OtherException "IOError" "No such file or directory").
Proof.
  split.
  - destruct (VersionCompare_without_string version_file_1_2_3_4 (PyStr "") eq_refl)
      as [_ H].
    apply (H _ 1%N 2%N 3%N 4%N eq_refl).
    + repeat split; vm_compute; reflexivity.
    + vm_compute. reflexivity.
  - destruct (VersionCompare_without_string no_version_file PyNone eq_refl) as [H _].
    apply H. reflexivity.
Defined.

Lemma VersionCompare_five_numbers_witness :
  contains_version "build 1.2.3.4-rc7.xml" /\
  exists maj min sp patch rev : Z,
    _LKGMCandidateInfo.VersionCompare no_version_file (PyStr "build 1.2.3.4-rc7.xml")
      = Ok [maj; min; sp; patch; rev] /\
    0 <= rev.
Proof.
  assert (C : contains_version "build 1.2.3.4-rc7.xml").
  { exists "build "%string, "1"%string, "2"%string, "3"%string, "4"%string,
      "-rc7.xml"%string.
    repeat split; discriminate || reflexivity. }
  split; [exact C|].
  destruct (VersionCompare_five_numbers no_version_file _ C)
    as (maj & min & sp & patch & rev & H & _ & _ & _ & _ & Hr).
  exists maj, min, sp, patch, rev. auto.
Defined.

Lemma VersionCompare_by_value_witness :
  _LKGMCandidateInfo.VersionCompare no_version_file (PyStr "01.2.3.4-rc007.xml")
    = _LKGMCandidateInfo.VersionCompare no_version_file (PyStr "1.2.3.4-rc7").
Proof.
  apply (VersionCompare_by_value no_version_file
           "01" "2" "3" "4" "007" ".xml" "1" "2" "3" "4" "7" "");
    try (split; [discriminate | reflexivity]); reflexivity.
Defined.

Lemma VersionCompare_bare_is_rc1_witness :
  _LKGMCandidateInfo.VersionCompare no_version_file (PyStr "1.2.3.4.xml")
    = _LKGMCandidateInfo.VersionCompare no_version_file (PyStr "1.2.3.4-rc1.xml").
Proof.
  apply (VersionCompare_bare_is_rc1 no_version_file "1" "2" "3" "4" ".xml" ".xml");
    try (split; [discriminate | reflexivity]); reflexivity.
Defined.

Lemma GetLatestLKGMCandidate_never_a_candidate_witness :
  version_fields version_1_2_3_4 1 2 3 4 /\
  (LKGMManager._GetLatestLKGMCandidate no_version_file
     ["1.2.3.4-rc1"; "1.2.3.4-rc2"] version_1_2_3_4 = Raise TypeError <->
   ~ In "1.2.3.4" ["1.2.3.4-rc1"; "1.2.3.4-rc2"]).
Proof.
  assert (F : version_fields version_1_2_3_4 1 2 3 4).
  { repeat split; vm_compute; reflexivity. }
  split; [exact F|].
  apply (GetLatestLKGMCandidate_never_a_candidate no_version_file
           ["1.2.3.4-rc1"; "1.2.3.4-rc2"] version_1_2_3_4 1 2 3 4 F).
Defined.

Lemma GetNextLKGMCandidate_adopts_latest_witness :
  fst (LKGMManager.GetNextLKGMCandidate world read_version
         (load_latest (PyStr "1.2.3.4-rc2")) set_in_flight
         (PyStr "chromeos_version.sh") 0 (a_state [] quiet_world))
    = Ok (PyStr "1.2.3.4-rc2") /\
  fst (LKGMManager.GetNextLKGMCandidate world read_version
         (load_latest PyNone) set_in_flight
         (PyStr "chromeos_version.sh") 0 (a_state [] quiet_world))
    = Ok PyNone.
Proof.
  split.
  - destruct (GetNextLKGMCandidate_adopts_latest world read_version
                (load_latest (PyStr "1.2.3.4-rc2")) set_in_flight
                (PyStr "chromeos_version.sh") 0 (a_state [] quiet_world)
                version_1_2_3_4 _ _ _ _ eq_refl eq_refl) as [_ H].
    rewrite (H "1.2.3.4-rc2" _ _ eq_refl ltac:(discriminate) eq_refl). reflexivity.
  - destruct (GetNextLKGMCandidate_adopts_latest world read_version
                (load_latest PyNone) set_in_flight
                (PyStr "chromeos_version.sh") 0 (a_state [] quiet_world)
                version_1_2_3_4 _ _ _ _ eq_refl eq_refl) as [H _].
    rewrite (H eq_refl). reflexivity.
Defined.

Lemma poll_loop_keeps_terminal_witness :
  exists l' st',
    LKGMManager.poll_loop world w_time w_sleep w_lexists w_RunCommand 301 0 "/m"
      (LKGMManager.status_file "/m" "pass" "1.2" "1.2.3.4-rc1.xml")
      (LKGMManager.status_file "/m" "fail" "1.2" "1.2.3.4-rc1.xml")
      (LKGMManager.status_file "/m" "inflight" "1.2" "1.2.3.4-rc1.xml")
      ["A"] (LKGMManager.mkLocals {[ "A" := PyStr "fail" ]} 1)
      (a_state [] (mkWorld 0 0 100 [marker_of_A "pass"]))
      = Some (Ok l', st') /\
    LKGMManager.other_statuses l' !! "A" = Some (PyStr "fail").
Proof.
  eexists _, _. split; [vm_compute; reflexivity|].
  eapply (poll_loop_keeps_terminal world w_time w_sleep w_lexists w_RunCommand
           301 0 "/m"
           (LKGMManager.status_file "/m" "pass" "1.2" "1.2.3.4-rc1.xml")
           (LKGMManager.status_file "/m" "fail" "1.2" "1.2.3.4-rc1.xml")
           (LKGMManager.status_file "/m" "inflight" "1.2" "1.2.3.4-rc1.xml")
           ["A"] (LKGMManager.mkLocals {[ "A" := PyStr "fail" ]} 1) _
           (a_state [] (mkWorld 0 0 100 [marker_of_A "pass"])) _ "A" (PyStr "fail")).
  - vm_compute. reflexivity.
  - vm_compute. reflexivity.
  - reflexivity.
Defined.

Lemma poll_loop_records_nothing_witness :
  poll_round_in quiet_world ["B"; "A"]%string
    (LKGMManager.mkLocals {[ "B"%string := PyStr "pass" ]} 1)
    = (Raise ValueError,
       LKGMManager.mkState world (a_manager []) (mkWorld 2 0 1 []) sync_events) /\
  forall l' st',
    poll_loop_in (mkWorld 0 300 1 []) 301 ["A"%string] (LKGMManager.mkLocals ∅ 0)
      = Some (Ok l', st') ->
    l' = LKGMManager.mkLocals ∅ 0.
Proof.
  destruct (poll_loop_records_nothing world w_time w_sleep w_lexists w_RunCommand
              "/m" "1.2" "1.2.3.4-rc1.xml" eq_refl eq_refl eq_refl) as [H1 H2].
  split.
  - apply (H1 "/m"%string ["B"; "A"]%string _ (a_state [] quiet_world) _ "A"%string).
    + right. left. reflexivity.
    + vm_compute. reflexivity.
    + vm_compute. reflexivity.
  - intros l' st'. apply H2.
Defined.


Lemma poll_loop_no_early_exit_witness :
  exists st',
    poll_loop_in passed_world 301 ["A"%string]
      (LKGMManager.mkLocals {[ "A"%string := PyStr "pass" ]} 1)
      = Some (Ok (LKGMManager.mkLocals {[ "A"%string := PyStr "pass" ]} 1), st') /\
    exists w t,
      w_time w = (t, LKGMManager.world world st') /\ 300 <= t - 0.
Proof.
  assert (H1 : forall w, clock w <= fst (w_time w) /\ fst (w_time w) <= clock (snd (w_time w))).
  { intros w. simpl. lia. }
  assert (H2 : forall cmd cwd w,
             fst (w_RunCommand cmd cwd w) = Ok tt ->
             clock w + 1 <= clock (snd (w_RunCommand cmd cwd w))).
  { intros cmd cwd w _. simpl. lia. }
  assert (H3 : forall secs w, clock w <= clock (w_sleep secs w)).
  { intros secs w. simpl. lia. }
  destruct (poll_loop_no_early_exit world w_time w_sleep w_lexists w_RunCommand
              clock H1 H2 H3 0 "/m" (template "pass") (template "fail")
              (template "inflight") ["A"%string]
              (LKGMManager.mkLocals {[ "A"%string := PyStr "pass" ]} 1)
              (a_state [] passed_world) ltac:(simpl; lia)) as (r & st' & E & Hr).
  exists st'.
  assert (R : r = Ok (LKGMManager.mkLocals {[ "A"%string := PyStr "pass" ]} 1)).
  { vm_compute in E. injection E as <- _. vm_compute. reflexivity. }
  split; [unfold poll_loop_in; rewrite E, R; reflexivity|].
  exact (Hr _ R).
Defined.


Lemma poll_loop_statuses_witness :
  exists l' st',
    poll_loop_in passed_world 301 ["A"%string]
      (LKGMManager.mkLocals {[ "A"%string := PyStr "fail" ]} 1)
      = Some (Ok l', st') /\
    LKGMManager.other_statuses l' !! "A"%string = Some (PyStr "fail") /\
    In "A"%string ["A"%string] /\ is_status (PyStr "fail") = true.
Proof.
  eexists _, _. split; [vm_compute; reflexivity|].
  split; [vm_compute; reflexivity|].
  eapply (poll_loop_statuses world w_time w_sleep w_lexists w_RunCommand
            301 0 "/m" (template "pass") (template "fail") (template "inflight")
            ["A"%string] (LKGMManager.mkLocals {[ "A"%string := PyStr "fail" ]} 1) _
            (a_state [] passed_world) _ "A"%string (PyStr "fail")).
  - intros k w H. cbn [LKGMManager.other_statuses] in H.
    apply lookup_singleton_Some in H as [<- <-]. split; [now left | reflexivity].
  - vm_compute. reflexivity.
  - vm_compute. reflexivity.
Defined.

Lemma poll_loop_count_witness :
  exists l' st',
    poll_loop_in passed_world 301 ["A"%string]
      (LKGMManager.mkLocals {[ "A"%string := PyStr "pass" ]} 1)
      = Some (Ok l', st') /\
    (LKGMManager.num_complete l' = Z.of_nat (length ["A"%string]) <->
     NoDup ["A"%string] /\
     forall builder, In builder ["A"%string] ->
       LKGMManager.other_statuses l' !! builder = Some (PyStr "pass") \/
       LKGMManager.other_statuses l' !! builder = Some (PyStr "fail")).
Proof.
  assert (C : counted ["A"%string]
                (LKGMManager.mkLocals {[ "A"%string := PyStr "pass" ]} 1)).
  { exists {[ "A"%string ]}. split; [|split].
    - intros k. cbn [LKGMManager.other_statuses]. rewrite elem_of_singleton. split.
      + intros ->. exists (PyStr "pass"). split; [|reflexivity].
        apply lookup_singleton_Some. auto.
      + intros (v & Hv & _). apply lookup_singleton_Some in Hv as [<- _]. reflexivity.
    - rewrite size_singleton. reflexivity.
    - intros x Hx. apply elem_of_singleton in Hx. subst x.
      apply elem_of_list_to_set. constructor. }
  eexists _, _. split; [vm_compute; reflexivity|].
  eapply (poll_loop_count world w_time w_sleep w_lexists w_RunCommand
            301 0 "/m" (template "pass") (template "fail") (template "inflight")
            ["A"%string] (LKGMManager.mkLocals {[ "A"%string := PyStr "pass" ]} 1) _
            (a_state [] passed_world) _ C).
  vm_compute. reflexivity.
Defined.

Lemma poll_loop_repeated_name_witness :
  exists l' st',
    poll_loop_in passed_world 301 ["A"; "A"]%string
      (LKGMManager.mkLocals {[ "A"%string := PyStr "pass" ]} 1)
      = Some (Ok l', st') /\
    LKGMManager.other_statuses l' = {[ "A"%string := PyStr "pass" ]} /\
    LKGMManager.num_complete l' < Z.of_nat (length ["A"; "A"]%string) /\
    LKGMManager.report world ["A"; "A"]%string l' st'
      = (Ok (LKGMManager.other_statuses l'),
         LKGMManager.mkState world (LKGMManager.self world st')
           (LKGMManager.world world st')
           (LKGMManager.trace world st' ++ [timeout_record])).
Proof.
  assert (C : counted ["A"; "A"]%string
                (LKGMManager.mkLocals {[ "A"%string := PyStr "pass" ]} 1)).
  { exists {[ "A"%string ]}. split; [|split].
    - intros k. cbn [LKGMManager.other_statuses]. rewrite elem_of_singleton. split.
      + intros ->. exists (PyStr "pass"). split; [|reflexivity].
        apply lookup_singleton_Some. auto.
      + intros (v & Hv & _). apply lookup_singleton_Some in Hv as [<- _]. reflexivity.
    - rewrite size_singleton. reflexivity.
    - intros x Hx. apply elem_of_singleton in Hx. subst x.
      apply elem_of_list_to_set. constructor. }
  assert (D : ~ NoDup ["A"; "A"]%string).
  { intros H. inversion H as [|? ? Hn _]. apply Hn. constructor. }
  eexists _, _. split; [vm_compute; reflexivity|].
  split; [vm_compute; reflexivity|].
  eapply (poll_loop_repeated_name world w_time w_sleep w_lexists w_RunCommand
            301 0 "/m" (template "pass") (template "fail") (template "inflight")
            ["A"; "A"]%string (LKGMManager.mkLocals {[ "A"%string := PyStr "pass" ]} 1) _
            (a_state [] passed_world) _ C D).
  vm_compute. reflexivity.
Defined.

Lemma claim_current_version_message_witness :
  LKGMManager.claim_current_version world set_in_flight (a_state [] quiet_world)
    = (Ok tt,
       LKGMManager.mkState world (a_manager []) quiet_world
         [LKGMManager.EvLog "debug" "Using build spec: %s" [PyStr "1.2.3.4-rc1"];
          LKGMManager.EvCall "_SetInFlight"]).
Proof.
  destruct (claim_current_version_message world set_in_flight (a_state [] quiet_world))
    as [_ H].
  rewrite (H "1.2.3.4-rc1" eq_refl ltac:(discriminate)). reflexivity.
Defined.

Lemma CreateNextLKGMCandidate_unpublished_version_witness :
  CreateNext_in read_version ["1.2.3.4-rc1"%string] set_in_flight
    = (Raise TypeError,
       LKGMManager.mkState world (a_manager ["1.2.3.4-rc1"%string]) quiet_world
         [LKGMManager.EvCall "_GetCurrentVersionInfo"; LKGMManager.EvCall "_LoadSpecs"]).
Proof.
  apply (CreateNextLKGMCandidate_unpublished_version world no_version_file read_version
           (load_specs ["1.2.3.4-rc1"%string]) set_in_flight new_build_spec
           (PyStr "chromeos_version.sh") 0 (a_state [] quiet_world) version_1_2_3_4
           (a_manager []) (a_manager ["1.2.3.4-rc1"%string]) quiet_world quiet_world
           1 2 3 4 eq_refl eq_refl).
  - repeat split; vm_compute; reflexivity.
  - intros [H|[]]. discriminate.
Defined.

Lemma CreateNextLKGMCandidate_passes_a_list_witness :
  CreateNext_in read_version ["1.2.3.4"%string] set_in_flight
    = LKGMManager.CreateNextLKGMCandidate world no_version_file read_version
        (load_specs ["1.2.3.4"%string]) spec_from_list set_in_flight
        (PyStr "chromeos_version.sh") 0 (a_state [] quiet_world).
Proof.
  apply (CreateNextLKGMCandidate_passes_a_list world no_version_file read_version
           (load_specs ["1.2.3.4"%string]) set_in_flight new_build_spec spec_from_list
           (PyStr "chromeos_version.sh") 0 (a_state [] quiet_world) version_1_2_3_4
           (a_manager []) (a_manager ["1.2.3.4"%string]) quiet_world quiet_world
           1 2 3 4 eq_refl eq_refl).
  - repeat split; vm_compute; reflexivity.
  - reflexivity.
Defined.
